(** * Task-Tracker-App: the task entity, the store and its persistence

    A shallow embedding of [main.py].  The three classes of the program are
    the three modules [Task], [TaskDialog] and [TodoApp]; the parts of
    Python's [datetime] module the program calls are in [Datetime].

    Conventions of the embedding.
    - A Python [str] is a [string] whose characters are code points
      below 256.
    - Python is dynamically typed: a field that the program stores without
      converting it ([title], [priority], [completed], ...) holds a
      [pyval].  JSON numbers with a fraction or an exponent are not
      represented.
    - [datetime.now()] is an explicit argument [now]; where the program
      reads the clock once per task of a loop, the loop takes a function
      from the position of the task to the reading.
    - A raised exception is the [Raise] outcome of a [result].
    - [json.dump] followed by [json.load] is the identity on documents; a
      file holds a document, or a prefix of the text of one. *)

From Stdlib Require Import ZArith List String Ascii Bool Lia.
From Stdlib Require Import Sorted Permutation.
From Stdlib Require OrderedTypeEx.
Import ListNotations.

Open Scope Z_scope.
Open Scope string_scope.

Set Warnings "-register-all".

(** ** Python values and exceptions *)

Module Py.

Inductive exn : Type :=
| TypeError
| ValueError
| OverflowError
| AttributeError
| OSError.

Inductive result (A : Type) : Type :=
| Ok (a : A)
| Raise (e : exn).

Arguments Ok {A} a.
Arguments Raise {A} e.

Definition bind {A B : Type} (r : result A) (k : A -> result B) : result B :=
  match r with
  | Ok a => k a
  | Raise e => Raise e
  end.

(** The values [json.load] produces. *)
Inductive pyval : Type :=
| PNone
| PBool (b : bool)
| PInt (n : Z)
| PStr (s : string)
| PList (l : list pyval)
| PDict (d : list (string * pyval)).

(** Truth value testing, as [if x] and [not x] do it. *)
Definition truthy (v : pyval) : bool :=
  match v with
  | PNone => false
  | PBool b => b
  | PInt n => negb (n =? 0)%Z
  | PStr s => negb (String.eqb s "")
  | PList l => match l with [] => false | _ :: _ => true end
  | PDict d => match d with [] => false | _ :: _ => true end
  end.

(** [v == "literal"]: a value equals a string only if it is that string. *)
Definition eq_str (v : pyval) (lit : string) : bool :=
  match v with
  | PStr s => String.eqb s lit
  | _ => false
  end.

(** [hash(v)] raises [TypeError] on lists and dicts. *)
Definition hashable (v : pyval) : bool :=
  match v with
  | PList _ | PDict _ => false
  | _ => true
  end.

(** A dict with string keys, as [json.load] builds one. *)
Definition dict : Type := list (string * pyval).

Fixpoint lookup (k : string) (d : dict) : option pyval :=
  match d with
  | [] => None
  | (k', v) :: d' => if String.eqb k k' then Some v else lookup k d'
  end.

(** [d.get(k, default)] *)
Definition get (d : dict) (k : string) (default : pyval) : pyval :=
  match lookup k d with
  | Some v => v
  | None => default
  end.

(** [str.lower()] on code points below 256: A-Z and the accented capitals
    0xC0-0xDE (0xD7, the multiplication sign, apart) move up by 32. *)
Definition lower_char (c : ascii) : ascii :=
  let n := N_of_ascii c in
  if ((65 <=? n) && (n <=? 90))%N then ascii_of_N (n + 32)
  else if ((192 <=? n) && (n <=? 222) && negb (n =? 215))%N then ascii_of_N (n + 32)
  else c.

Fixpoint lower (s : string) : string :=
  match s with
  | EmptyString => EmptyString
  | String c s' => String (lower_char c) (lower s')
  end.

(** The characters [str.strip()] removes, below 256. *)
Definition is_space (c : ascii) : bool :=
  let n := N_of_ascii c in
  (((9 <=? n) && (n <=? 13)) || ((28 <=? n) && (n <=? 32))
   || (n =? 133) || (n =? 160))%N.

Fixpoint lstrip (s : string) : string :=
  match s with
  | EmptyString => EmptyString
  | String c s' => if is_space c then lstrip s' else s
  end.

Fixpoint rstrip (s : string) : string :=
  match s with
  | EmptyString => EmptyString
  | String c s' =>
      match rstrip s' with
      | EmptyString => if is_space c then EmptyString else String c EmptyString
      | r => String c r
      end
  end.

Definition strip (s : string) : string := rstrip (lstrip s).

End Py.

Export Py.

Declare Scope result_scope.
Notation "x <- r ;; k" := (bind r (fun x => k))
  (at level 61, r at next level, right associativity) : result_scope.
Open Scope result_scope.

(** ** The parts of Python's [datetime] module the program calls *)

Module Datetime.

(** [datetime.date], [datetime.time] (naive: the program never builds an
    aware one) and [datetime.datetime]. *)
Record date : Type := mkdate { year : Z; month : Z; day : Z }.

Record time : Type :=
  mktime { hour : Z; minute : Z; second : Z; microsecond : Z }.

Record datetime : Type := combine { d_date : date; d_time : time }.

Definition MINYEAR : Z := 1.
Definition MAXYEAR : Z := 9999.
Definition MAXORDINAL : Z := 3652059.

Definition is_leap (y : Z) : bool :=
  (y mod 4 =? 0)%Z && (negb (y mod 100 =? 0)%Z || (y mod 400 =? 0)%Z).

Definition DAYS_IN_MONTH (m : Z) : Z :=
  nth (Z.to_nat m) [-1; 31; 28; 31; 30; 31; 30; 31; 31; 30; 31; 30; 31] 0.

Definition DAYS_BEFORE_MONTH (m : Z) : Z :=
  nth (Z.to_nat m) [-1; 0; 31; 59; 90; 120; 151; 181; 212; 243; 273; 304; 334] 0.

Definition days_before_year (y : Z) : Z :=
  let y := y - 1 in
  y * 365 + y / 4 - y / 100 + y / 400.

Definition days_in_month (y m : Z) : Z :=
  if (m =? 2)%Z && is_leap y then 29 else DAYS_IN_MONTH m.

Definition days_before_month (y m : Z) : Z :=
  DAYS_BEFORE_MONTH m + (if (2 <? m)%Z && is_leap y then 1 else 0).

Definition ymd2ord (d : date) : Z :=
  days_before_year (year d) + days_before_month (year d) (month d) + day d.

Definition DI400Y : Z := 146097.
Definition DI100Y : Z := 36524.
Definition DI4Y : Z := 1461.

Definition ord2ymd (n : Z) : date :=
  let n := n - 1 in
  let n400 := n / DI400Y in
  let n := n mod DI400Y in
  let y := n400 * 400 + 1 in
  let n100 := n / DI100Y in
  let n := n mod DI100Y in
  let n4 := n / DI4Y in
  let n := n mod DI4Y in
  let n1 := n / 365 in
  let n := n mod 365 in
  let y := y + n100 * 100 + n4 * 4 + n1 in
  if (n1 =? 4)%Z || (n100 =? 4)%Z then mkdate (y - 1) 12 31
  else
    let leapyear := (n1 =? 3)%Z && (negb (n4 =? 24)%Z || (n100 =? 3)%Z) in
    let m := Z.shiftr (n + 50) 5 in
    let preceding :=
      DAYS_BEFORE_MONTH m + (if (2 <? m)%Z && leapyear then 1 else 0) in
    if (n <? preceding)%Z then
      let m := m - 1 in
      let preceding :=
        preceding
        - (DAYS_IN_MONTH m + (if (m =? 2)%Z && leapyear then 1 else 0)) in
      mkdate y m (n - preceding + 1)
    else mkdate y m (n - preceding + 1).

(** What the constructors check; a Python object always satisfies it. *)
Definition valid_date (d : date) : bool :=
  (MINYEAR <=? year d)%Z && (year d <=? MAXYEAR)%Z
  && (1 <=? month d)%Z && (month d <=? 12)%Z
  && (1 <=? day d)%Z && (day d <=? days_in_month (year d) (month d))%Z.

Definition valid_time (t : time) : bool :=
  (0 <=? hour t)%Z && (hour t <? 24)%Z
  && (0 <=? minute t)%Z && (minute t <? 60)%Z
  && (0 <=? second t)%Z && (second t <? 60)%Z
  && (0 <=? microsecond t)%Z && (microsecond t <? 1000000)%Z.

Definition valid_datetime (dt : datetime) : bool :=
  valid_date (d_date dt) && valid_time (d_time dt).

(** [datetime.max] *)
Definition datetime_max : datetime :=
  combine (mkdate 9999 12 31) (mktime 23 59 59 999999).

(** Comparison of naive datetimes: the tuples (year, month, day, hour,
    minute, second, microsecond) in lexicographic order. *)
Definition fields (dt : datetime) : list Z :=
  [year (d_date dt); month (d_date dt); day (d_date dt);
   hour (d_time dt); minute (d_time dt); second (d_time dt);
   microsecond (d_time dt)].

Fixpoint lex_compare (a b : list Z) : comparison :=
  match a, b with
  | [], [] => Eq
  | [], _ :: _ => Lt
  | _ :: _, [] => Gt
  | x :: a', y :: b' =>
      match (x ?= y)%Z with
      | Eq => lex_compare a' b'
      | c => c
      end
  end.

Definition compare (a b : datetime) : comparison :=
  lex_compare (fields a) (fields b).

(** [a < b], [a <= b] *)
Definition ltb (a b : datetime) : bool :=
  match compare a b with Lt => true | _ => false end.

Definition leb (a b : datetime) : bool :=
  match compare a b with Gt => false | _ => true end.

(** A [timedelta], as its number of microseconds. *)
Definition timedelta : Type := Z.

Definition US_PER_MINUTE : Z := 60000000.
Definition US_PER_DAY : Z := 86400000000.

(** [timedelta(minutes=v)]: [v] must be a number ([bool] is a subclass of
    [int]), and the result within 999999999 days of zero. *)
Definition timedelta_of_minutes (n : Z) : result timedelta :=
  let us := n * US_PER_MINUTE in
  if (Z.abs (us / US_PER_DAY) <=? 999999999)%Z then Ok us
  else Raise OverflowError.

Definition timedelta_minutes (v : pyval) : result timedelta :=
  match v with
  | PInt n => timedelta_of_minutes n
  | PBool b => timedelta_of_minutes (if b then 1 else 0)
  | _ => Raise TypeError
  end.

Definition time_us (t : time) : Z :=
  ((hour t * 60 + minute t) * 60 + second t) * 1000000 + microsecond t.

Definition time_of_us (us : Z) : time :=
  let secs := us / 1000000 in
  mktime (secs / 3600) ((secs mod 3600) / 60) ((secs mod 3600) mod 60)
         (us mod 1000000).

(** [dt - td]: the ordinal of the date and the time of day make one duration,
    [td] is taken off, and the days of the difference must be the ordinal of
    a date. *)
Definition sub (dt : datetime) (td : timedelta) : result datetime :=
  let total := ymd2ord (d_date dt) * US_PER_DAY + time_us (d_time dt) - td in
  let days := total / US_PER_DAY in
  if (0 <? days)%Z && (days <=? MAXORDINAL)%Z
  then Ok (combine (ord2ymd days) (time_of_us (total mod US_PER_DAY)))
  else Raise OverflowError.

(** *** Printing: [isoformat()] *)

Definition digit_char (d : Z) : ascii := ascii_of_N (48 + Z.to_N d).

Fixpoint digits_aux (fuel : nat) (n : Z) (acc : string) : string :=
  match fuel with
  | O => acc
  | S fuel' =>
      let acc' := String (digit_char (n mod 10)) acc in
      if (n / 10 =? 0)%Z then acc' else digits_aux fuel' (n / 10) acc'
  end.

(** The decimal digits of [n >= 0]. *)
Definition digits (n : Z) : string :=
  digits_aux (S (Z.to_nat (Z.log2 n))) n "".

Fixpoint zeros (k : nat) : string :=
  match k with
  | O => ""
  | S k' => String "0" (zeros k')
  end.

(** ["%0wd" % n] *)
Definition pad0 (w : nat) (n : Z) : string :=
  if (n <? 0)%Z then
    let ds := digits (- n) in
    String "-" (zeros (w - 1 - String.length ds) ++ ds)
  else
    let ds := digits n in
    zeros (w - String.length ds) ++ ds.

(** [date.isoformat()]: YYYY-MM-DD *)
Definition date_isoformat (d : date) : string :=
  pad0 4 (year d) ++ "-" ++ pad0 2 (month d) ++ "-" ++ pad0 2 (day d).

(** [time.isoformat()]: HH:MM:SS, and .ffffff when the microseconds are not
    zero. *)
Definition time_isoformat (t : time) : string :=
  pad0 2 (hour t) ++ ":" ++ pad0 2 (minute t) ++ ":" ++ pad0 2 (second t)
  ++ (if (microsecond t =? 0)%Z then "" else "." ++ pad0 6 (microsecond t)).

(** [datetime.isoformat()] *)
Definition isoformat (dt : datetime) : string :=
  date_isoformat (d_date dt) ++ "T" ++ time_isoformat (d_time dt).

(** *** Parsing *)

Definition is_digit (c : ascii) : bool :=
  let n := N_of_ascii c in ((48 <=? n) && (n <=? 57))%N.

Definition digit_val (c : ascii) : Z := Z.of_N (N_of_ascii c) - 48.

(** The value of the first [k] characters, all of them digits, and the
    rest of the string. *)
Fixpoint parse_digits (k : nat) (acc : Z) (s : string) : option (Z * string) :=
  match k with
  | O => Some (acc, s)
  | S k' =>
      match s with
      | String c s' =>
          if is_digit c then parse_digits k' (acc * 10 + digit_val c) s'
          else None
      | EmptyString => None
      end
  end.

(** HH[:MM[:SS[.fff[fff]]]], the whole string. *)
Definition parse_fraction (f : string) : option Z :=
  match String.length f with
  | 3%nat =>
      match parse_digits 3 0 f with
      | Some (v, _) => Some (v * 1000)
      | None => None
      end
  | 6%nat =>
      match parse_digits 6 0 f with
      | Some (v, _) => Some v
      | None => None
      end
  | _ => None
  end.

Definition parse_hh_mm_ss_ff (s : string) : option time :=
  match parse_digits 2 0 s with
  | None => None
  | Some (h, EmptyString) => Some (mktime h 0 0 0)
  | Some (h, String c1 r1) =>
      if negb (Ascii.eqb c1 ":") then None else
      match parse_digits 2 0 r1 with
      | None => None
      | Some (m, EmptyString) => Some (mktime h m 0 0)
      | Some (m, String c2 r2) =>
          if negb (Ascii.eqb c2 ":") then None else
          match parse_digits 2 0 r2 with
          | None => None
          | Some (sec, EmptyString) => Some (mktime h m sec 0)
          | Some (sec, String c3 f) =>
              if negb (Ascii.eqb c3 ".") then None else
              match parse_fraction f with
              | Some us => Some (mktime h m sec us)
              | None => None
              end
          end
      end
  end.

(** The time part and, after the first + or -, the UTC offset. *)
Fixpoint split_offset (s : string) : string * option string :=
  match s with
  | EmptyString => (EmptyString, None)
  | String c s' =>
      if Ascii.eqb c "+" || Ascii.eqb c "-" then (EmptyString, Some s')
      else let (t, o) := split_offset s' in (String c t, o)
  end.

(** An offset is HH:MM, HH:MM:SS or HH:MM:SS.ffffff and strictly shorter
    than a day. *)
Definition offset_ok (o : string) : bool :=
  match String.length o with
  | 5%nat | 8%nat | 15%nat =>
      match parse_hh_mm_ss_ff o with
      | Some t => (time_us t <? US_PER_DAY)%Z
      | None => false
      end
  | _ => false
  end.

Definition parse_isoformat_time (s : string) : option time :=
  let (t, o) := split_offset s in
  match parse_hh_mm_ss_ff t, o with
  | Some tm, None => Some tm
  | Some tm, Some off => if offset_ok off then Some tm else None
  | None, _ => None
  end.

(** YYYY-MM-DD and the rest of the string. *)
Definition parse_isoformat_date (s : string) : option (date * string) :=
  match parse_digits 4 0 s with
  | Some (y, String c1 r1) =>
      if negb (Ascii.eqb c1 "-") then None else
      match parse_digits 2 0 r1 with
      | Some (m, String c2 r2) =>
          if negb (Ascii.eqb c2 "-") then None else
          match parse_digits 2 0 r2 with
          | Some (d, rest) => Some (mkdate y m d, rest)
          | None => None
          end
      | _ => None
      end
  | _ => None
  end.

(** [datetime.fromisoformat(s)] for a string [s], on the grammar
    YYYY-MM-DD[*HH[:MM[:SS[.fff[fff]]]][+HH:MM[:SS[.ffffff]]]]
    of Python 3.7 to 3.10, where the star is any one character; [None] is
    [ValueError].  The offset is parsed and dropped: the program keeps
    only [.date()] or [.time()] of the result. *)
Definition fromisoformat (s : string) : option datetime :=
  match parse_isoformat_date s with
  | None => None
  | Some (d, rest) =>
      let r :=
        match rest with
        | EmptyString => Some (combine d (mktime 0 0 0 0))
        | String _ tstr =>
            match parse_isoformat_time tstr with
            | Some t => Some (combine d t)
            | None => None
            end
        end in
      match r with
      | Some dt => if valid_datetime dt then Some dt else None
      | None => None
      end
  end.

(** One field of [strptime]: one or two digits up to the next colon (or
    the end), as the patterns of %H, %M and %S read them. *)
Definition parse_field (s : string) : option (Z * string) :=
  match s with
  | String a (String b rest) =>
      if is_digit a && is_digit b then Some (digit_val a * 10 + digit_val b, rest)
      else if is_digit a then Some (digit_val a, String b rest)
      else None
  | String a EmptyString =>
      if is_digit a then Some (digit_val a, EmptyString) else None
  | EmptyString => None
  end.

(** [datetime.strptime(s, '%H:%M:%S').time()] for a string [s]; [None] is
    [ValueError]. *)
Definition strptime_HMS (s : string) : option time :=
  match parse_field s with
  | Some (h, String c1 r1) =>
      if negb (Ascii.eqb c1 ":") then None else
      match parse_field r1 with
      | Some (m, String c2 r2) =>
          if negb (Ascii.eqb c2 ":") then None else
          match parse_field r2 with
          | Some (sec, EmptyString) =>
              let t := mktime h m sec 0 in
              if valid_time t then Some t else None
          | _ => None
          end
      | _ => None
      end
  | _ => None
  end.

End Datetime.

(** ** class Task *)

Module Task.

Record t : Type := mk {
  title : pyval;
  description : pyval;
  priority : pyval;
  deadline : option Datetime.date;
  deadline_time : option Datetime.time;
  notify_enabled : pyval;
  notify_before_minutes : pyval;
  completed : pyval;
  created_at : pyval;
  notified : pyval
}.

(** [Task(title, description, priority, deadline, deadline_time,
    notify_enabled, notify_before_minutes, completed)]; [now] is the clock
    reading [__init__] takes for [created_at]. *)
Definition init (now : Datetime.datetime)
    (title description priority : pyval)
    (deadline : option Datetime.date) (deadline_time : option Datetime.time)
    (notify_enabled notify_before_minutes completed : pyval) : t :=
  {| title := title;
     description := description;
     priority := priority;
     deadline := deadline;
     deadline_time := deadline_time;
     notify_enabled := notify_enabled;
     notify_before_minutes := notify_before_minutes;
     completed := completed;
     created_at := PStr (Datetime.isoformat now);
     notified := PBool false |}.

(** [Task()], every argument at its default. *)
Definition init_default (now : Datetime.datetime) : t :=
  init now (PStr "") (PStr "") (PStr "Medium") None None
       (PBool false) (PInt 30) (PBool false).

(** Field updates, [task.f = v]. *)
Definition set_completed (v : pyval) (task : t) : t :=
  {| title := title task; description := description task;
     priority := priority task; deadline := deadline task;
     deadline_time := deadline_time task;
     notify_enabled := notify_enabled task;
     notify_before_minutes := notify_before_minutes task;
     completed := v;
     created_at := created_at task; notified := notified task |}.

Definition set_notified (v : pyval) (task : t) : t :=
  {| title := title task; description := description task;
     priority := priority task; deadline := deadline task;
     deadline_time := deadline_time task;
     notify_enabled := notify_enabled task;
     notify_before_minutes := notify_before_minutes task;
     completed := completed task;
     created_at := created_at task; notified := v |}.

(** Dates and times are always true in a condition (Python 3.5 and later),
    so [if self.deadline and self.deadline_time] tests for [None] only. *)
Definition get_deadline_datetime (self : t) : option Datetime.datetime :=
  match deadline self, deadline_time self with
  | Some d, Some tm => Some (Datetime.combine d tm)
  | Some d, None => Some (Datetime.combine d (Datetime.mktime 23 59 0 0))
  | None, _ => None
  end.

Definition is_overdue (now : Datetime.datetime) (self : t) : bool :=
  match get_deadline_datetime self with
  | Some deadline_dt =>
      if negb (truthy (completed self)) then Datetime.ltb deadline_dt now
      else false
  | None => false
  end.

Definition should_notify (now : Datetime.datetime) (self : t) : result bool :=
  if negb (truthy (notify_enabled self)) || truthy (completed self)
     || truthy (notified self)
  then Ok false
  else
    match get_deadline_datetime self with
    | None => Ok false
    | Some deadline_dt =>
        td <- Datetime.timedelta_minutes (notify_before_minutes self) ;;
        notification_time <- Datetime.sub deadline_dt td ;;
        Ok (Datetime.leb notification_time now)
    end.

Definition to_dict (self : t) : dict :=
  [ ("title", title self);
    ("description", description self);
    ("priority", priority self);
    ("deadline",
      match deadline self with
      | Some d => PStr (Datetime.date_isoformat d)
      | None => PNone
      end);
    ("deadline_time",
      match deadline_time self with
      | Some tm => PStr (Datetime.time_isoformat tm)
      | None => PNone
      end);
    ("notify_enabled", notify_enabled self);
    ("notify_before_minutes", notify_before_minutes self);
    ("completed", completed self);
    ("created_at", created_at self);
    ("notified", notified self) ].

(** [datetime.fromisoformat(v)]: [TypeError] unless [v] is a string. *)
Definition fromisoformat (v : pyval) : result Datetime.datetime :=
  match v with
  | PStr s =>
      match Datetime.fromisoformat s with
      | Some dt => Ok dt
      | None => Raise ValueError
      end
  | _ => Raise TypeError
  end.

(** [datetime.strptime(v, '%H:%M:%S')]: [TypeError] unless [v] is a
    string. *)
Definition strptime_HMS (v : pyval) : result Datetime.time :=
  match v with
  | PStr s =>
      match Datetime.strptime_HMS s with
      | Some tm => Ok tm
      | None => Raise ValueError
      end
  | _ => Raise TypeError
  end.

(** The [deadline] field of a record: parsed when present and true. *)
Definition load_deadline (data : dict) : result (option Datetime.date) :=
  if truthy (get data "deadline" PNone) then
    dt <- fromisoformat (get data "deadline" PNone) ;;
    Ok (Some (Datetime.d_date dt))
  else Ok None.

(** The [deadline_time] field: the two formats in turn; only [ValueError]
    is caught. *)
Definition load_deadline_time (data : dict) : result (option Datetime.time) :=
  let deadline_time_str := get data "deadline_time" PNone in
  if truthy deadline_time_str then
    match strptime_HMS deadline_time_str with
    | Ok tm => Ok (Some tm)
    | Raise ValueError =>
        match fromisoformat deadline_time_str with
        | Ok dt => Ok (Some (Datetime.d_time dt))
        | Raise ValueError => Ok None
        | Raise e => Raise e
        end
    | Raise e => Raise e
    end
  else Ok None.

(** [Task.from_dict(data)]; [data.get] needs [data] to be a dict. *)
Definition from_dict (now : Datetime.datetime) (data : pyval) : result t :=
  match data with
  | PDict data =>
      d <- load_deadline data ;;
      tm <- load_deadline_time data ;;
      Ok {| title := get data "title" (PStr "");
            description := get data "description" (PStr "");
            priority := get data "priority" (PStr "Medium");
            deadline := d;
            deadline_time := tm;
            notify_enabled := get data "notify_enabled" (PBool false);
            notify_before_minutes := get data "notify_before_minutes" (PInt 30);
            completed := get data "completed" (PBool false);
            created_at := get data "created_at" (PStr (Datetime.isoformat now));
            notified := get data "notified" (PBool false) |}
  | _ => Raise AttributeError
  end.

End Task.

(** ** class TaskDialog *)

Module TaskDialog.

(** What the widgets of the form hold when the dialog is accepted. *)
Record form : Type := mkform {
  title_edit : string;
  description_edit : string;
  priority_combo : string;
  deadline_edit : Datetime.date;
  deadline_time_edit : Datetime.time;
  notify_checkbox : bool;
  notify_before_spinbox : string
}.

(** The dict [get_task_data] returns; its keys are fixed. *)
Record task_data : Type := mkdata {
  title : string;
  description : string;
  priority : string;
  deadline : Datetime.date;
  deadline_time : Datetime.time;
  notify_enabled : bool;
  notify_before_minutes : Z
}.

Definition timing_map : list (string * Z) :=
  [ ("5 minutes", 5); ("15 minutes", 15); ("30 minutes", 30);
    ("1 hour", 60); ("2 hours", 120); ("4 hours", 240);
    ("1 day", 1440); ("2 days", 2880); ("1 week", 10080) ].

Fixpoint timing_get (m : list (string * Z)) (k : string) (default : Z) : Z :=
  match m with
  | [] => default
  | (k', v) :: m' => if String.eqb k k' then v else timing_get m' k default
  end.

(** [None] after a warning: the title is empty, or the deadline is not in
    the future. *)
Definition get_task_data (now : Datetime.datetime) (self : form)
  : option task_data :=
  let title := strip (title_edit self) in
  let description := strip (description_edit self) in
  let priority := priority_combo self in
  let deadline := deadline_edit self in
  let deadline_time := deadline_time_edit self in
  let notify_enabled := notify_checkbox self in
  let notify_before_minutes :=
    timing_get timing_map (notify_before_spinbox self) 30 in
  if String.eqb title "" then None
  else
    let deadline_datetime := Datetime.combine deadline deadline_time in
    if Datetime.leb deadline_datetime now then None
    else Some (mkdata title description priority deadline deadline_time
                      notify_enabled notify_before_minutes).

(** The map of [load_task_data], from minutes to the entry of the box. *)
Definition load_timing_map : list (Z * string) :=
  [ (5, "5 minutes"); (15, "15 minutes"); (30, "30 minutes");
    (60, "1 hour"); (120, "2 hours"); (240, "4 hours");
    (1440, "1 day"); (2880, "2 days"); (10080, "1 week") ].

Fixpoint load_timing_get (m : list (Z * string)) (k : Z) : option string :=
  match m with
  | [] => None
  | (k', v) :: m' => if (k =? k')%Z then Some v else load_timing_get m' k
  end.

(** The end of [load_task_data]: the entry the lead-time box is set to for
    the task's [notify_before_minutes].  [minutes in timing_map] hashes the
    value; the keys are integers, which [True] and [False] equal as 1 and 0
    and no string or [None] does. *)
Definition load_notify_timing (minutes : pyval) : result string :=
  match minutes with
  | PList _ | PDict _ => Raise TypeError
  | PInt n =>
      match load_timing_get load_timing_map n with
      | Some text => Ok text
      | None => Ok "30 minutes"
      end
  | PBool b =>
      match load_timing_get load_timing_map (if b then 1 else 0) with
      | Some text => Ok text
      | None => Ok "30 minutes"
      end
  | PNone | PStr _ => Ok "30 minutes"
  end.

End TaskDialog.

(** ** class TodoApp *)

Module TodoApp.

(** What [tasks.json] holds: a JSON document, or the first [written]
    characters of the text of one, the text being longer. *)
Inductive content : Type :=
| Document (doc : pyval)
| Truncated (doc : pyval) (written : nat).

(** The program state: the list [self.tasks] and the file named by
    [self.data_file] ([None]: there is no such file). *)
Record app : Type := mkapp {
  tasks : list Task.t;
  data_file : option content
}.

(** How an attempt to write the file ends: [open(..., 'w')] fails and the
    file is untouched; or the file is emptied by [open] and the writing
    stops after [written] characters; or all is written. *)
Inductive io : Type :=
| IoOk
| OpenFails
| WriteFails (written : nat).

(** What the user sees or the disk receives, in order. *)
Inductive signal : Type :=
| Critical
| Reminder (title : pyval) (deadline_dt : Datetime.datetime) (priority : pyval)
| WindowTitle (overdue_count : nat)
| Written (c : content).

(** [TodoApp.__init__] before [load_tasks]: [self.tasks = []]. *)
Definition init (data_file : option content) : app := mkapp [] data_file.

(** [[task.to_dict() for task in self.tasks]] *)
Definition document (ts : list Task.t) : pyval :=
  PList (map (fun task => PDict (Task.to_dict task)) ts).

Definition save_tasks (o : io) (self : app) : app * list signal :=
  let data := document (tasks self) in
  match o with
  | IoOk =>
      (mkapp (tasks self) (Some (Document data)), [Written (Document data)])
  | OpenFails => (self, [Critical])
  | WriteFails n =>
      (mkapp (tasks self) (Some (Truncated data n)),
       [Written (Truncated data n); Critical])
  end.

(** [for x in v]: the elements of a list, the keys of a dict, the
    characters of a string. *)
Fixpoint chars (s : string) : list pyval :=
  match s with
  | EmptyString => []
  | String c s' => PStr (String c EmptyString) :: chars s'
  end.

Definition iter (v : pyval) : result (list pyval) :=
  match v with
  | PList l => Ok l
  | PDict d => Ok (map (fun kv => PStr (fst kv)) d)
  | PStr s => Ok (chars s)
  | _ => Raise TypeError
  end.

(** [[Task.from_dict(task_data) for task_data in data]]; the record at
    position [i] is read at [clk i]. *)
Fixpoint from_dicts (clk : nat -> Datetime.datetime) (i : nat)
    (data : list pyval) : result (list Task.t) :=
  match data with
  | [] => Ok []
  | task_data :: data' =>
      task <- Task.from_dict (clk i) task_data ;;
      rest <- from_dicts clk (S i) data' ;;
      Ok (task :: rest)
  end.

(** [readable] is false when the file exists and [open] fails. *)
Definition load_tasks (readable : bool) (clk : nat -> Datetime.datetime)
    (self : app) : app * list signal :=
  match data_file self with
  | None => (self, [])
  | Some c =>
      let loaded :=
        if readable then
          match c with
          | Document doc => data <- iter doc ;; from_dicts clk 0 data
          | Truncated _ _ => Raise ValueError
          end
        else Raise OSError in
      match loaded with
      | Ok ts => (mkapp ts (data_file self), [])
      | Raise _ => (mkapp [] (data_file self), [Critical])
      end
  end.

(** [l[i] = f(l[i])], nothing when [i] is out of range. *)
Fixpoint update (i : nat) (f : Task.t -> Task.t) (l : list Task.t)
  : list Task.t :=
  match l, i with
  | [], _ => []
  | x :: l', O => f x :: l'
  | x :: l', S i' => x :: update i' f l'
  end.

Fixpoint remove_at (i : nat) (l : list Task.t) : list Task.t :=
  match l, i with
  | [], _ => []
  | _ :: l', O => l'
  | x :: l', S i' => x :: remove_at i' l'
  end.

(** The dialog was accepted with [f] in it; [now] is read by
    [get_task_data], [now'] by [Task.__init__]. *)
Definition add_task (f : TaskDialog.form) (now now' : Datetime.datetime)
    (o : io) (self : app) : app * list signal :=
  match TaskDialog.get_task_data now f with
  | Some task_data =>
      let task :=
        Task.init now'
          (PStr (TaskDialog.title task_data))
          (PStr (TaskDialog.description task_data))
          (PStr (TaskDialog.priority task_data))
          (Some (TaskDialog.deadline task_data))
          (Some (TaskDialog.deadline_time task_data))
          (PBool (TaskDialog.notify_enabled task_data))
          (PInt (TaskDialog.notify_before_minutes task_data))
          (PBool false) in
      save_tasks o (mkapp (tasks self ++ [task])%list (data_file self))
  | None => (self, [])
  end.

Definition apply_edit (task_data : TaskDialog.task_data) (task : Task.t)
  : Task.t :=
  {| Task.title := PStr (TaskDialog.title task_data);
     Task.description := PStr (TaskDialog.description task_data);
     Task.priority := PStr (TaskDialog.priority task_data);
     Task.deadline := Some (TaskDialog.deadline task_data);
     Task.deadline_time := Some (TaskDialog.deadline_time task_data);
     Task.notify_enabled := PBool (TaskDialog.notify_enabled task_data);
     Task.notify_before_minutes :=
       PInt (TaskDialog.notify_before_minutes task_data);
     Task.completed := Task.completed task;
     Task.created_at := Task.created_at task;
     Task.notified := Task.notified task |}.

(** The current item is the task at position [i] of [self.tasks]; no
    item is current when [i] is out of range. *)
Definition edit_task (i : nat) (f : TaskDialog.form)
    (now : Datetime.datetime) (o : io) (self : app) : app * list signal :=
  match nth_error (tasks self) i with
  | Some _ =>
      match TaskDialog.get_task_data now f with
      | Some task_data =>
          save_tasks o
            (mkapp (update i (apply_edit task_data) (tasks self))
                   (data_file self))
      | None => (self, [])
      end
  | None => (self, [])
  end.

(** The user confirmed the deletion. *)
Definition delete_task (i : nat) (o : io) (self : app) : app * list signal :=
  match nth_error (tasks self) i with
  | Some _ => save_tasks o (mkapp (remove_at i (tasks self)) (data_file self))
  | None => (self, [])
  end.

Definition toggle (task : Task.t) : Task.t :=
  Task.set_completed (PBool (negb (truthy (Task.completed task)))) task.

Definition toggle_task_completion (i : nat) (o : io) (self : app)
  : app * list signal :=
  match nth_error (tasks self) i with
  | Some _ => save_tasks o (mkapp (update i toggle (tasks self)) (data_file self))
  | None => (self, [])
  end.

(** *** The list view: [update_task_list] *)

(** The [if]/[elif] chain that decides whether a task is shown. *)
Definition keep (filter_text : string) (now : Datetime.datetime)
    (task : Task.t) : bool :=
  if String.eqb filter_text "All" then true
  else if String.eqb filter_text "High Priority"
          && eq_str (Task.priority task) "High" then true
  else if String.eqb filter_text "Medium Priority"
          && eq_str (Task.priority task) "Medium" then true
  else if String.eqb filter_text "Low Priority"
          && eq_str (Task.priority task) "Low" then true
  else if String.eqb filter_text "Overdue"
          && Task.is_overdue now task then true
  else if String.eqb filter_text "Completed"
          && truthy (Task.completed task) then true
  else false.

(** The loop over [self.tasks]; the task at position [i] is examined at
    [clk i]. *)
Fixpoint filter_tasks (filter_text : string) (clk : nat -> Datetime.datetime)
    (i : nat) (ts : list Task.t) : list Task.t :=
  match ts with
  | [] => []
  | task :: ts' =>
      if keep filter_text (clk i) task
      then task :: filter_tasks filter_text clk (S i) ts'
      else filter_tasks filter_text clk (S i) ts'
  end.

Definition priority_order : list (string * Z) :=
  [ ("High", 3); ("Medium", 2); ("Low", 1) ].

(** [priority_order.get(v, default)]: the key is hashed first. *)
Definition priority_order_get (v : pyval) (default : Z) : result Z :=
  match v with
  | PStr s => Ok (TaskDialog.timing_get priority_order s default)
  | PList _ | PDict _ => Raise TypeError
  | _ => Ok default
  end.

(** [v.lower()]: only a string has the method. *)
Definition str_lower (v : pyval) : result string :=
  match v with
  | PStr s => Ok (lower s)
  | _ => Raise AttributeError
  end.

Definition key : Type := Z * Datetime.datetime * string.

(** The [lambda] given to [sort]. *)
Definition sort_key (task : Task.t) : result key :=
  w <- priority_order_get (Task.priority task) 2 ;;
  let dl :=
    match Task.get_deadline_datetime task with
    | Some dt => dt
    | None => Datetime.datetime_max
    end in
  ttl <- str_lower (Task.title task) ;;
  Ok (- w, dl, ttl).

(** [a < b] on the key tuples: the first components that differ decide. *)
Definition key_lt (a b : key) : bool :=
  let '(wa, da, ta) := a in
  let '(wb, db, tb) := b in
  match (wa ?= wb)%Z with
  | Lt => true
  | Gt => false
  | Eq =>
      match Datetime.compare da db with
      | Lt => true
      | Gt => false
      | Eq => String.ltb ta tb
      end
  end.

(** [list.sort] computes every key first, then sorts on the keys alone,
    and is stable.  The sort is the insertion of each element in turn after
    the elements not greater than it, which is what a stable sort returns
    whatever its strategy. *)
Fixpoint keyed (ts : list Task.t) : result (list (key * Task.t)) :=
  match ts with
  | [] => Ok []
  | task :: ts' =>
      k <- sort_key task ;;
      rest <- keyed ts' ;;
      Ok ((k, task) :: rest)
  end.

Fixpoint insert (x : key * Task.t) (l : list (key * Task.t))
  : list (key * Task.t) :=
  match l with
  | [] => [x]
  | y :: l' => if key_lt (fst x) (fst y) then x :: l else y :: insert x l'
  end.

Definition sort (l : list (key * Task.t)) : list (key * Task.t) :=
  fold_left (fun acc x => insert x acc) l [].

(** The tasks of the list widget, top to bottom. *)
Definition update_task_list (filter_text : string)
    (clk : nat -> Datetime.datetime) (self : app) : result (list Task.t) :=
  let filtered_tasks := filter_tasks filter_text clk 0 (tasks self) in
  pairs <- keyed filtered_tasks ;;
  Ok (map snd (sort pairs)).

(** *** The timer: [check_overdue_and_notifications] *)

Fixpoint count_overdue (clk : nat -> Datetime.datetime) (i : nat)
    (ts : list Task.t) : nat :=
  match ts with
  | [] => O
  | task :: ts' =>
      ((if Task.is_overdue (clk i) task then 1 else 0)
       + count_overdue clk (S i) ts')%nat
  end.

Definition show_notification (task : Task.t) : list signal :=
  match Task.get_deadline_datetime task with
  | Some deadline_dt =>
      [Reminder (Task.title task) deadline_dt (Task.priority task)]
  | None => []
  end.

(** Where a run of the timer handler leaves the program: the state, what
    was signalled, and the exception that ended it, if one did. *)
Record outcome : Type := mkoutcome {
  after : app;
  signals : list signal;
  raised : option exn
}.

(** The loop [for task in self.tasks]: [visited] are the tasks already
    seen, as they now are; [rest] those to come.  The task at position [i]
    is examined at [clk i] and saved with the outcome [ios i]. *)
Fixpoint notify_loop (clk : nat -> Datetime.datetime) (ios : nat -> io)
    (i : nat) (visited rest : list Task.t) (file : option content) : outcome :=
  match rest with
  | [] => mkoutcome (mkapp visited file) [] None
  | task :: rest' =>
      match Task.should_notify (clk i) task with
      | Raise e => mkoutcome (mkapp (visited ++ rest)%list file) [] (Some e)
      | Ok false =>
          notify_loop clk ios (S i) (visited ++ [task])%list rest' file
      | Ok true =>
          let shown := show_notification task in
          let task' := Task.set_notified (PBool true) task in
          let saved :=
            save_tasks (ios i) (mkapp (visited ++ task' :: rest')%list file) in
          let r :=
            notify_loop clk ios (S i) (visited ++ [task'])%list rest'
                        (data_file (fst saved)) in
          mkoutcome (after r) (shown ++ snd saved ++ signals r)%list (raised r)
      end
  end.

Definition check_overdue_and_notifications
    (clk_overdue clk : nat -> Datetime.datetime) (ios : nat -> io)
    (self : app) : outcome :=
  let overdue_count := count_overdue clk_overdue 0 (tasks self) in
  let r := notify_loop clk ios 0 [] (tasks self) (data_file self) in
  mkoutcome (after r) (WindowTitle overdue_count :: signals r) (raised r).

(** *** Runs of the program *)

(** What the user or the timer can do to a running program.  Every one of
    them but the last ends by redrawing the list with [update_task_list],
    which changes neither the tasks nor the file. *)
Inductive op : Type :=
| AddTask (f : TaskDialog.form) (now now' : Datetime.datetime) (o : io)
| EditTask (i : nat) (f : TaskDialog.form) (now : Datetime.datetime) (o : io)
| DeleteTask (i : nat) (o : io)
| ToggleTaskCompletion (i : nat) (o : io)
| Timer (clk_overdue clk : nat -> Datetime.datetime) (ios : nat -> io).

Definition step (c : op) (self : app) : app :=
  match c with
  | AddTask f now now' o => fst (add_task f now now' o self)
  | EditTask i f now o => fst (edit_task i f now o self)
  | DeleteTask i o => fst (delete_task i o self)
  | ToggleTaskCompletion i o => fst (toggle_task_completion i o self)
  | Timer clk_overdue clk ios =>
      after (check_overdue_and_notifications clk_overdue clk ios self)
  end.

Definition run (cs : list op) (self : app) : app :=
  fold_left (fun st c => step c st) cs self.

(** Where the task at position [i] is after [c]: tasks keep their place
    but for a deletion before them. *)
Definition track (c : op) (i : nat) : option nat :=
  match c with
  | DeleteTask j _ =>
      if Nat.eqb j i then None
      else if Nat.ltb j i then Some (Nat.pred i)
      else Some i
  | _ => Some i
  end.

Fixpoint follow (cs : list op) (i : nat) : option nat :=
  match cs with
  | [] => Some i
  | c :: cs' =>
      match track c i with
      | Some j => follow cs' j
      | None => None
      end
  end.

End TodoApp.

(** ** The vocabulary of the specification *)

Module Spec.

(** The six entries of the filter box. *)
Inductive filter_kind : Type :=
| All
| HighPriority
| MediumPriority
| LowPriority
| Overdue
| Completed.

Definition filter_text (k : filter_kind) : string :=
  match k with
  | All => "All"
  | HighPriority => "High Priority"
  | MediumPriority => "Medium Priority"
  | LowPriority => "Low Priority"
  | Overdue => "Overdue"
  | Completed => "Completed"
  end.

(** The predicate of a filter kind. *)
Definition matches (k : filter_kind) (now : Datetime.datetime)
    (task : Task.t) : bool :=
  match k with
  | All => true
  | HighPriority => eq_str (Task.priority task) "High"
  | MediumPriority => eq_str (Task.priority task) "Medium"
  | LowPriority => eq_str (Task.priority task) "Low"
  | Overdue => Task.is_overdue now task
  | Completed => truthy (Task.completed task)
  end.

(** The tasks of [ts] that match, the one at position [i + j] judged at
    [clk (i + j)]. *)
Fixpoint selected (k : filter_kind) (clk : nat -> Datetime.datetime)
    (i : nat) (ts : list Task.t) : list Task.t :=
  match ts with
  | [] => []
  | task :: ts' =>
      (if matches k (clk i) task then [task] else [])
      ++ selected k clk (S i) ts'
  end%list.

(** High = 3, Medium = 2, Low = 1, anything else as Medium. *)
Definition weight (task : Task.t) : Z :=
  if eq_str (Task.priority task) "High" then 3
  else if eq_str (Task.priority task) "Medium" then 2
  else if eq_str (Task.priority task) "Low" then 1
  else 2.

(** The deadline a task is sorted by: no deadline counts as the greatest
    datetime there is. *)
Definition sort_deadline (task : Task.t) : Datetime.datetime :=
  match Task.get_deadline_datetime task with
  | Some dt => dt
  | None => Datetime.datetime_max
  end.

Definition sort_title (task : Task.t) : string :=
  match Task.title task with
  | PStr s => lower s
  | _ => ""
  end.

(** [a] may stand before [b]: a greater weight; or the same weight and an
    earlier deadline; or these equal and a title that is not greater, case
    apart. *)
Definition precedes (a b : Task.t) : Prop :=
  weight b < weight a
  \/ (weight a = weight b
      /\ (Datetime.ltb (sort_deadline a) (sort_deadline b) = true
          \/ (sort_deadline a = sort_deadline b
              /\ String.leb (sort_title a) (sort_title b) = true))).

(** The tasks the sort accepts: the title a string, the priority a value
    that can be a dict key. *)
Definition sortable (task : Task.t) : bool :=
  hashable (Task.priority task)
  && match Task.title task with PStr _ => true | _ => false end.

Definition allowed_minutes : list Z :=
  [5; 15; 30; 60; 120; 240; 1440; 2880; 10080].

(** The constraints of the data model on [title] and
    [notify_before_minutes]. *)
Definition constrained (task : Task.t) : Prop :=
  (exists s, Task.title task = PStr s /\ s <> "")
  /\ (exists n, Task.notify_before_minutes task = PInt n
                /\ In n allowed_minutes).

(** A comparison function that is a total order. *)
Record total_order {A : Type} (cmp : A -> A -> comparison) : Prop := {
  cmp_eq : forall a b, cmp a b = Eq -> a = b;
  cmp_refl : forall a, cmp a a = Eq;
  cmp_antisym : forall a b, cmp b a = CompOpp (cmp a b);
  cmp_trans : forall a b c, cmp a b = Lt -> cmp b c = Lt -> cmp a c = Lt
}.

(** The lexicographic product of two comparisons. *)
Definition lexp {A B : Type} (ca : A -> A -> comparison)
    (cb : B -> B -> comparison) (x y : A * B) : comparison :=
  match ca (fst x) (fst y) with
  | Eq => cb (snd x) (snd y)
  | c => c
  end.

(** The order of the sort keys: weight first (negated, so that the
    greater weight comes first), then deadline, then title. *)
Definition key_cmp : TodoApp.key -> TodoApp.key -> comparison :=
  lexp (lexp Z.compare Datetime.compare) String.compare.

(** The key the sort gives a sortable task. *)
Definition key_of (task : Task.t) : TodoApp.key :=
  (- weight task, sort_deadline task, sort_title task).

(** The pair carries the key [k]. *)
Definition same_key (k : TodoApp.key) (x : TodoApp.key * Task.t) : bool :=
  match key_cmp (fst x) k with
  | Eq => true
  | _ => false
  end.

(** [x] is not after [y] in the order of the keys. *)
Definition key_le (x y : TodoApp.key * Task.t) : Prop :=
  TodoApp.key_lt (fst y) (fst x) = false.

(** The example of the specification: B is Low without a deadline, A is
    High and due on 2025-01-01, C is High and due on 2024-01-01. *)
Definition example_task (title priority : string)
    (deadline : option Datetime.date) : Task.t :=
  Task.init (Datetime.combine (Datetime.mkdate 2023 6 1)
                              (Datetime.mktime 12 0 0 0))
    (PStr title) (PStr "") (PStr priority) deadline None
    (PBool false) (PInt 30) (PBool false).

Definition task_B : Task.t := example_task "B" "Low" None.
Definition task_A : Task.t :=
  example_task "A" "High" (Some (Datetime.mkdate 2025 1 1)).
Definition task_C : Task.t :=
  example_task "C" "High" (Some (Datetime.mkdate 2024 1 1)).

(** The timer handler, task by task.  A task fires when [should_notify]
    returns true; a task that fired is flagged. *)
Definition fired (now : Datetime.datetime) (task : Task.t) : bool :=
  match Task.should_notify now task with
  | Ok true => true
  | _ => false
  end.

Definition mark (now : Datetime.datetime) (task : Task.t) : Task.t :=
  if fired now task then Task.set_notified (PBool true) task else task.


(** The tasks after a run of the handler that an exception may have
    ended: the tasks from the one that raised on are untouched. *)
Fixpoint swept (clk : nat -> Datetime.datetime) (i : nat)
    (ts : list Task.t) : list Task.t :=
  match ts with
  | [] => []
  | task :: ts' =>
      match Task.should_notify (clk i) task with
      | Raise _ => ts
      | Ok _ => mark (clk i) task :: swept clk (S i) ts'
      end
  end.


(** A task whose deadline time has a fraction of a second, as a time
    edit clamped to [QTime.currentTime().addSecs(60)] gives one, or a
    legacy record with a full timestamp. *)
Definition task_fraction : Task.t :=
  Task.init (Datetime.combine (Datetime.mkdate 2029 6 1)
                              (Datetime.mktime 9 0 0 0))
    (PStr "Report") (PStr "") (PStr "High")
    (Some (Datetime.mkdate 2030 1 1))
    (Some (Datetime.mktime 12 30 45 500000))
    (PBool true) (PInt 30) (PBool false).

(** A file a user edited by hand: an empty title, seven minutes. *)
Definition document_unconstrained : pyval :=
  PList [ PDict [ ("title", PStr ""); ("notify_before_minutes", PInt 7) ] ].

Definition noon : Datetime.datetime :=
  Datetime.combine (Datetime.mkdate 2024 5 17) (Datetime.mktime 12 0 0 0).

(** One task in memory, an older document on disk. *)
Definition app_one : TodoApp.app :=
  TodoApp.mkapp [task_A] (Some (TodoApp.Document (PList []))).

(** The tasks Python can hold: the date and the time, when set, are ones
    the constructors of [date] and [time] accept. *)
Definition valid_task (task : Task.t) : bool :=
  match Task.deadline task with
  | Some d => Datetime.valid_date d
  | None => true
  end
  && match Task.deadline_time task with
     | Some tm => Datetime.valid_time tm
     | None => true
     end.

(** The deadline time, when set, has no fraction of a second. *)
Definition whole_seconds (task : Task.t) : bool :=
  match Task.deadline_time task with
  | Some tm => (Datetime.microsecond tm =? 0)%Z
  | None => true
  end.

(** The numbers 0 .. n-1. *)
Definition range (n : Z) : list Z := map Z.of_nat (seq 0 (Z.to_nat n)).

(** A number printed on [w] digits is read back as itself, and fills [w]
    characters. *)
Definition reads_back (w : nat) (n : Z) : bool :=
  match Datetime.parse_digits w 0 (Datetime.pad0 w n) with
  | Some (v, EmptyString) =>
      (v =? n)%Z && Nat.eqb (String.length (Datetime.pad0 w n)) w
  | _ => false
  end.

(** A form filled in for a new deadline, and a clock before it. *)
Definition form_example : TaskDialog.form :=
  TaskDialog.mkform "  Call the bank " "" "Low"
    (Datetime.mkdate 2031 2 3) (Datetime.mktime 8 0 0 0) true "1 hour".

Definition notified_task : Task.t :=
  Task.set_notified (PBool true) task_fraction.

Definition app_two : TodoApp.app :=
  TodoApp.mkapp [notified_task; task_B] None.

(** A run: the first task is toggled and edited to a new deadline, the
    timer fires, the second task is deleted. *)
Definition run_example : list TodoApp.op :=
  [ TodoApp.ToggleTaskCompletion 0 TodoApp.IoOk;
    TodoApp.EditTask 0 form_example noon TodoApp.IoOk;
    TodoApp.Timer (fun _ => noon) (fun _ => noon) (fun _ => TodoApp.IoOk);
    TodoApp.DeleteTask 1 TodoApp.OpenFails ].

(** A quarter of an hour before the deadline of [task_fraction]. *)
Definition quarter_before : Datetime.datetime :=
  Datetime.combine (Datetime.mkdate 2030 1 1) (Datetime.mktime 12 15 0 0).

(** What comes back of a task that was saved and loaded: every field, but
    for a deadline time with a fraction of a second. *)
Definition reloaded (task : Task.t) : Task.t :=
  {| Task.title := Task.title task;
     Task.description := Task.description task;
     Task.priority := Task.priority task;
     Task.deadline := Task.deadline task;
     Task.deadline_time :=
       match Task.deadline_time task with
       | Some tm =>
           if (Datetime.microsecond tm =? 0)%Z then Some tm else None
       | None => None
       end;
     Task.notify_enabled := Task.notify_enabled task;
     Task.notify_before_minutes := Task.notify_before_minutes task;
     Task.completed := Task.completed task;
     Task.created_at := Task.created_at task;
     Task.notified := Task.notified task |}.

(** The records [from_dict] returns on: a deadline that is false or a
    string of the ISO grammar, a deadline time that is false or a
    string. *)
Definition deadline_loadable (data : dict) : bool :=
  let v := get data "deadline" PNone in
  if truthy v then
    match v with
    | PStr s =>
        match Datetime.fromisoformat s with
        | Some _ => true
        | None => false
        end
    | _ => false
    end
  else true.

Definition deadline_time_loadable (data : dict) : bool :=
  let v := get data "deadline_time" PNone in
  if truthy v then match v with PStr _ => true | _ => false end else true.

(** The task is due to be examined by [should_notify]: notifications on,
    not completed, not notified. *)
Definition armed (task : Task.t) : bool :=
  truthy (Task.notify_enabled task)
  && negb (truthy (Task.completed task))
  && negb (truthy (Task.notified task)).

(** A value [timedelta(minutes=...)] takes. *)
Definition is_number (v : pyval) : bool :=
  match v with
  | PInt _ | PBool _ => true
  | _ => false
  end.

(** The file holds the document of the list in memory. *)
Definition mirrors (self : TodoApp.app) : Prop :=
  TodoApp.data_file self
  = Some (TodoApp.Document (TodoApp.document (TodoApp.tasks self))).

(** Every write the operation attempts goes through. *)
Definition writes_ok (c : TodoApp.op) : Prop :=
  match c with
  | TodoApp.AddTask _ _ _ o => o = TodoApp.IoOk
  | TodoApp.EditTask _ _ _ o => o = TodoApp.IoOk
  | TodoApp.DeleteTask _ o => o = TodoApp.IoOk
  | TodoApp.ToggleTaskCompletion _ o => o = TodoApp.IoOk
  | TodoApp.Timer _ _ ios => forall p, ios p = TodoApp.IoOk
  end.

(** A task whose lead time was stored as text, and a list in which it
    stands before a task that is due. *)
Definition task_text_minutes : Task.t :=
  Task.init noon (PStr "Dentist") (PStr "") (PStr "Medium")
    (Some (Datetime.mkdate 2030 1 1)) None
    (PBool true) (PStr "30") (PBool false).

Definition app_text_minutes : TodoApp.app :=
  TodoApp.mkapp [task_B; task_text_minutes; task_fraction] None.

(** The two tasks have the same sort key. *)
Definition ties (a b : Task.t) : bool :=
  match key_cmp (key_of b) (key_of a) with
  | Eq => true
  | _ => false
  end.

(** The place of a datetime on the time line: the microseconds since the
    midnight that begins the day of ordinal 0. *)
Definition instant (dt : Datetime.datetime) : Z :=
  Datetime.ymd2ord (Datetime.d_date dt) * Datetime.US_PER_DAY
  + Datetime.time_us (Datetime.d_time dt).

(** The condition the specification gives for [should_notify()], in its
    words: notifications are on, the task is not completed, it is not
    notified, it has a deadline datetime, and the current time is at or
    after the deadline less [notify_before_minutes] minutes. *)
Definition notify_due (now : Datetime.datetime) (task : Task.t) : Prop :=
  truthy (Task.notify_enabled task) = true
  /\ truthy (Task.completed task) = false
  /\ truthy (Task.notified task) = false
  /\ exists deadline_dt n,
       Task.get_deadline_datetime task = Some deadline_dt
       /\ Task.notify_before_minutes task = PInt n
       /\ instant deadline_dt - n * Datetime.US_PER_MINUTE <= instant now.

(** How many tasks of [ts] the timer handler gets an answer for, from
    position [i] on: those before the first one for which [should_notify]
    raises, all of them when it raises for none. *)
Fixpoint examined (clk : nat -> Datetime.datetime) (i : nat)
    (ts : list Task.t) : nat :=
  match ts with
  | [] => O
  | task :: ts' =>
      match Task.should_notify (clk i) task with
      | Raise _ => O
      | Ok _ => S (examined clk (S i) ts')
      end
  end.

(** The value [v] is what the record stores under [k], or [default] when
    the record has no such key. *)
Definition taken_from (data : dict) (k : string) (default v : pyval) : Prop :=
  match lookup k data with
  | Some stored => v = stored
  | None => v = default
  end.

(** A file with the three kinds of [deadline_time]: a bare time, a full
    timestamp as older versions wrote it, and a text that is neither. *)
Definition document_legacy : pyval :=
  PList [ PDict [ ("title", PStr "Pay rent");
                  ("deadline", PStr "2024-03-05");
                  ("deadline_time", PStr "14:30:00") ];
          PDict [ ("title", PStr "Call the bank");
                  ("priority", PStr "High");
                  ("deadline", PStr "2024-03-05");
                  ("deadline_time", PStr "2024-03-05T14:30:00");
                  ("notify_enabled", PBool true);
                  ("notify_before_minutes", PInt 60) ];
          PDict [ ("title", PStr "Water the plants");
                  ("deadline_time", PStr "in the afternoon") ] ].

(** A task as a file edited by hand gives one, without a title and with
    a lead time of seven minutes, and a list in which it stands first. *)
Definition task_unconstrained : Task.t :=
  Task.init noon (PStr "") (PStr "") (PStr "Low") None None
    (PBool false) (PInt 7) (PBool false).

Definition app_unconstrained : TodoApp.app :=
  TodoApp.mkapp [task_unconstrained; task_A] None.

(** Two tasks as a file edited by hand gives them: one whose title is a
    number, one whose priority is a list. *)
Definition task_numbered : Task.t :=
  Task.init noon (PInt 7) (PStr "") (PStr "Low") None None
    (PBool false) (PInt 30) (PBool false).

Definition task_tagged : Task.t :=
  Task.init noon (PStr "Tagged") (PStr "") (PList [PStr "High"]) None None
    (PBool false) (PInt 30) (PBool false).


(** A task due ten minutes into the first day of year 1, with a reminder
    half an hour before. *)
Definition task_year_one : Task.t :=
  Task.init noon (PStr "Old") (PStr "") (PStr "Low")
    (Some (Datetime.mkdate 1 1 1)) (Some (Datetime.mktime 0 10 0 0))
    (PBool true) (PInt 30) (PBool false).

End Spec.

(** * Properties *)

(** ** The calendar, on examples *)

Example ymd2ord_leap_day :
  Datetime.ymd2ord (Datetime.mkdate 2024 2 29) = 738945
  /\ Datetime.ord2ymd 738945 = Datetime.mkdate 2024 2 29
  /\ Datetime.ymd2ord (Datetime.mkdate 1 1 1) = 1
  /\ Datetime.ymd2ord (Datetime.mkdate 9999 12 31) = Datetime.MAXORDINAL
  /\ Datetime.ord2ymd Datetime.MAXORDINAL = Datetime.mkdate 9999 12 31.
Proof. repeat split. Qed.

Example sub_across_midnight :
  Datetime.sub (Datetime.combine (Datetime.mkdate 2024 3 1)
                                 (Datetime.mktime 0 10 0 0))
               (30 * Datetime.US_PER_MINUTE)
  = Ok (Datetime.combine (Datetime.mkdate 2024 2 29)
                         (Datetime.mktime 23 40 0 0)).
Proof. reflexivity. Qed.

Example sub_before_year_one :
  Datetime.sub (Datetime.combine (Datetime.mkdate 1 1 1)
                                 (Datetime.mktime 0 10 0 0))
               (30 * Datetime.US_PER_MINUTE)
  = Raise OverflowError.
Proof. reflexivity. Qed.

Example isoformat_examples :
  Datetime.date_isoformat (Datetime.mkdate 2024 2 9) = "2024-02-09"
  /\ Datetime.time_isoformat (Datetime.mktime 7 5 0 0) = "07:05:00"
  /\ Datetime.time_isoformat (Datetime.mktime 7 5 0 4500) = "07:05:00.004500"
  /\ Datetime.isoformat Datetime.datetime_max = "9999-12-31T23:59:59.999999".
Proof. repeat split. Qed.

Example fromisoformat_examples :
  Datetime.fromisoformat "2024-02-09"
  = Some (Datetime.combine (Datetime.mkdate 2024 2 9)
                           (Datetime.mktime 0 0 0 0))
  /\ Datetime.fromisoformat "2024-02-09 07:05:00.250+05:30"
     = Some (Datetime.combine (Datetime.mkdate 2024 2 9)
                              (Datetime.mktime 7 5 0 250000))
  /\ Datetime.fromisoformat "2024-02-30" = None
  /\ Datetime.fromisoformat "07:05:00" = None
  /\ Datetime.fromisoformat "07:05:00.004500" = None.
Proof. repeat split. Qed.

Example strptime_examples :
  Datetime.strptime_HMS "07:05:00" = Some (Datetime.mktime 7 5 0 0)
  /\ Datetime.strptime_HMS "7:5:0" = Some (Datetime.mktime 7 5 0 0)
  /\ Datetime.strptime_HMS "07:05:60" = None
  /\ Datetime.strptime_HMS "24:00:00" = None
  /\ Datetime.strptime_HMS "07:05" = None
  /\ Datetime.strptime_HMS "07:05:00.004500" = None.
Proof. repeat split. Qed.

Example strip_lower_examples :
  strip "  Call the bank " = "Call the bank"
  /\ strip "   " = ""
  /\ lower "Call THE Bank" = "call the bank".
Proof. repeat split. Qed.

(** ** The task entity *)

Lemma is_overdue_not_completed (now : Datetime.datetime) (task : Task.t) :
  Task.is_overdue now task = true -> truthy (Task.completed task) = false.
Proof.
  unfold Task.is_overdue.
  destruct (Task.get_deadline_datetime task); [|discriminate].
  now destruct (truthy (Task.completed task)).
Qed.


(** C1. [is_overdue()] is true exactly when the task has a deadline
    datetime, is not completed, and the clock reads later than the
    deadline; a completed task is never overdue, whatever its deadline. *)
Theorem is_overdue_iff (now : Datetime.datetime) (task : Task.t) :
  (Task.is_overdue now task = true <->
     exists deadline_dt,
       Task.get_deadline_datetime task = Some deadline_dt
       /\ truthy (Task.completed task) = false
       /\ Datetime.ltb deadline_dt now = true)
  /\ (truthy (Task.completed task) = true ->
      Task.is_overdue now task = false).
Proof.
  unfold Task.is_overdue.
  destruct (Task.get_deadline_datetime task) as [dt|] eqn:Hdt;
    destruct (truthy (Task.completed task)) eqn:Hc; simpl; split.
  - split; [discriminate|]. intros (d & _ & Hf & _). discriminate.
  - reflexivity.
  - split.
    + intro H. exists dt. auto.
    + intros (d & Hd & _ & Hlt). injection Hd as <-. exact Hlt.
  - discriminate.
  - split; [discriminate|]. intros (d & Hd & _). discriminate.
  - reflexivity.
  - split; [discriminate|]. intros (d & Hd & _). discriminate.
  - discriminate.
Qed.

(** C2, as the program has it.  [should_notify()] returns true exactly
    when notifications are enabled, the task is neither completed nor
    already notified, it has a deadline datetime, [timedelta] takes
    [notify_before_minutes], the deadline less that lead time is a
    datetime, and the clock has reached it.  It raises exactly when the
    first four hold and the lead time or the difference cannot be formed,
    with the exception of [timedelta] or of the subtraction. *)
Theorem should_notify_iff (now : Datetime.datetime) (task : Task.t) :
  (Task.should_notify now task = Ok true <->
     truthy (Task.notify_enabled task) = true
     /\ truthy (Task.completed task) = false
     /\ truthy (Task.notified task) = false
     /\ exists deadline_dt td notification_time,
          Task.get_deadline_datetime task = Some deadline_dt
          /\ Datetime.timedelta_minutes (Task.notify_before_minutes task)
             = Ok td
          /\ Datetime.sub deadline_dt td = Ok notification_time
          /\ Datetime.leb notification_time now = true)
  /\ (forall e,
        Task.should_notify now task = Raise e <->
        truthy (Task.notify_enabled task) = true
        /\ truthy (Task.completed task) = false
        /\ truthy (Task.notified task) = false
        /\ exists deadline_dt,
             Task.get_deadline_datetime task = Some deadline_dt
             /\ (Datetime.timedelta_minutes (Task.notify_before_minutes task)
                 = Raise e
                 \/ exists td,
                      Datetime.timedelta_minutes
                        (Task.notify_before_minutes task) = Ok td
                      /\ Datetime.sub deadline_dt td = Raise e)).
Proof.
  unfold Task.should_notify.
  destruct (truthy (Task.notify_enabled task)) eqn:He;
    destruct (truthy (Task.completed task)) eqn:Hc;
    destruct (truthy (Task.notified task)) eqn:Hn; simpl;
    try (split; [|intro e];
         (split; [discriminate | intros (H1 & H2 & H3 & _); discriminate])).
  destruct (Task.get_deadline_datetime task) as [dt|] eqn:Hdt.
  - destruct (Datetime.timedelta_minutes (Task.notify_before_minutes task))
      as [td|e0] eqn:Htd; simpl.
    + destruct (Datetime.sub dt td) as [nt|e0] eqn:Hsub; simpl.
      * split; [|intro e]; split.
        -- intro H. injection H as H. repeat split.
           exists dt, td, nt. auto.
        -- intros (_ & _ & _ & d & t' & n' & Hd & Ht & Hs & Hl).
           injection Hd as <-. injection Ht as <-.
           rewrite Hsub in Hs. injection Hs as <-. now rewrite Hl.
        -- discriminate.
        -- intros (_ & _ & _ & d & Hd & [Ht|(t' & Ht & Hs)]);
             [discriminate|].
           injection Hd as <-. injection Ht as <-. congruence.
      * split; [|intro e]; split.
        -- discriminate.
        -- intros (_ & _ & _ & d & t' & n' & Hd & Ht & Hs & _).
           injection Hd as <-. injection Ht as <-. congruence.
        -- intro H. injection H as <-. repeat split.
           exists dt. split; [reflexivity|]. right. now exists td.
        -- intros (_ & _ & _ & d & Hd & [Ht|(t' & Ht & Hs)]);
             [discriminate|].
           injection Hd as <-. injection Ht as <-. congruence.
    + split; [|intro e]; split.
      * discriminate.
      * intros (_ & _ & _ & d & t' & n' & _ & Ht & _). discriminate.
      * intro H. injection H as <-. repeat split.
        exists dt. split; [reflexivity|]. now left.
      * intros (_ & _ & _ & d & Hd & [Ht|(t' & Ht & Hs)]);
          [congruence | discriminate].
  - split; [|intro e]; split.
    + discriminate.
    + intros (_ & _ & _ & d & t' & n' & Hd & _). discriminate.
    + discriminate.
    + intros (_ & _ & _ & d & Hd & _). discriminate.
Qed.

(** C2 fails as stated: for a task due ten minutes into year 1 with a
    reminder half an hour before, every condition of the specification
    holds at noon of 17 May 2024, and [should_notify()] does not return
    true: the subtraction raises [OverflowError]. *)
Lemma should_notify_year_one :
  Spec.notify_due Spec.noon Spec.task_year_one
  /\ Task.should_notify Spec.noon Spec.task_year_one = Raise OverflowError
  /\ ~ (Task.should_notify Spec.noon Spec.task_year_one = Ok true
        <-> Spec.notify_due Spec.noon Spec.task_year_one).
Proof.
  assert (H : Spec.notify_due Spec.noon Spec.task_year_one).
  { repeat split.
    exists (Datetime.combine (Datetime.mkdate 1 1 1)
                             (Datetime.mktime 0 10 0 0)), 30.
    repeat split. vm_compute. discriminate. }
  split; [exact H|]. split; [reflexivity|].
  intros [_ Hr]. specialize (Hr H). discriminate Hr.
Qed.

(** C5. [get_deadline_datetime()] combines the date and the time when both
    are set, takes 23:59:00 when only the date is, and is none without a
    date, time or no time; a task without a date is neither overdue nor
    due a notification. *)
Theorem get_deadline_datetime_cases (task : Task.t) :
  (forall d tm,
      Task.deadline task = Some d -> Task.deadline_time task = Some tm ->
      Task.get_deadline_datetime task = Some (Datetime.combine d tm))
  /\ (forall d,
      Task.deadline task = Some d -> Task.deadline_time task = None ->
      Task.get_deadline_datetime task
      = Some (Datetime.combine d (Datetime.mktime 23 59 0 0)))
  /\ (Task.deadline task = None ->
      Task.get_deadline_datetime task = None
      /\ forall now,
           Task.is_overdue now task = false
           /\ Task.should_notify now task = Ok false).
Proof.
  unfold Task.is_overdue, Task.should_notify, Task.get_deadline_datetime.
  repeat split; intros.
  - now rewrite H, H0.
  - now rewrite H, H0.
  - now rewrite H.
  - now rewrite H.
  - rewrite H.
    now destruct (negb (truthy (Task.notify_enabled task))
                  || truthy (Task.completed task)
                  || truthy (Task.notified task)).
Qed.

(** ** [should_notify] returns *)

(** With a lead time of at most a week and a deadline from 8 January of
    year 1 on, the subtraction stays among the datetimes and
    [should_notify] returns a boolean. *)
Lemma should_notify_returns (now : Datetime.datetime) (task : Task.t)
    (n : Z) (d : Datetime.date) :
  Task.notify_before_minutes task = PInt n -> 0 <= n <= 10080 ->
  Task.deadline task = Some d ->
  8 <= Datetime.ymd2ord d <= Datetime.MAXORDINAL ->
  Spec.valid_task task = true ->
  exists b, Task.should_notify now task = Ok b.
Proof.
  intros Hn Hr Hd Ho Hv. unfold Task.should_notify.
  destruct (negb (truthy (Task.notify_enabled task))
            || truthy (Task.completed task)
            || truthy (Task.notified task)); [eauto|].
  assert (exists tm, Task.get_deadline_datetime task
                     = Some (Datetime.combine d tm)
                     /\ Datetime.valid_time tm = true) as (tm & -> & Ht).
  { unfold Task.get_deadline_datetime, Spec.valid_task in *. rewrite Hd in *.
    apply andb_prop in Hv as [_ Hv].
    destruct (Task.deadline_time task) as [tm|]; eauto. }
  rewrite Hn. unfold Datetime.timedelta_minutes, Datetime.timedelta_of_minutes.
  unfold Datetime.US_PER_MINUTE, Datetime.US_PER_DAY.
  assert (0 <= n * 60000000 / 86400000000 <= 7) as Hq.
  { split; [apply Z.div_pos; lia|].
    apply Z.div_le_upper_bound; lia. }
  replace (Z.abs (n * 60000000 / 86400000000) <=? 999999999)%Z with true
    by (symmetry; apply Z.leb_le; lia).
  cbn [bind]. unfold Datetime.sub. cbn [Datetime.d_date Datetime.d_time].
  unfold Datetime.valid_time in Ht.
  repeat (apply andb_prop in Ht as [Ht ?]).
  assert (0 <= Datetime.time_us tm < Datetime.US_PER_DAY) as Hus.
  { unfold Datetime.time_us, Datetime.US_PER_DAY. lia. }
  unfold Datetime.US_PER_DAY, Datetime.MAXORDINAL in *.
  set (total := Datetime.ymd2ord d * 86400000000 + Datetime.time_us tm
                - n * 60000000).
  assert (1 <= total / 86400000000 <= 3652059) as Hdays.
  { split.
    - apply Z.div_le_lower_bound; unfold total; lia.
    - apply Z.lt_succ_r, Z.div_lt_upper_bound; unfold total; lia. }
  replace ((0 <? total / 86400000000)%Z
           && (total / 86400000000 <=? 3652059)%Z) with true.
  - cbn [bind]. eauto.
  - symmetry. apply andb_true_intro. split; [apply Z.ltb_lt | apply Z.leb_le];
      lia.
Qed.

(** ** Total orders *)

Section TotalOrder.

Context {A : Type} (cmp : A -> A -> comparison).
Hypothesis O : Spec.total_order cmp.

Lemma cmp_gt_lt (a b : A) : cmp a b = Gt <-> cmp b a = Lt.
Proof.
  rewrite (Spec.cmp_antisym cmp O a b).
  destruct (cmp a b); simpl; split; congruence.
Qed.

Lemma cmp_le_trans (a b c : A) :
  cmp a b <> Gt -> cmp b c <> Gt -> cmp a c <> Gt.
Proof.
  intros Hab Hbc.
  destruct (cmp a b) eqn:Eab; [| |congruence].
  - apply (Spec.cmp_eq cmp O) in Eab. now subst.
  - destruct (cmp b c) eqn:Ebc; [| |congruence].
    + apply (Spec.cmp_eq cmp O) in Ebc. subst. congruence.
    + rewrite (Spec.cmp_trans cmp O a b c Eab Ebc). congruence.
Qed.

Lemma cmp_lt_le_trans (a b c : A) :
  cmp a b = Lt -> cmp b c <> Gt -> cmp a c = Lt.
Proof.
  intros Hab Hbc. destruct (cmp b c) eqn:Ebc; [| |congruence].
  - apply (Spec.cmp_eq cmp O) in Ebc. now subst.
  - exact (Spec.cmp_trans cmp O a b c Hab Ebc).
Qed.

End TotalOrder.

Lemma lexp_total_order {A B : Type} (ca : A -> A -> comparison)
    (cb : B -> B -> comparison) :
  Spec.total_order ca -> Spec.total_order cb ->
  Spec.total_order (Spec.lexp ca cb).
Proof.
  intros Oa Ob. split; unfold Spec.lexp.
  - intros [a b] [a' b']; simpl. intro H.
    destruct (ca a a') eqn:Ea; try discriminate.
    apply (Spec.cmp_eq ca Oa) in Ea. apply (Spec.cmp_eq cb Ob) in H.
    now subst.
  - intros [a b]; simpl.
    rewrite (Spec.cmp_refl ca Oa). apply (Spec.cmp_refl cb Ob).
  - intros [a b] [a' b']; simpl.
    rewrite (Spec.cmp_antisym ca Oa a a').
    destruct (ca a a'); simpl; auto. apply (Spec.cmp_antisym cb Ob).
  - intros [a b] [a' b'] [a'' b'']; simpl. intros H1 H2.
    destruct (ca a a') eqn:E1; try discriminate;
      destruct (ca a' a'') eqn:E2; try discriminate.
    + apply (Spec.cmp_eq ca Oa) in E1, E2. subst.
      rewrite (Spec.cmp_refl ca Oa).
      exact (Spec.cmp_trans cb Ob _ _ _ H1 H2).
    + apply (Spec.cmp_eq ca Oa) in E1. subst. now rewrite E2.
    + apply (Spec.cmp_eq ca Oa) in E2. subst. now rewrite E1.
    + now rewrite (Spec.cmp_trans ca Oa _ _ _ E1 E2).
Qed.

Lemma Z_total_order : Spec.total_order Z.compare.
Proof.
  split.
  - intros a b. apply Z.compare_eq.
  - apply Z.compare_refl.
  - intros a b. apply Z.compare_antisym.
  - intros a b c. rewrite !Z.compare_lt_iff. lia.
Qed.

Lemma lex_total_order : Spec.total_order Datetime.lex_compare.
Proof.
  split.
  - induction a as [|x a IH]; intros [|y b]; simpl; try congruence.
    destruct (x ?= y)%Z eqn:E; try discriminate.
    intro H. apply Z.compare_eq in E. apply IH in H. now subst.
  - induction a as [|x a IH]; simpl; auto. now rewrite Z.compare_refl.
  - induction a as [|x a IH]; intros [|y b]; simpl; auto.
    rewrite (Z.compare_antisym x y).
    destruct (x ?= y)%Z; simpl; auto.
  - induction a as [|x a IH]; intros [|y b] [|z c]; simpl; try congruence.
    destruct (x ?= y)%Z eqn:E1; try discriminate;
      destruct (y ?= z)%Z eqn:E2; try discriminate; intros H1 H2.
    + apply Z.compare_eq in E1, E2. subst. rewrite Z.compare_refl. eauto.
    + apply Z.compare_eq in E1. subst. now rewrite E2.
    + apply Z.compare_eq in E2. subst. now rewrite E1.
    + rewrite Z.compare_lt_iff in E1, E2.
      assert (x < z) as H by lia. apply Z.compare_lt_iff in H. now rewrite H.
Qed.

Lemma fields_inj (a b : Datetime.datetime) :
  Datetime.fields a = Datetime.fields b -> a = b.
Proof.
  destruct a as [[y m d] [h mi s us]], b as [[y' m' d'] [h' mi' s' us']].
  unfold Datetime.fields; simpl. intro H. injection H as -> -> -> -> -> -> ->.
  reflexivity.
Qed.

Lemma datetime_total_order : Spec.total_order Datetime.compare.
Proof.
  pose proof lex_total_order as O. unfold Datetime.compare. split.
  - intros a b H. apply fields_inj. now apply (Spec.cmp_eq _ O).
  - intro a. apply (Spec.cmp_refl _ O).
  - intros a b. apply (Spec.cmp_antisym _ O).
  - intros a b c. apply (Spec.cmp_trans _ O).
Qed.

Lemma string_total_order : Spec.total_order String.compare.
Proof.
  split.
  - intros a b. apply OrderedTypeEx.String_as_OT.cmp_eq.
  - intro a. now apply OrderedTypeEx.String_as_OT.cmp_eq.
  - intros a b. apply OrderedTypeEx.String_as_OT.cmp_antisym.
  - intros a b c H1 H2.
    apply OrderedTypeEx.String_as_OT.cmp_lt.
    apply OrderedTypeEx.String_as_OT.cmp_lt in H1, H2.
    eapply OrderedTypeEx.String_as_OT.lt_trans; eassumption.
Qed.

Lemma key_total_order : Spec.total_order Spec.key_cmp.
Proof.
  unfold Spec.key_cmp.
  repeat apply lexp_total_order.
  - apply Z_total_order.
  - apply datetime_total_order.
  - apply string_total_order.
Qed.

(** ** The sort *)

Lemma key_lt_cmp (a b : TodoApp.key) :
  TodoApp.key_lt a b = match Spec.key_cmp a b with Lt => true | _ => false end.
Proof.
  destruct a as [[wa da] ta], b as [[wb db] tb].
  unfold TodoApp.key_lt, Spec.key_cmp, Spec.lexp, String.ltb; simpl.
  destruct (wa ?= wb)%Z; auto.
  destruct (Datetime.compare da db); auto.
Qed.

Lemma key_le_cmp (x y : TodoApp.key * Task.t) :
  Spec.key_le x y <-> Spec.key_cmp (fst x) (fst y) <> Gt.
Proof.
  unfold Spec.key_le. rewrite key_lt_cmp.
  rewrite (Spec.cmp_antisym _ key_total_order (fst x) (fst y)).
  destruct (Spec.key_cmp (fst x) (fst y)); simpl; split; congruence.
Qed.

Lemma key_le_trans (x y z : TodoApp.key * Task.t) :
  Spec.key_le x y -> Spec.key_le y z -> Spec.key_le x z.
Proof.
  rewrite !key_le_cmp. apply cmp_le_trans, key_total_order.
Qed.

Lemma key_lt_le (x y : TodoApp.key * Task.t) :
  TodoApp.key_lt (fst x) (fst y) = true -> Spec.key_le x y.
Proof.
  rewrite key_le_cmp, key_lt_cmp.
  destruct (Spec.key_cmp (fst x) (fst y)); congruence.
Qed.

Lemma insert_perm (x : TodoApp.key * Task.t) l :
  Permutation (TodoApp.insert x l) (x :: l).
Proof.
  induction l as [|y l IH]; simpl; auto.
  destruct (TodoApp.key_lt (fst x) (fst y)); auto.
  rewrite IH. apply perm_swap.
Qed.

Lemma insert_sorted (x : TodoApp.key * Task.t) l :
  StronglySorted Spec.key_le l ->
  StronglySorted Spec.key_le (TodoApp.insert x l).
Proof.
  induction 1 as [|y l Hs IH Hy]; simpl.
  - repeat constructor.
  - destruct (TodoApp.key_lt (fst x) (fst y)) eqn:E.
    + constructor; [now constructor|].
      apply key_lt_le in E. constructor; auto.
      eapply Forall_impl; [|exact Hy]. intros z Hz.
      eapply key_le_trans; eassumption.
    + constructor; auto.
      eapply Permutation_Forall; [symmetry; apply insert_perm|].
      constructor; auto.
Qed.

Lemma sort_acc_perm l : forall acc,
  Permutation (fold_left (fun acc x => TodoApp.insert x acc) l acc)
              (acc ++ l).
Proof.
  induction l as [|x l IH]; intro acc; simpl.
  - now rewrite app_nil_r.
  - rewrite IH, insert_perm.
    change (x :: acc)%list with ([x] ++ acc)%list.
    rewrite (Permutation_app_comm [x] acc), <- app_assoc. reflexivity.
Qed.

Lemma sort_perm l : Permutation (TodoApp.sort l) l.
Proof. unfold TodoApp.sort. now rewrite sort_acc_perm. Qed.

Lemma sort_acc_sorted l : forall acc,
  StronglySorted Spec.key_le acc ->
  StronglySorted Spec.key_le
    (fold_left (fun acc x => TodoApp.insert x acc) l acc).
Proof.
  induction l as [|x l IH]; intros acc H; simpl; auto.
  apply IH, insert_sorted, H.
Qed.

Lemma sort_sorted l : StronglySorted Spec.key_le (TodoApp.sort l).
Proof. apply sort_acc_sorted. constructor. Qed.

(** The sort is stable: the elements with one key keep their order. *)
Lemma insert_same_key (k : TodoApp.key) (x : TodoApp.key * Task.t) l :
  StronglySorted Spec.key_le l ->
  filter (Spec.same_key k) (TodoApp.insert x l)
  = (filter (Spec.same_key k) l ++ filter (Spec.same_key k) [x])%list.
Proof.
  induction 1 as [|y l Hs IH Hy]; [reflexivity|].
  cbn [TodoApp.insert].
  destruct (TodoApp.key_lt (fst x) (fst y)) eqn:E.
  - change (x :: y :: l)%list with ([x] ++ y :: l)%list.
    rewrite filter_app.
    destruct (Spec.same_key k x) eqn:Ex;
      [|cbn [filter]; rewrite Ex; now rewrite app_nil_r].
    assert (Hnone : forall z, In z (y :: l) -> Spec.same_key k z = false).
    { intros z Hz. unfold Spec.same_key in *.
      destruct (Spec.key_cmp (fst x) k) eqn:Exk; try discriminate.
      apply (Spec.cmp_eq _ key_total_order) in Exk. subst k.
      assert (Spec.key_cmp (fst x) (fst y) = Lt) as Hxy.
      { rewrite key_lt_cmp in E.
        now destruct (Spec.key_cmp (fst x) (fst y)). }
      assert (Spec.key_cmp (fst y) (fst z) <> Gt) as Hyz.
      { destruct Hz as [<-|Hz].
        - now rewrite (Spec.cmp_refl _ key_total_order).
        - rewrite Forall_forall in Hy. now apply key_le_cmp, Hy. }
      rewrite (Spec.cmp_antisym _ key_total_order (fst x) (fst z)).
      now rewrite (cmp_lt_le_trans _ key_total_order _ _ _ Hxy Hyz). }
    assert (filter (Spec.same_key k) (y :: l) = []) as ->.
    { clear -Hnone. induction (y :: l) as [|z zs IHz]; [reflexivity|].
      cbn [filter]. rewrite (Hnone z (or_introl eq_refl)).
      apply IHz. intros w Hw. apply Hnone. now right. }
    now rewrite app_nil_r.
  - change (y :: TodoApp.insert x l)%list
      with ([y] ++ TodoApp.insert x l)%list.
    change (y :: l)%list with ([y] ++ l)%list.
    rewrite !filter_app, IH. now rewrite app_assoc.
Qed.

Lemma sort_acc_stable (k : TodoApp.key) l : forall acc,
  StronglySorted Spec.key_le acc ->
  filter (Spec.same_key k)
         (fold_left (fun acc x => TodoApp.insert x acc) l acc)
  = (filter (Spec.same_key k) acc ++ filter (Spec.same_key k) l)%list.
Proof.
  induction l as [|x l IH]; intros acc H; cbn [fold_left].
  - now rewrite app_nil_r.
  - rewrite IH by now apply insert_sorted.
    rewrite insert_same_key by assumption.
    rewrite <- app_assoc. f_equal.
    change (x :: l)%list with ([x] ++ l)%list. now rewrite filter_app.
Qed.

Lemma sort_stable (k : TodoApp.key) l :
  filter (Spec.same_key k) (TodoApp.sort l) = filter (Spec.same_key k) l.
Proof.
  unfold TodoApp.sort. rewrite sort_acc_stable by constructor. reflexivity.
Qed.

(** ** The list view *)

Lemma priority_order_get_weight (task : Task.t) :
  hashable (Task.priority task) = true ->
  TodoApp.priority_order_get (Task.priority task) 2 = Ok (Spec.weight task).
Proof.
  unfold Spec.weight, TodoApp.priority_order_get.
  destruct (Task.priority task) as [| | |s| |]; simpl;
    try reflexivity; discriminate.
Qed.

Lemma sort_key_sortable (task : Task.t) :
  Spec.sortable task = true -> TodoApp.sort_key task = Ok (Spec.key_of task).
Proof.
  unfold Spec.sortable, TodoApp.sort_key, Spec.key_of, Spec.sort_title,
    Spec.sort_deadline.
  intro H. apply andb_prop in H as [Hp Ht].
  rewrite (priority_order_get_weight task Hp); simpl.
  destruct (Task.title task); try discriminate. reflexivity.
Qed.

Lemma keyed_sortable (ts : list Task.t) :
  Forall (fun task => Spec.sortable task = true) ts ->
  TodoApp.keyed ts = Ok (map (fun task => (Spec.key_of task, task)) ts).
Proof.
  induction 1 as [|task ts Ht _ IH]; simpl; auto.
  now rewrite (sort_key_sortable task Ht), IH.
Qed.

Lemma keep_matches (k : Spec.filter_kind) (now : Datetime.datetime)
    (task : Task.t) :
  TodoApp.keep (Spec.filter_text k) now task = Spec.matches k now task.
Proof.
  destruct k; unfold TodoApp.keep; cbn;
    repeat match goal with
           | |- context [if ?b then _ else _] => destruct b
           end; reflexivity.
Qed.

Lemma filter_tasks_selected (k : Spec.filter_kind) clk (ts : list Task.t) :
  forall i,
    TodoApp.filter_tasks (Spec.filter_text k) clk i ts
    = Spec.selected k clk i ts.
Proof.
  induction ts as [|task ts IH]; intro i; simpl; auto.
  rewrite keep_matches, IH. now destruct (Spec.matches k (clk i) task).
Qed.

(** Every selected task stands in the list, at a position where it
    matches. *)
Lemma selected_In (k : Spec.filter_kind) clk (ts : list Task.t) :
  forall i task,
    In task (Spec.selected k clk i ts) ->
    exists j, nth_error ts j = Some task
              /\ Spec.matches k (clk (i + j)%nat) task = true.
Proof.
  induction ts as [|x ts IH]; intros i task; simpl; [tauto|].
  intro H. apply in_app_or in H as [H|H].
  - destruct (Spec.matches k (clk i) x) eqn:E; simpl in H; [|tauto].
    destruct H as [<-|[]]. exists O. now rewrite Nat.add_0_r.
  - apply IH in H as (j & Hj & Hm). exists (S j).
    now rewrite Nat.add_succ_r.
Qed.

Lemma key_le_precedes (a b : Task.t) :
  Spec.key_le (Spec.key_of a, a) (Spec.key_of b, b) -> Spec.precedes a b.
Proof.
  unfold Spec.key_le, Spec.key_of, Spec.precedes, TodoApp.key_lt; simpl.
  destruct (- Spec.weight b ?= - Spec.weight a)%Z eqn:Ew.
  - apply Z.compare_eq in Ew.
    pose proof datetime_total_order as Od.
    destruct (Datetime.compare (Spec.sort_deadline b) (Spec.sort_deadline a))
      eqn:Ed; intro H; try discriminate; right; (split; [lia|]).
    + right. apply (Spec.cmp_eq _ Od) in Ed. split; [congruence|].
      unfold String.ltb in H. unfold String.leb.
      rewrite (Spec.cmp_antisym _ string_total_order
                 (Spec.sort_title b) (Spec.sort_title a)).
      now destruct (String.compare (Spec.sort_title b) (Spec.sort_title a)).
    + left. unfold Datetime.ltb.
      now rewrite (proj1 (cmp_gt_lt _ Od _ _) Ed).
  - discriminate.
  - intros _. left. apply Z.compare_gt_iff in Ew. lia.
Qed.

Lemma sorted_tasks (l : list (TodoApp.key * Task.t)) :
  Forall (fun p => fst p = Spec.key_of (snd p)) l ->
  StronglySorted Spec.key_le l ->
  StronglySorted Spec.precedes (map snd l).
Proof.
  intros Hk Hs. induction Hs as [|[kx x] l Hs IH Hx]; simpl.
  - constructor.
  - inversion Hk as [|? ? Hkx Hkl]; subst. simpl in Hkx. subst kx.
    constructor; auto.
    apply Forall_map. rewrite Forall_forall in Hx, Hkl |- *.
    intros [ky y] Hy. specialize (Hx _ Hy). specialize (Hkl _ Hy).
    simpl in *. subst ky. now apply key_le_precedes.
Qed.

Lemma sort_key_returns (task : Task.t) (k : TodoApp.key) :
  TodoApp.sort_key task = Ok k -> Spec.sortable task = true.
Proof.
  unfold TodoApp.sort_key, Spec.sortable, TodoApp.priority_order_get,
    TodoApp.str_lower.
  destruct (Task.priority task), (Task.title task); simpl;
    try discriminate; reflexivity.
Qed.

Lemma keyed_returns (ts : list Task.t) :
  forall l, TodoApp.keyed ts = Ok l ->
            Forall (fun task => Spec.sortable task = true) ts.
Proof.
  induction ts as [|task ts IH]; intros l; cbn [TodoApp.keyed]; [auto|].
  destruct (TodoApp.sort_key task) as [k|] eqn:Ek; [|discriminate].
  destruct (TodoApp.keyed ts) as [r|]; [|discriminate].
  intros _. constructor; eauto using sort_key_returns.
Qed.

(** The list is drawn exactly when the sort accepts every task that
    matches; otherwise [update_task_list] raises. *)
Lemma update_task_list_returns (k : Spec.filter_kind) clk
    (self : TodoApp.app) :
  (exists shown,
      TodoApp.update_task_list (Spec.filter_text k) clk self = Ok shown)
  <-> Forall (fun task => Spec.sortable task = true)
             (Spec.selected k clk 0 (TodoApp.tasks self)).
Proof.
  unfold TodoApp.update_task_list. rewrite filter_tasks_selected. split.
  - intros [shown H].
    destruct (TodoApp.keyed (Spec.selected k clk 0 (TodoApp.tasks self)))
      as [l|] eqn:E; [|discriminate].
    eapply keyed_returns, E.
  - intro H. rewrite (keyed_sortable _ H). cbn [bind]. eauto.
Qed.

(** C3. With any of the six filter kinds, the list shown holds exactly the
    tasks that match the kind (a High, Medium or Low priority; being
    overdue, which no completed task is; being completed; everything for
    All), and it is ordered by weight, greater first (High 3, Medium 2,
    Low 1, anything else 2), then by deadline datetime with the tasks
    without one taken as the greatest datetime, then by lower-cased title.
    On B (Low, no deadline), A (High, 2025-01-01), C (High, 2024-01-01) and
    All the list is C, A, B. *)
Theorem update_task_list_filtered_sorted :
  (forall (k : Spec.filter_kind) (clk : nat -> Datetime.datetime)
          (self : TodoApp.app),
      Forall (fun task => Spec.sortable task = true) (TodoApp.tasks self) ->
      exists shown,
        TodoApp.update_task_list (Spec.filter_text k) clk self = Ok shown
        /\ Permutation shown (Spec.selected k clk 0 (TodoApp.tasks self))
        /\ StronglySorted Spec.precedes shown
        /\ (forall task, In task shown ->
              exists j, nth_error (TodoApp.tasks self) j = Some task
                        /\ Spec.matches k (clk j) task = true)
        /\ (k = Spec.Overdue ->
            forall task, In task shown ->
              truthy (Task.completed task) = false))
  /\ (forall clk file,
        TodoApp.update_task_list (Spec.filter_text Spec.All) clk
          (TodoApp.mkapp [Spec.task_B; Spec.task_A; Spec.task_C] file)
        = Ok [Spec.task_C; Spec.task_A; Spec.task_B]).
Proof.
  split; [|reflexivity].
  intros k clk self Hs. unfold TodoApp.update_task_list.
  rewrite filter_tasks_selected.
  set (sel := Spec.selected k clk 0 (TodoApp.tasks self)).
  assert (Hin : forall task, In task sel ->
            exists j, nth_error (TodoApp.tasks self) j = Some task
                      /\ Spec.matches k (clk j) task = true).
  { intros task H. now apply selected_In in H. }
  assert (Hsel : Forall (fun task => Spec.sortable task = true) sel).
  { rewrite Forall_forall in Hs |- *. intros task H.
    apply Hin in H as (j & Hj & _). eapply Hs, nth_error_In, Hj. }
  rewrite (keyed_sortable sel Hsel); simpl.
  set (pairs := map (fun task => (Spec.key_of task, task)) sel).
  assert (Hperm : Permutation (map snd (TodoApp.sort pairs)) sel).
  { rewrite (sort_perm pairs). unfold pairs. rewrite map_map; simpl.
    now rewrite map_id. }
  eexists. split; [reflexivity|]. split; [exact Hperm|].
  split; [|split].
  - apply sorted_tasks; [|apply sort_sorted].
    eapply Permutation_Forall; [symmetry; apply sort_perm|].
    unfold pairs. apply Forall_map. now apply Forall_forall.
  - intros task H. apply Hin. eapply Permutation_in; eassumption.
  - intros -> task H.
    assert (In task sel) as H' by (eapply Permutation_in; eassumption).
    apply Hin in H' as (j & _ & Hm). simpl in Hm.
    eapply is_overdue_not_completed, Hm.
Qed.

(** ** Lists of tasks *)

Lemma nth_error_update (f : Task.t -> Task.t) (l : list Task.t) :
  forall i j,
    nth_error (TodoApp.update i f l) j
    = if Nat.eqb j i then option_map f (nth_error l j) else nth_error l j.
Proof.
  induction l as [|x l IH]; intros [|i] [|j]; simpl; auto.
  now destruct (Nat.eqb j i).
Qed.

Lemma nth_error_remove_at (l : list Task.t) :
  forall i j,
    nth_error (TodoApp.remove_at i l) j
    = if Nat.ltb j i then nth_error l j else nth_error l (S j).
Proof.
  induction l as [|x l IH]; intros i j.
  - destruct i, j; simpl; auto. now destruct (Nat.ltb (S j) (S i)).
  - destruct i as [|i], j as [|j]; simpl; auto.
    rewrite IH. reflexivity.
Qed.

Lemma length_update (f : Task.t -> Task.t) (l : list Task.t) :
  forall i, List.length (TodoApp.update i f l) = List.length l.
Proof.
  induction l as [|x l IH]; intros [|i]; simpl; auto.
Qed.

Lemma save_tasks_tasks (o : TodoApp.io) (self : TodoApp.app) :
  TodoApp.tasks (fst (TodoApp.save_tasks o self)) = TodoApp.tasks self.
Proof. now destruct o. Qed.


(** ** The timer handler *)


Lemma notify_loop_tasks (clk : nat -> Datetime.datetime)
    (ios : nat -> TodoApp.io) (rest : list Task.t) :
  forall i visited file,
    TodoApp.tasks (TodoApp.after (TodoApp.notify_loop clk ios i visited rest file))
    = (visited ++ Spec.swept clk i rest)%list.
Proof.
  induction rest as [|task rest IH]; intros i visited file; simpl.
  - now rewrite app_nil_r.
  - unfold Spec.mark, Spec.fired.
    destruct (Task.should_notify (clk i) task) as [[|]|e]; simpl.
    + rewrite IH, <- app_assoc. reflexivity.
    + rewrite IH, <- app_assoc. reflexivity.
    + reflexivity.
Qed.




(** The list the loop leaves, position by position: the tasks it got the
    answer true for are flagged, the others are as they were. *)
Lemma swept_examined_nth clk (ts : list Task.t) :
  forall i p task,
    nth_error ts p = Some task ->
    nth_error (Spec.swept clk i ts) p
    = Some (if Nat.ltb p (Spec.examined clk i ts)
               && Spec.fired (clk (i + p)%nat) task
            then Task.set_notified (PBool true) task else task).
Proof.
  induction ts as [|x ts IH]; intros i [|p] task H; cbn [nth_error] in H;
    try discriminate; cbn [Spec.swept Spec.examined].
  - injection H as ->. rewrite Nat.add_0_r. unfold Spec.mark, Spec.fired.
    destruct (Task.should_notify (clk i) task) as [[|]|]; reflexivity.
  - rewrite Nat.add_succ_r.
    destruct (Task.should_notify (clk i) x); cbn [nth_error].
    + now rewrite (IH (S i) p task H).
    + now rewrite H.
Qed.





(** ** Runs of the program *)




(** ** Printing and reading dates and times *)

Lemma In_range (k n : Z) :
  0 <= n < k -> In n (Spec.range k).
Proof.
  intro H. unfold Spec.range. apply in_map_iff.
  exists (Z.to_nat n). split; [lia|]. apply in_seq. lia.
Qed.

Lemma reads_back_2 (n : Z) : 0 <= n < 100 -> Spec.reads_back 2 n = true.
Proof.
  intro H.
  assert (forallb (Spec.reads_back 2) (Spec.range 100) = true) as Hall
      by (vm_compute; reflexivity).
  rewrite forallb_forall in Hall. apply Hall, In_range. lia.
Qed.

Lemma reads_back_4 (n : Z) : 0 <= n < 10000 -> Spec.reads_back 4 n = true.
Proof.
  intro H.
  assert (forallb (Spec.reads_back 4) (Spec.range 10000) = true) as Hall
      by (vm_compute; reflexivity).
  rewrite forallb_forall in Hall. apply Hall, In_range. lia.
Qed.

Lemma parse_digits_app (k : nat) :
  forall acc s v rest,
    Datetime.parse_digits k acc s = Some (v, EmptyString) ->
    Datetime.parse_digits k acc (s ++ rest) = Some (v, rest).
Proof.
  induction k as [|k IH]; intros acc s v rest; simpl.
  - intro H. injection H as -> ->. reflexivity.
  - destruct s as [|c s]; [discriminate|]. simpl.
    destruct (Datetime.is_digit c); [|discriminate]. apply IH.
Qed.

Lemma parse_pad0 (w : nat) (n : Z) (rest : string) :
  Spec.reads_back w n = true ->
  Datetime.parse_digits w 0 (Datetime.pad0 w n ++ rest) = Some (n, rest).
Proof.
  unfold Spec.reads_back. intro H. apply parse_digits_app.
  destruct (Datetime.parse_digits w 0 (Datetime.pad0 w n)) as [[v r]|];
    [|discriminate].
  destruct r; [|discriminate].
  apply andb_prop in H as [H _]. apply Z.eqb_eq in H. now subst.
Qed.

(** A field of [strptime] reads two printed digits back. *)
Lemma parse_field_pad0 (n : Z) (rest : string) :
  Spec.reads_back 2 n = true ->
  Datetime.parse_field (Datetime.pad0 2 n ++ rest) = Some (n, rest).
Proof.
  unfold Spec.reads_back. intro H.
  destruct (Datetime.pad0 2 n) as [|a [|b [|c s]]]; simpl in *;
    try discriminate.
  - destruct (Datetime.is_digit a); [discriminate|discriminate].
  - destruct (Datetime.is_digit a); [|discriminate].
    destruct (Datetime.is_digit b); [|discriminate]. simpl in *.
    apply andb_prop in H as [H _]. apply Z.eqb_eq in H.
    f_equal. f_equal. lia.
  - destruct (Datetime.is_digit a); [|discriminate].
    destruct (Datetime.is_digit b); discriminate.
Qed.

Lemma parse_pad0_end (w : nat) (n : Z) :
  Spec.reads_back w n = true ->
  Datetime.parse_digits w 0 (Datetime.pad0 w n) = Some (n, EmptyString).
Proof.
  unfold Spec.reads_back. intro H.
  destruct (Datetime.parse_digits w 0 (Datetime.pad0 w n)) as [[v r]|];
    [|discriminate].
  destruct r; [|discriminate].
  apply andb_prop in H as [H _]. apply Z.eqb_eq in H. now subst.
Qed.

Lemma days_in_month_le (y m : Z) : Datetime.days_in_month y m <= 31.
Proof.
  unfold Datetime.days_in_month, Datetime.DAYS_IN_MONTH.
  destruct ((m =? 2)%Z && Datetime.is_leap y); [lia|].
  destruct (Z.to_nat m) as [|[|[|[|[|[|[|[|[|[|[|[|[|k]]]]]]]]]]]]];
    simpl; try lia.
  destruct k; simpl; lia.
Qed.

Lemma valid_date_bounds (d : Datetime.date) :
  Datetime.valid_date d = true ->
  0 <= Datetime.year d < 10000
  /\ 0 <= Datetime.month d < 100
  /\ 0 <= Datetime.day d < 100.
Proof.
  unfold Datetime.valid_date, Datetime.MINYEAR, Datetime.MAXYEAR. intro H.
  repeat (apply andb_prop in H as [H ?]).
  pose proof (days_in_month_le (Datetime.year d) (Datetime.month d)).
  lia.
Qed.

Lemma valid_time_bounds (tm : Datetime.time) :
  Datetime.valid_time tm = true ->
  0 <= Datetime.hour tm < 100
  /\ 0 <= Datetime.minute tm < 100
  /\ 0 <= Datetime.second tm < 100.
Proof.
  unfold Datetime.valid_time. intro H.
  repeat (apply andb_prop in H as [H ?]). lia.
Qed.

(** [datetime.fromisoformat] reads a printed date back, at midnight. *)
Lemma fromisoformat_date_isoformat (d : Datetime.date) :
  Datetime.valid_date d = true ->
  Datetime.fromisoformat (Datetime.date_isoformat d)
  = Some (Datetime.combine d (Datetime.mktime 0 0 0 0)).
Proof.
  intro Hv. destruct (valid_date_bounds d Hv) as (Hy & Hm & Hd).
  destruct d as [y m dd]. simpl in Hy, Hm, Hd.
  unfold Datetime.fromisoformat, Datetime.parse_isoformat_date,
    Datetime.date_isoformat.
  cbn [Datetime.year Datetime.month Datetime.day].
  rewrite (parse_pad0 4 y _ (reads_back_4 y Hy)).
  change ("-" ++ ?x) with (String "-" x). cbv iota beta.
  change (Ascii.eqb "-" "-") with true. cbv iota beta. cbn [negb].
  rewrite (parse_pad0 2 m _ (reads_back_2 m Hm)).
  change ("-" ++ ?x) with (String "-" x). cbv iota beta.
  change (Ascii.eqb "-" "-") with true. cbn [negb]. cbv iota beta.
  rewrite (parse_pad0_end 2 dd (reads_back_2 dd Hd)).
  unfold Datetime.valid_datetime. cbn [Datetime.d_date Datetime.d_time].
  rewrite Hv. reflexivity.
Qed.

(** [strptime] reads a printed time without a fraction back. *)
Lemma strptime_time_isoformat (tm : Datetime.time) :
  Datetime.valid_time tm = true -> Datetime.microsecond tm = 0 ->
  Datetime.strptime_HMS (Datetime.time_isoformat tm) = Some tm.
Proof.
  intros Hv Hus. destruct (valid_time_bounds tm Hv) as (Hh & Hm & Hs).
  destruct tm as [h m s us]. simpl in Hh, Hm, Hs, Hus. subst us.
  unfold Datetime.strptime_HMS, Datetime.time_isoformat.
  cbn [Datetime.hour Datetime.minute Datetime.second Datetime.microsecond].
  change (0 =? 0)%Z with true. cbv iota.
  rewrite (parse_field_pad0 h _ (reads_back_2 h Hh)).
  change (":" ++ ?x) with (String ":" x). cbv iota beta.
  change (Ascii.eqb ":" ":") with true. cbn [negb]. cbv iota beta.
  rewrite (parse_field_pad0 m _ (reads_back_2 m Hm)).
  change (":" ++ ?x) with (String ":" x). cbv iota beta.
  change (Ascii.eqb ":" ":") with true. cbn [negb]. cbv iota beta.
  rewrite (parse_field_pad0 s _ (reads_back_2 s Hs)).
  now rewrite Hv.
Qed.

Lemma append_nonempty (a b : string) (c : ascii) :
  String.eqb (a ++ String c b) "" = false.
Proof. now destruct a. Qed.

Lemma date_isoformat_nonempty (d : Datetime.date) :
  truthy (PStr (Datetime.date_isoformat d)) = true.
Proof.
  unfold truthy, Datetime.date_isoformat.
  change ("-" ++ ?x) with (String "-" x).
  now rewrite append_nonempty.
Qed.

Lemma time_isoformat_nonempty (tm : Datetime.time) :
  truthy (PStr (Datetime.time_isoformat tm)) = true.
Proof.
  unfold truthy, Datetime.time_isoformat.
  change (":" ++ ?x) with (String ":" x).
  now rewrite append_nonempty.
Qed.

(** The round trip of a task through [to_dict] and [from_dict], for a
    deadline time in whole seconds. *)
Lemma to_dict_from_dict (now : Datetime.datetime) (task : Task.t) :
  Spec.valid_task task = true -> Spec.whole_seconds task = true ->
  Task.from_dict now (PDict (Task.to_dict task)) = Ok task.
Proof.
  unfold Spec.valid_task, Spec.whole_seconds. intros Hv Hw.
  apply andb_prop in Hv as [Hd Ht].
  destruct task as [ti de pr d tm ne nb co cr no];
    cbn [Task.deadline Task.deadline_time] in *.
  unfold Task.from_dict, Task.load_deadline, Task.load_deadline_time,
    Task.to_dict, get, lookup.
  cbn [Task.title Task.description Task.priority Task.deadline
       Task.deadline_time Task.notify_enabled Task.notify_before_minutes
       Task.completed Task.created_at Task.notified String.eqb Ascii.eqb
       Bool.eqb].
  cbv iota beta.
  assert (Hdate :
    (if truthy match d with
               | Some d0 => PStr (Datetime.date_isoformat d0)
               | None => PNone
               end
     then dt <- Task.fromisoformat
                  match d with
                  | Some d0 => PStr (Datetime.date_isoformat d0)
                  | None => PNone
                  end ;; Ok (Some (Datetime.d_date dt))
     else Ok None) = Ok d).
  { destruct d as [d|]; [|reflexivity].
    rewrite date_isoformat_nonempty. unfold Task.fromisoformat.
    now rewrite (fromisoformat_date_isoformat d Hd). }
  assert (Htime :
    (if truthy match tm with
               | Some t0 => PStr (Datetime.time_isoformat t0)
               | None => PNone
               end
     then match Task.strptime_HMS
                  match tm with
                  | Some t0 => PStr (Datetime.time_isoformat t0)
                  | None => PNone
                  end with
          | Ok t0 => Ok (Some t0)
          | Raise ValueError =>
              match Task.fromisoformat
                      match tm with
                      | Some t0 => PStr (Datetime.time_isoformat t0)
                      | None => PNone
                      end with
              | Ok dt => Ok (Some (Datetime.d_time dt))
              | Raise ValueError => Ok None
              | Raise e => Raise e
              end
          | Raise e => Raise e
          end
     else Ok None) = Ok tm).
  { destruct tm as [tm|]; [|reflexivity].
    rewrite time_isoformat_nonempty. unfold Task.strptime_HMS.
    apply Z.eqb_eq in Hw.
    now rewrite (strptime_time_isoformat tm Ht Hw). }
  rewrite Hdate. cbn [bind]. rewrite Htime. reflexivity.
Qed.

Lemma from_dicts_to_dicts clk (ts : list Task.t) :
  Forall (fun task => Spec.valid_task task = true
                      /\ Spec.whole_seconds task = true) ts ->
  forall i,
    TodoApp.from_dicts clk i (map (fun task => PDict (Task.to_dict task)) ts)
    = Ok ts.
Proof.
  induction 1 as [|task ts [Hv Hw] _ IH]; intro i;
    cbn [TodoApp.from_dicts map]; auto.
  now rewrite (to_dict_from_dict (clk i) task Hv Hw), IH.
Qed.

(** Loading what a successful save wrote gives the list back, when every
    deadline time is in whole seconds. *)
Lemma load_tasks_save_tasks clk (self : TodoApp.app) :
  Forall (fun task => Spec.valid_task task = true
                      /\ Spec.whole_seconds task = true)
         (TodoApp.tasks self) ->
  TodoApp.tasks
    (fst (TodoApp.load_tasks true clk
            (TodoApp.init
               (TodoApp.data_file (fst (TodoApp.save_tasks TodoApp.IoOk self))))))
  = TodoApp.tasks self.
Proof.
  intro H. unfold TodoApp.load_tasks.
  cbn [TodoApp.save_tasks TodoApp.init TodoApp.data_file fst].
  unfold TodoApp.document. cbn [TodoApp.iter bind].
  now rewrite (from_dicts_to_dicts clk _ H 0%nat).
Qed.

(** ** Persistence *)

(** C4, at the failing input.  A deadline time with a fraction of a second
    is written as 12:30:45.500000, which neither of the two formats
    [from_dict] tries accepts: the task comes back without its deadline
    time, and its deadline datetime moves to 23:59:00. *)
Theorem round_trip_loses_fraction (now : Datetime.datetime) :
  lookup "deadline_time" (Task.to_dict Spec.task_fraction)
  = Some (PStr "12:30:45.500000")
  /\ (exists task,
        Task.from_dict now (PDict (Task.to_dict Spec.task_fraction)) = Ok task
        /\ Task.deadline_time task = None
        /\ Task.deadline_time Spec.task_fraction
           = Some (Datetime.mktime 12 30 45 500000)
        /\ Task.get_deadline_datetime task
           = Some (Datetime.combine (Datetime.mkdate 2030 1 1)
                                    (Datetime.mktime 23 59 0 0)))
  /\ Task.from_dict now (PDict (Task.to_dict Spec.task_fraction))
     <> Ok Spec.task_fraction.
Proof.
  split; [reflexivity|]. split.
  - eexists. split; [reflexivity|]. repeat split.
  - vm_compute. discriminate.
Qed.

Lemma get_missing (data : dict) (k : string) (default : pyval) :
  lookup k data = None -> get data k default = default.
Proof. unfold get. now intros ->. Qed.

Lemma taken_from_get (data : dict) (k : string) (default : pyval) :
  Spec.taken_from data k default (get data k default).
Proof. unfold Spec.taken_from, get. now destruct (lookup k data). Qed.

Lemma load_deadline_loadable (data : dict) :
  (Spec.deadline_loadable data = true ->
   exists d, Task.load_deadline data = Ok d)
  /\ (Spec.deadline_loadable data = false ->
      Task.load_deadline data
      = Raise match get data "deadline" PNone with
              | PStr _ => ValueError
              | _ => TypeError
              end).
Proof.
  unfold Spec.deadline_loadable, Task.load_deadline, Task.fromisoformat.
  destruct (truthy (get data "deadline" PNone)) eqn:Et.
  - destruct (get data "deadline" PNone) as [| | |s| |]; cbn [bind];
      try (split; [discriminate | reflexivity]).
    destruct (Datetime.fromisoformat s); cbn [bind]; split;
      try discriminate; eauto.
  - split; [eauto | discriminate].
Qed.

Lemma load_deadline_time_loadable (data : dict) :
  (Spec.deadline_time_loadable data = true ->
   exists tm, Task.load_deadline_time data = Ok tm)
  /\ (Spec.deadline_time_loadable data = false ->
      Task.load_deadline_time data = Raise TypeError).
Proof.
  unfold Spec.deadline_time_loadable, Task.load_deadline_time,
    Task.strptime_HMS, Task.fromisoformat.
  destruct (truthy (get data "deadline_time" PNone)) eqn:Et.
  - destruct (get data "deadline_time" PNone) as [| | |s| |];
      try (split; [discriminate | reflexivity]).
    split; [|discriminate]. intros _.
    destruct (Datetime.strptime_HMS s); [eauto|].
    destruct (Datetime.fromisoformat s); eauto.
  - split; [eauto | discriminate].
Qed.

(** A [deadline_time] that is a string: the two formats in turn. *)
Lemma load_deadline_time_string (data : dict) (s : string) :
  lookup "deadline_time" data = Some (PStr s) ->
  Task.load_deadline_time data
  = Ok match Datetime.strptime_HMS s with
       | Some tm => Some tm
       | None =>
           match Datetime.fromisoformat s with
           | Some dt => Some (Datetime.d_time dt)
           | None => None
           end
       end.
Proof.
  intro H. unfold Task.load_deadline_time, get. rewrite H; simpl.
  destruct (String.eqb s "") eqn:E; simpl.
  - apply String.eqb_eq in E. now subst.
  - destruct (Datetime.strptime_HMS s); auto.
    now destruct (Datetime.fromisoformat s).
Qed.

(** A [deadline] that is a string [fromisoformat] reads. *)
Lemma load_deadline_string (data : dict) (s : string)
    (dt : Datetime.datetime) :
  lookup "deadline" data = Some (PStr s) ->
  Datetime.fromisoformat s = Some dt ->
  Task.load_deadline data = Ok (Some (Datetime.d_date dt)).
Proof.
  intros H Hs. unfold Task.load_deadline, get. rewrite H.
  cbn [truthy Task.fromisoformat]. rewrite Hs.
  destruct (String.eqb s "") eqn:E; [|reflexivity].
  apply String.eqb_eq in E. subst. discriminate Hs.
Qed.

(** The list comprehension of [load_tasks] returns the tasks [from_dict]
    returns, record by record. *)
Lemma from_dicts_each clk (records : list pyval) :
  forall i ts,
    List.length ts = List.length records ->
    (forall j record,
        nth_error records j = Some record ->
        exists task,
          nth_error ts j = Some task
          /\ Task.from_dict (clk (i + j)%nat) record = Ok task) ->
    TodoApp.from_dicts clk i records = Ok ts.
Proof.
  induction records as [|x records IH]; intros i [|t ts] Hl H;
    try discriminate Hl; cbn [TodoApp.from_dicts]; [reflexivity|].
  destruct (H O x eq_refl) as (task & Ht & Hx).
  cbn [nth_error] in Ht. injection Ht as ->. rewrite Nat.add_0_r in Hx.
  rewrite Hx. cbn [bind].
  rewrite (IH (S i) ts).
  - reflexivity.
  - now injection Hl.
  - intros j record Hj. specialize (H (S j) record Hj).
    now rewrite Nat.add_succ_r in H.
Qed.

(** C7. Without a file, loading leaves the empty list and signals
    nothing.  A file of records is loaded record by record, in their
    order, and nothing is signalled when [from_dict] returns for each.
    [from_dict] returns for every record whose [deadline] is absent, false
    or a string [fromisoformat] reads and whose [deadline_time] is absent,
    false or a string.  The task it returns has every field the record
    stores, and for a field the record lacks: "" for the title and the
    description, "Medium" for the priority, 30 for
    [notify_before_minutes], false for [notify_enabled], [completed] and
    [notified].  Its deadline is the date of the stored string.  Its
    deadline time, for a stored string, is the time read as HH:MM:SS, or
    else the time of day of the full ISO timestamp, or else none.  The
    file of the three kinds of [deadline_time] loads as three tasks. *)
Theorem load_permissive :
  (forall readable clk,
      TodoApp.load_tasks readable clk (TodoApp.init None)
      = (TodoApp.mkapp [] None, []))
  /\ (forall clk records ts,
        List.length ts = List.length records ->
        (forall i record,
            nth_error records i = Some record ->
            exists task,
              nth_error ts i = Some task
              /\ Task.from_dict (clk i) record = Ok task) ->
        TodoApp.load_tasks true clk
          (TodoApp.init (Some (TodoApp.Document (PList records))))
        = (TodoApp.mkapp ts (Some (TodoApp.Document (PList records))), []))
  /\ (forall now data,
        Spec.deadline_loadable data = true ->
        Spec.deadline_time_loadable data = true ->
        exists task,
          Task.from_dict now (PDict data) = Ok task
          /\ Spec.taken_from data "title" (PStr "") (Task.title task)
          /\ Spec.taken_from data "description" (PStr "")
               (Task.description task)
          /\ Spec.taken_from data "priority" (PStr "Medium")
               (Task.priority task)
          /\ Spec.taken_from data "notify_enabled" (PBool false)
               (Task.notify_enabled task)
          /\ Spec.taken_from data "notify_before_minutes" (PInt 30)
               (Task.notify_before_minutes task)
          /\ Spec.taken_from data "completed" (PBool false)
               (Task.completed task)
          /\ Spec.taken_from data "notified" (PBool false)
               (Task.notified task)
          /\ (forall s dt,
                lookup "deadline" data = Some (PStr s) ->
                Datetime.fromisoformat s = Some dt ->
                Task.deadline task = Some (Datetime.d_date dt))
          /\ (truthy (get data "deadline" PNone) = false ->
              Task.deadline task = None)
          /\ (forall s,
                lookup "deadline_time" data = Some (PStr s) ->
                Task.deadline_time task
                = match Datetime.strptime_HMS s with
                  | Some tm => Some tm
                  | None =>
                      match Datetime.fromisoformat s with
                      | Some dt => Some (Datetime.d_time dt)
                      | None => None
                      end
                  end)
          /\ (truthy (get data "deadline_time" PNone) = false ->
              Task.deadline_time task = None))
  /\ (forall clk,
        exists t1 t2 t3,
          TodoApp.load_tasks true clk
            (TodoApp.init (Some (TodoApp.Document Spec.document_legacy)))
          = (TodoApp.mkapp [t1; t2; t3]
               (Some (TodoApp.Document Spec.document_legacy)), [])
          /\ Task.deadline_time t1 = Some (Datetime.mktime 14 30 0 0)
          /\ Task.deadline_time t2 = Some (Datetime.mktime 14 30 0 0)
          /\ Task.deadline_time t3 = None
          /\ Task.deadline t1 = Some (Datetime.mkdate 2024 3 5)
          /\ Task.deadline t3 = None
          /\ Task.priority t1 = PStr "Medium"
          /\ Task.notify_before_minutes t1 = PInt 30
          /\ Task.notify_enabled t1 = PBool false
          /\ Task.completed t1 = PBool false
          /\ Task.notified t1 = PBool false
          /\ Task.priority t2 = PStr "High"
          /\ Task.notify_before_minutes t2 = PInt 60
          /\ Task.notify_enabled t2 = PBool true).
Proof.
  split; [reflexivity|]. split; [|split].
  - intros clk records ts Hl H. unfold TodoApp.load_tasks, TodoApp.init.
    cbn [TodoApp.data_file TodoApp.iter bind].
    now rewrite (from_dicts_each clk records 0%nat ts Hl H).
  - intros now data Hd Ht.
    destruct (proj1 (load_deadline_loadable data) Hd) as [d Hld].
    destruct (proj1 (load_deadline_time_loadable data) Ht) as [tm Hlt].
    unfold Task.from_dict. rewrite Hld, Hlt. cbn [bind].
    eexists. split; [reflexivity|].
    cbn [Task.title Task.description Task.priority Task.notify_enabled
         Task.notify_before_minutes Task.completed Task.notified
         Task.deadline Task.deadline_time].
    repeat (split; [apply taken_from_get|]).
    split; [|split; [|split]].
    + intros s dt Hs Hdt.
      rewrite (load_deadline_string data s dt Hs Hdt) in Hld.
      now injection Hld as <-.
    + intro Hf. unfold Task.load_deadline in Hld. rewrite Hf in Hld.
      now injection Hld as <-.
    + intros s Hs. rewrite (load_deadline_time_string data s Hs) in Hlt.
      now injection Hlt as <-.
    + intro Hf. unfold Task.load_deadline_time in Hlt.
      cbv zeta in Hlt. rewrite Hf in Hlt. now injection Hlt as <-.
  - intro clk. do 3 eexists. split; [reflexivity|]. repeat split.
Qed.



(** ** The constraints of the data model *)

Lemma timing_get_allowed (s : string) :
  In (TaskDialog.timing_get TaskDialog.timing_map s 30) Spec.allowed_minutes.
Proof.
  unfold TaskDialog.timing_map, Spec.allowed_minutes; simpl.
  repeat match goal with
         | |- context [if ?b then _ else _] => destruct b; [tauto|]
         end.
  tauto.
Qed.

(** What the form returns has a title and one of the nine lead times. *)
Lemma get_task_data_constrained now (f : TaskDialog.form)
    (data : TaskDialog.task_data) :
  TaskDialog.get_task_data now f = Some data ->
  TaskDialog.title data <> ""
  /\ In (TaskDialog.notify_before_minutes data) Spec.allowed_minutes.
Proof.
  unfold TaskDialog.get_task_data.
  destruct (String.eqb (strip (TaskDialog.title_edit f)) "") eqn:E;
    [discriminate|].
  destruct (Datetime.leb _ now); [discriminate|].
  intro H. injection H as <-. simpl. split.
  - now apply String.eqb_neq.
  - apply timing_get_allowed.
Qed.

Lemma Forall_update (P : Task.t -> Prop) (f : Task.t -> Task.t)
    (l : list Task.t) :
  (forall x, P x -> P (f x)) ->
  Forall P l -> forall i, Forall P (TodoApp.update i f l).
Proof.
  intros Hf H. induction H as [|x l Hx Hl IH]; intros [|i]; simpl;
    constructor; auto.
Qed.

Lemma Forall_remove_at (P : Task.t -> Prop) (l : list Task.t) :
  Forall P l -> forall i, Forall P (TodoApp.remove_at i l).
Proof.
  intro H. induction H as [|x l Hx Hl IH]; intros [|i]; simpl; auto.
Qed.

Lemma Forall_swept (P : Task.t -> Prop) clk (ts : list Task.t) :
  (forall x, P x -> P (Task.set_notified (PBool true) x)) ->
  Forall P ts -> forall i, Forall P (Spec.swept clk i ts).
Proof.
  intros Hf H. induction H as [|x l Hx Hl IH]; intro i; simpl; auto.
  destruct (Task.should_notify (clk i) x); [|auto].
  constructor; auto. unfold Spec.mark. destruct (Spec.fired (clk i) x); auto.
Qed.

Lemma step_constrained (c : TodoApp.op) (self : TodoApp.app) :
  Forall Spec.constrained (TodoApp.tasks self) ->
  Forall Spec.constrained (TodoApp.tasks (TodoApp.step c self)).
Proof.
  intro H. destruct c as [f now now' o|i f now o|i o|i o|co clk ios]; simpl.
  - unfold TodoApp.add_task.
    destruct (TaskDialog.get_task_data now f) as [data|] eqn:E; auto.
    rewrite save_tasks_tasks; simpl. apply Forall_app. split; auto.
    constructor; auto. apply get_task_data_constrained in E as [Ht Hm].
    split; simpl; eauto.
  - unfold TodoApp.edit_task.
    destruct (nth_error (TodoApp.tasks self) i); auto.
    destruct (TaskDialog.get_task_data now f) as [data|] eqn:E; auto.
    rewrite save_tasks_tasks; simpl. apply Forall_update; auto.
    intros x _. apply get_task_data_constrained in E as [Ht Hm].
    split; simpl; eauto.
  - unfold TodoApp.delete_task.
    destruct (nth_error (TodoApp.tasks self) i); auto.
    rewrite save_tasks_tasks; simpl. now apply Forall_remove_at.
  - unfold TodoApp.toggle_task_completion.
    destruct (nth_error (TodoApp.tasks self) i); auto.
    rewrite save_tasks_tasks; simpl. apply Forall_update; auto.
  - rewrite notify_loop_tasks; simpl. apply Forall_swept; auto.
Qed.

(** What holds of one task and is kept by a toggle, by the flag of the
    timer and by an edit holds of it after any operation that does not
    delete it, whatever the other tasks are. *)
Lemma step_at (P : Task.t -> Prop) (c : TodoApp.op) (self : TodoApp.app)
    (i : nat) (task : Task.t) :
  (forall x, P x -> P (TodoApp.toggle x)) ->
  (forall x, P x -> P (Task.set_notified (PBool true) x)) ->
  (forall now f data x,
      TaskDialog.get_task_data now f = Some data ->
      P (TodoApp.apply_edit data x)) ->
  nth_error (TodoApp.tasks self) i = Some task ->
  P task ->
  forall j, TodoApp.track c i = Some j ->
    exists task',
      nth_error (TodoApp.tasks (TodoApp.step c self)) j = Some task'
      /\ P task'.
Proof.
  intros Htog Hflag Hedit Hi Hp j Hj.
  destruct c as [f now now' o|i' f now o|i' o|i' o|co clk ios];
    cbn [TodoApp.step TodoApp.track] in *.
  - injection Hj as <-. unfold TodoApp.add_task.
    destruct (TaskDialog.get_task_data now f); cbn [fst].
    + rewrite save_tasks_tasks; cbn [TodoApp.tasks]. exists task.
      split; auto.
      rewrite nth_error_app1; auto. apply nth_error_Some. congruence.
    + eauto.
  - injection Hj as <-. unfold TodoApp.edit_task.
    destruct (nth_error (TodoApp.tasks self) i'); [|eauto].
    destruct (TaskDialog.get_task_data now f) as [data|] eqn:E; cbn [fst];
      [|eauto].
    rewrite save_tasks_tasks; cbn [TodoApp.tasks].
    rewrite nth_error_update, Hi.
    destruct (Nat.eqb i i'); cbn [option_map]; eauto.
  - unfold TodoApp.delete_task.
    destruct (nth_error (TodoApp.tasks self) i') eqn:Hi'.
    + rewrite save_tasks_tasks; cbn [TodoApp.tasks].
      rewrite nth_error_remove_at.
      destruct (Nat.eqb i' i) eqn:E1; [discriminate|].
      apply Nat.eqb_neq in E1.
      destruct (Nat.ltb i' i) eqn:E2; injection Hj as <-.
      * apply Nat.ltb_lt in E2.
        destruct (Nat.ltb (Nat.pred i) i') eqn:E3.
        -- apply Nat.ltb_lt in E3. lia.
        -- replace (S (Nat.pred i)) with i by lia. eauto.
      * apply Nat.ltb_ge in E2.
        destruct (Nat.ltb i i') eqn:E3; [eauto|].
        apply Nat.ltb_ge in E3. lia.
    + cbn [fst]. apply nth_error_None in Hi'.
      assert (i < List.length (TodoApp.tasks self))%nat as Hlt
          by (apply nth_error_Some; congruence).
      destruct (Nat.eqb i' i) eqn:E1; [apply Nat.eqb_eq in E1; lia|].
      destruct (Nat.ltb i' i) eqn:E2; [apply Nat.ltb_lt in E2; lia|].
      injection Hj as <-. eauto.
  - injection Hj as <-. unfold TodoApp.toggle_task_completion.
    destruct (nth_error (TodoApp.tasks self) i'); [|eauto].
    rewrite save_tasks_tasks; cbn [TodoApp.tasks].
    rewrite nth_error_update, Hi.
    destruct (Nat.eqb i i'); cbn [option_map]; eauto.
  - injection Hj as <-.
    cbn [TodoApp.check_overdue_and_notifications TodoApp.after].
    rewrite notify_loop_tasks; cbn [app].
    rewrite (swept_examined_nth clk _ 0%nat i task Hi).
    eexists. split; [reflexivity|].
    destruct (Nat.ltb i (Spec.examined clk 0 (TodoApp.tasks self))
              && Spec.fired (clk (0 + i)%nat) task); auto.
Qed.

Lemma run_at (P : Task.t -> Prop) (cs : list TodoApp.op) :
  (forall x, P x -> P (TodoApp.toggle x)) ->
  (forall x, P x -> P (Task.set_notified (PBool true) x)) ->
  (forall now f data x,
      TaskDialog.get_task_data now f = Some data ->
      P (TodoApp.apply_edit data x)) ->
  forall (self : TodoApp.app) (i : nat) (task : Task.t),
    nth_error (TodoApp.tasks self) i = Some task ->
    P task ->
    forall j, TodoApp.follow cs i = Some j ->
      exists task',
        nth_error (TodoApp.tasks (TodoApp.run cs self)) j = Some task'
        /\ P task'.
Proof.
  intros Htog Hflag Hedit.
  induction cs as [|c cs IH]; intros self i task Hi Hp j Hj;
    cbn [TodoApp.follow TodoApp.run fold_left] in *.
  - injection Hj as <-. eauto.
  - destruct (TodoApp.track c i) as [k|] eqn:Hk; [|discriminate].
    destruct (step_at P c self i task Htog Hflag Hedit Hi Hp k Hk)
      as (t1 & H1 & P1).
    exact (IH (TodoApp.step c self) k t1 H1 P1 j Hj).
Qed.

(** An edit gives the task the title and the lead time of the form. *)
Lemma apply_edit_constrained now (f : TaskDialog.form)
    (data : TaskDialog.task_data) (x : Task.t) :
  TaskDialog.get_task_data now f = Some data ->
  Spec.constrained (TodoApp.apply_edit data x).
Proof.
  intro E. apply get_task_data_constrained in E as [Ht Hm].
  split; cbn [TodoApp.apply_edit Task.title Task.notify_before_minutes];
    eauto.
Qed.

(** [from_dict] takes the title and the lead time as the record stores
    them. *)
Lemma from_dict_stored now (data : dict) (task : Task.t) :
  Task.from_dict now (PDict data) = Ok task ->
  Task.title task = get data "title" (PStr "")
  /\ Task.notify_before_minutes task
     = get data "notify_before_minutes" (PInt 30).
Proof.
  unfold Task.from_dict.
  destruct (Task.load_deadline data) as [d|]; [|discriminate].
  destruct (Task.load_deadline_time data) as [tm|]; [|discriminate].
  cbn [bind]. intro H. injection H as <-. split; reflexivity.
Qed.

(** A record the program wrote stores the title and the lead time of the
    task it was written from. *)
Lemma from_dict_to_dict_constrained now (x task : Task.t) :
  Task.from_dict now (PDict (Task.to_dict x)) = Ok task ->
  Spec.constrained x -> Spec.constrained task.
Proof.
  intros H Hc. apply from_dict_stored in H as [Ht Hm].
  unfold Spec.constrained. rewrite Ht, Hm. exact Hc.
Qed.

Lemma from_dicts_saved_constrained clk (ts : list Task.t) :
  Forall Spec.constrained ts ->
  forall i loaded,
    TodoApp.from_dicts clk i (map (fun task => PDict (Task.to_dict task)) ts)
    = Ok loaded ->
    Forall Spec.constrained loaded.
Proof.
  induction 1 as [|x ts Hx _ IH]; intros i loaded;
    cbn [map TodoApp.from_dicts].
  - intro H. injection H as <-. constructor.
  - destruct (Task.from_dict (clk i) (PDict (Task.to_dict x))) as [task|] eqn:E;
      [|discriminate].
    cbn [bind].
    destruct (TodoApp.from_dicts clk (S i)
                (map (fun task => PDict (Task.to_dict task)) ts))
      as [rest|] eqn:Er; [|discriminate].
    cbn [bind]. intro H. injection H as <-. constructor.
    + exact (from_dict_to_dict_constrained _ x task E Hx).
    + exact (IH (S i) rest Er).
Qed.

(** C9, as the program has it.  The form yields only a title that is not
    empty and one of the nine lead times, so that the task [add_task]
    appends and the task [edit_task] leaves satisfy the constraints,
    whatever the list holds and whatever the edited task was.  No
    operation of a running program (adding, editing, deleting, toggling,
    the timer) takes the constraints from a task that satisfies them,
    whatever the other tasks are; hence a list of such tasks stays one.
    Loading does not validate: a loaded task has the title and the lead
    time its record stores ("" and 30 when it stores none), and satisfies
    the constraints exactly when the record has a title that is a string
    and not empty and a lead time that is absent or one of the nine.  The
    records the program wrote from tasks that satisfy them are such
    records. *)
Theorem constrained_preserved :
  (forall now (f : TaskDialog.form) (data : TaskDialog.task_data),
      TaskDialog.get_task_data now f = Some data ->
      TaskDialog.title data <> ""
      /\ In (TaskDialog.notify_before_minutes data) Spec.allowed_minutes)
  /\ (forall (f : TaskDialog.form) now now' (o : TodoApp.io)
             (self : TodoApp.app) (data : TaskDialog.task_data),
        TaskDialog.get_task_data now f = Some data ->
        exists task,
          TodoApp.tasks (fst (TodoApp.add_task f now now' o self))
          = (TodoApp.tasks self ++ [task])%list
          /\ Spec.constrained task)
  /\ (forall (i : nat) (f : TaskDialog.form) now (o : TodoApp.io)
             (self : TodoApp.app) (task : Task.t)
             (data : TaskDialog.task_data),
        nth_error (TodoApp.tasks self) i = Some task ->
        TaskDialog.get_task_data now f = Some data ->
        exists task',
          nth_error (TodoApp.tasks (fst (TodoApp.edit_task i f now o self))) i
          = Some task'
          /\ Spec.constrained task')
  /\ (forall (cs : list TodoApp.op) (self : TodoApp.app) (i : nat)
             (task : Task.t),
        nth_error (TodoApp.tasks self) i = Some task ->
        Spec.constrained task ->
        forall j, TodoApp.follow cs i = Some j ->
          exists task',
            nth_error (TodoApp.tasks (TodoApp.run cs self)) j = Some task'
            /\ Spec.constrained task')
  /\ (forall (cs : list TodoApp.op) (self : TodoApp.app),
        Forall Spec.constrained (TodoApp.tasks self) ->
        Forall Spec.constrained (TodoApp.tasks (TodoApp.run cs self)))
  /\ (forall now (data : dict) (task : Task.t),
        Task.from_dict now (PDict data) = Ok task ->
        Spec.taken_from data "title" (PStr "") (Task.title task)
        /\ Spec.taken_from data "notify_before_minutes" (PInt 30)
             (Task.notify_before_minutes task)
        /\ (Spec.constrained task <->
            (exists s, lookup "title" data = Some (PStr s) /\ s <> "")
            /\ (lookup "notify_before_minutes" data = None
                \/ exists n,
                     lookup "notify_before_minutes" data = Some (PInt n)
                     /\ In n Spec.allowed_minutes)))
  /\ (forall (readable : bool) clk (self : TodoApp.app),
        Forall Spec.constrained (TodoApp.tasks self) ->
        Forall Spec.constrained
          (TodoApp.tasks
             (fst (TodoApp.load_tasks readable clk
                     (TodoApp.init
                        (TodoApp.data_file
                           (fst (TodoApp.save_tasks TodoApp.IoOk self))))))))
  /\ (forall file, Forall Spec.constrained (TodoApp.tasks (TodoApp.init file))).
Proof.
  assert (Htog : forall x, Spec.constrained x ->
                           Spec.constrained (TodoApp.toggle x)) by auto.
  assert (Hflag : forall x, Spec.constrained x ->
                    Spec.constrained (Task.set_notified (PBool true) x))
    by auto.
  assert (Hedit : forall now f data x,
             TaskDialog.get_task_data now f = Some data ->
             Spec.constrained (TodoApp.apply_edit data x))
    by (intros now f data x; apply apply_edit_constrained).
  split; [exact get_task_data_constrained|].
  split; [|split; [|split; [|split; [|split; [|split]]]]].
  - intros f now now' o self data E. unfold TodoApp.add_task. rewrite E.
    rewrite save_tasks_tasks. cbn [TodoApp.tasks]. eexists.
    split; [reflexivity|].
    apply get_task_data_constrained in E as [Ht Hm].
    split; cbn [Task.init Task.title Task.notify_before_minutes]; eauto.
  - intros i f now o self task data Hi E. unfold TodoApp.edit_task.
    rewrite Hi, E. rewrite save_tasks_tasks. cbn [TodoApp.tasks].
    rewrite nth_error_update, Hi, Nat.eqb_refl. cbn [option_map].
    eexists. split; [reflexivity|]. exact (Hedit now f data task E).
  - intros cs. exact (run_at Spec.constrained cs Htog Hflag Hedit).
  - induction cs as [|c cs IH]; intros self H; simpl; auto.
    apply IH, step_constrained, H.
  - intros now data task H. apply from_dict_stored in H as [Ht Hm].
    split; [rewrite Ht; apply taken_from_get|].
    split; [rewrite Hm; apply taken_from_get|].
    unfold Spec.constrained. rewrite Ht, Hm. unfold get.
    destruct (lookup "title" data) as [vt|];
      destruct (lookup "notify_before_minutes" data) as [vm|]; split.
    + intros [(s & Hs & Hne) (n & Hn & Hin)]. subst. split; eauto.
    + intros [(s & Hs & Hne) [Hn|(n & Hn & Hin)]]; [discriminate|].
      injection Hs as ->. injection Hn as ->. split; eauto.
    + intros [(s & Hs & Hne) (n & Hn & Hin)]. subst. split; eauto.
    + intros [(s & Hs & Hne) _]. injection Hs as ->. split; [eauto|].
      exists 30. split; [reflexivity|]. cbn; tauto.
    + intros [(s & Hs & Hne) _]. injection Hs as <-. now elim Hne.
    + intros [(s & Hs & _) _]. discriminate.
    + intros [(s & Hs & Hne) _]. injection Hs as <-. now elim Hne.
    + intros [(s & Hs & _) _]. discriminate.
  - intros readable clk self H. unfold TodoApp.load_tasks.
    cbn [TodoApp.save_tasks TodoApp.init TodoApp.data_file fst].
    destruct readable; [|constructor].
    unfold TodoApp.document. cbn [TodoApp.iter bind].
    destruct (TodoApp.from_dicts clk 0
                (map (fun task => PDict (Task.to_dict task))
                     (TodoApp.tasks self))) as [loaded|] eqn:E;
      cbn [fst TodoApp.tasks]; [|constructor].
    exact (from_dicts_saved_constrained clk _ H 0%nat loaded E).
  - intro file. constructor.
Qed.

(** C9 fails as stated: a stored record with an empty title and seven
    minutes is loaded as it is. *)
Lemma load_tasks_unconstrained :
  exists task,
    In task
       (TodoApp.tasks
          (fst (TodoApp.load_tasks true (fun _ => Spec.noon)
                  (TodoApp.init
                     (Some (TodoApp.Document Spec.document_unconstrained))))))
    /\ Task.title task = PStr ""
    /\ Task.notify_before_minutes task = PInt 7
    /\ ~ Spec.constrained task.
Proof.
  eexists. split; [left; reflexivity|]. simpl. repeat split.
  intros [(s & Hs & Hne) _]. injection Hs as <-. now apply Hne.
Qed.

(** ** Completion *)


(** ** The theorems at concrete inputs *)

Lemma is_overdue_iff_witness :
  truthy (Task.completed (TodoApp.toggle Spec.task_C)) = true
  /\ Task.is_overdue Spec.quarter_before (TodoApp.toggle Spec.task_C) = false
  /\ Task.is_overdue Spec.quarter_before Spec.task_C = true.
Proof.
  split; [reflexivity|]. split.
  - apply (proj2 (is_overdue_iff Spec.quarter_before
                    (TodoApp.toggle Spec.task_C))).
    reflexivity.
  - apply (proj1 (is_overdue_iff Spec.quarter_before Spec.task_C)).
    eexists. repeat split.
Defined.

Lemma should_notify_iff_witness :
  Task.should_notify Spec.quarter_before Spec.task_fraction = Ok true.
Proof.
  apply (proj1 (should_notify_iff Spec.quarter_before Spec.task_fraction)).
  repeat split.
  exists (Datetime.combine (Datetime.mkdate 2030 1 1)
                           (Datetime.mktime 12 30 45 500000)),
         1800000000,
         (Datetime.combine (Datetime.mkdate 2030 1 1)
                           (Datetime.mktime 12 0 45 500000)).
  repeat split.
Defined.

Lemma get_deadline_datetime_cases_witness :
  Task.deadline Spec.task_B = None
  /\ Task.get_deadline_datetime Spec.task_B = None
  /\ Task.get_deadline_datetime Spec.task_A
     = Some (Datetime.combine (Datetime.mkdate 2025 1 1)
                              (Datetime.mktime 23 59 0 0)).
Proof.
  split; [reflexivity|]. split.
  - apply (proj2 (proj2 (get_deadline_datetime_cases Spec.task_B))).
    reflexivity.
  - apply (proj1 (proj2 (get_deadline_datetime_cases Spec.task_A)));
      reflexivity.
Defined.

Lemma update_task_list_filtered_sorted_witness :
  Forall (fun task => Spec.sortable task = true)
         [Spec.task_B; Spec.task_A; TodoApp.toggle Spec.task_C]
  /\ exists shown,
       TodoApp.update_task_list "Completed" (fun _ => Spec.noon)
         (TodoApp.mkapp [Spec.task_B; Spec.task_A; TodoApp.toggle Spec.task_C]
                        None)
       = Ok shown
       /\ Permutation shown [TodoApp.toggle Spec.task_C].
Proof.
  assert (H : Forall (fun task => Spec.sortable task = true)
                [Spec.task_B; Spec.task_A; TodoApp.toggle Spec.task_C])
    by (repeat constructor).
  split; [exact H|].
  destruct (proj1 update_task_list_filtered_sorted Spec.Completed
              (fun _ => Spec.noon)
              (TodoApp.mkapp
                 [Spec.task_B; Spec.task_A; TodoApp.toggle Spec.task_C] None)
              H)
    as (shown & Hshown & Hperm & _).
  exists shown. split; [exact Hshown | exact Hperm].
Defined.


Lemma load_permissive_witness :
  Spec.deadline_loadable
    [("title", PStr "Water the plants");
     ("deadline_time", PStr "2024-03-05T14:30:00")] = true
  /\ Spec.deadline_time_loadable
       [("title", PStr "Water the plants");
        ("deadline_time", PStr "2024-03-05T14:30:00")] = true
  /\ exists task,
       Task.from_dict Spec.noon
         (PDict [("title", PStr "Water the plants");
                 ("deadline_time", PStr "2024-03-05T14:30:00")])
       = Ok task
       /\ Task.title task = PStr "Water the plants"
       /\ Task.priority task = PStr "Medium"
       /\ Task.notify_before_minutes task = PInt 30
       /\ Task.deadline_time task = Some (Datetime.mktime 14 30 0 0)
       /\ TodoApp.load_tasks true (fun _ => Spec.noon)
            (TodoApp.init
               (Some (TodoApp.Document
                        (PList
                           [PDict
                              [("title", PStr "Water the plants");
                               ("deadline_time",
                                PStr "2024-03-05T14:30:00")]]))))
          = (TodoApp.mkapp [task]
               (Some (TodoApp.Document
                        (PList
                           [PDict
                              [("title", PStr "Water the plants");
                               ("deadline_time",
                                PStr "2024-03-05T14:30:00")]]))),
             []).
Proof.
  split; [reflexivity|]. split; [reflexivity|].
  destruct (proj1 (proj2 (proj2 load_permissive)) Spec.noon
              [("title", PStr "Water the plants");
               ("deadline_time", PStr "2024-03-05T14:30:00")]
              eq_refl eq_refl)
    as (task & Hload & Htitle & _ & Hp & _ & Hm & _ & _ & _ & _ & Htime & _).
  exists task. split; [exact Hload|]. split; [exact Htitle|].
  split; [exact Hp|]. split; [exact Hm|].
  split; [exact (Htime "2024-03-05T14:30:00" eq_refl)|].
  apply (proj1 (proj2 load_permissive) (fun _ => Spec.noon)
           [PDict [("title", PStr "Water the plants");
                   ("deadline_time", PStr "2024-03-05T14:30:00")]]
           [task] eq_refl).
  intros [|i] record Hr; cbn [nth_error] in Hr.
  - injection Hr as <-. exists task. split; [reflexivity | exact Hload].
  - destruct i; discriminate Hr.
Defined.

Lemma constrained_preserved_witness :
  (Forall Spec.constrained (TodoApp.tasks (TodoApp.init None))
   /\ Forall Spec.constrained
        (TodoApp.tasks
           (TodoApp.run
              [TodoApp.AddTask Spec.form_example Spec.noon Spec.noon
                 TodoApp.IoOk;
               TodoApp.ToggleTaskCompletion 0 TodoApp.IoOk]
              (TodoApp.init None))))
  /\ (nth_error (TodoApp.tasks Spec.app_unconstrained) 0
      = Some Spec.task_unconstrained
      /\ ~ Spec.constrained Spec.task_unconstrained
      /\ exists task',
           nth_error
             (TodoApp.tasks
                (fst (TodoApp.edit_task 0 Spec.form_example Spec.noon
                        TodoApp.IoOk Spec.app_unconstrained))) 0
           = Some task'
           /\ Spec.constrained task')
  /\ (nth_error (TodoApp.tasks Spec.app_unconstrained) 1 = Some Spec.task_A
      /\ Spec.constrained Spec.task_A
      /\ exists task',
           nth_error
             (TodoApp.tasks
                (TodoApp.run
                   [TodoApp.ToggleTaskCompletion 1 TodoApp.IoOk;
                    TodoApp.Timer (fun _ => Spec.noon) (fun _ => Spec.noon)
                      (fun _ => TodoApp.IoOk);
                    TodoApp.DeleteTask 0 TodoApp.IoOk]
                   Spec.app_unconstrained)) 0
           = Some task'
           /\ Spec.constrained task').
Proof.
  assert (HA : Spec.constrained Spec.task_A).
  { split; [exists "A"; split; [reflexivity | discriminate]|].
    exists 30. split; [reflexivity | cbn; tauto]. }
  split; [|split].
  - split; [constructor|].
    apply (proj1 (proj2 (proj2 (proj2 (proj2 constrained_preserved))))).
    constructor.
  - split; [reflexivity|]. split.
    + intros [(s & Hs & Hne) _]. injection Hs as <-. now apply Hne.
    + refine (proj1 (proj2 (proj2 constrained_preserved)) 0%nat
                Spec.form_example Spec.noon TodoApp.IoOk
                Spec.app_unconstrained Spec.task_unconstrained _
                eq_refl eq_refl).
  - split; [reflexivity|]. split; [exact HA|].
    apply (proj1 (proj2 (proj2 (proj2 constrained_preserved)))
             [TodoApp.ToggleTaskCompletion 1 TodoApp.IoOk;
              TodoApp.Timer (fun _ => Spec.noon) (fun _ => Spec.noon)
                (fun _ => TodoApp.IoOk);
              TodoApp.DeleteTask 0 TodoApp.IoOk]
             Spec.app_unconstrained 1%nat Spec.task_A eq_refl HA 0%nat
             eq_refl).
Defined.


(** * More of the program *)

(** ** What a round trip through the file keeps *)

Lemma parse_digits_add (a b : nat) :
  forall acc s,
    Datetime.parse_digits (a + b) acc s
    = match Datetime.parse_digits a acc s with
      | Some (v, r) => Datetime.parse_digits b v r
      | None => None
      end.
Proof.
  induction a as [|a IH]; intros acc s; [reflexivity|].
  cbn [Nat.add Datetime.parse_digits].
  destruct s as [|c s]; [reflexivity|].
  destruct (Datetime.is_digit c); [apply IH | reflexivity].
Qed.

(** A printed time has no date in front: [datetime.fromisoformat]
    refuses it. *)
Lemma fromisoformat_time_isoformat (tm : Datetime.time) :
  Datetime.valid_time tm = true ->
  Datetime.fromisoformat (Datetime.time_isoformat tm) = None.
Proof.
  intro Hv. destruct (valid_time_bounds tm Hv) as (Hh & _ & _).
  unfold Datetime.fromisoformat, Datetime.parse_isoformat_date,
    Datetime.time_isoformat.
  change 4%nat with (2 + 2)%nat. rewrite parse_digits_add.
  rewrite (parse_pad0 2 _ _ (reads_back_2 _ Hh)).
  change (":" ++ ?x) with (String ":" x). reflexivity.
Qed.

(** [strptime] stops at the fraction of a printed time. *)
Lemma strptime_fraction (tm : Datetime.time) :
  Datetime.valid_time tm = true -> Datetime.microsecond tm <> 0 ->
  Datetime.strptime_HMS (Datetime.time_isoformat tm) = None.
Proof.
  intros Hv Hus. destruct (valid_time_bounds tm Hv) as (Hh & Hm & Hs).
  unfold Datetime.strptime_HMS, Datetime.time_isoformat.
  apply Z.eqb_neq in Hus. rewrite Hus.
  rewrite (parse_field_pad0 _ _ (reads_back_2 _ Hh)).
  change (":" ++ ?x) with (String ":" x). cbv iota beta.
  change (Ascii.eqb ":" ":") with true. cbn [negb]. cbv iota beta.
  rewrite (parse_field_pad0 _ _ (reads_back_2 _ Hm)).
  change (":" ++ ?x) with (String ":" x). cbv iota beta.
  change (Ascii.eqb ":" ":") with true. cbn [negb]. cbv iota beta.
  rewrite (parse_field_pad0 _ _ (reads_back_2 _ Hs)).
  change ("." ++ ?x) with (String "." x). reflexivity.
Qed.

Lemma load_deadline_to_dict (task : Task.t) :
  Spec.valid_task task = true ->
  Task.load_deadline (Task.to_dict task) = Ok (Task.deadline task).
Proof.
  unfold Spec.valid_task. intro Hv. apply andb_prop in Hv as [Hd _].
  unfold Task.load_deadline, Task.to_dict, get, lookup.
  cbn [String.eqb Ascii.eqb Bool.eqb]. cbv iota beta.
  destruct (Task.deadline task) as [d|]; [|reflexivity].
  rewrite date_isoformat_nonempty. unfold Task.fromisoformat.
  now rewrite (fromisoformat_date_isoformat d Hd).
Qed.

Lemma load_deadline_time_to_dict (task : Task.t) :
  Spec.valid_task task = true ->
  Task.load_deadline_time (Task.to_dict task)
  = Ok (Task.deadline_time (Spec.reloaded task)).
Proof.
  unfold Spec.valid_task. intro Hv. apply andb_prop in Hv as [_ Ht].
  unfold Task.load_deadline_time, Task.to_dict, get, lookup, Spec.reloaded.
  cbn [String.eqb Ascii.eqb Bool.eqb Task.deadline_time]. cbv iota beta.
  destruct (Task.deadline_time task) as [tm|]; [|reflexivity].
  rewrite time_isoformat_nonempty.
  unfold Task.strptime_HMS, Task.fromisoformat.
  destruct (Datetime.microsecond tm =? 0)%Z eqn:E.
  - apply Z.eqb_eq in E. now rewrite (strptime_time_isoformat tm Ht E).
  - apply Z.eqb_neq in E.
    rewrite (strptime_fraction tm Ht E).
    now rewrite (fromisoformat_time_isoformat tm Ht).
Qed.

(** X1. Saving a task and loading it again returns every field as it was,
    but for the deadline time: it comes back when it is in whole seconds
    and is lost, replaced by none, when it has a fraction of a second. *)
Theorem round_trip_exact (now : Datetime.datetime) (task : Task.t) :
  Spec.valid_task task = true ->
  Task.from_dict now (PDict (Task.to_dict task)) = Ok (Spec.reloaded task).
Proof.
  intro Hv. unfold Task.from_dict.
  rewrite (load_deadline_to_dict task Hv). cbn [bind].
  rewrite (load_deadline_time_to_dict task Hv). cbn [bind].
  reflexivity.
Qed.

Lemma round_trip_exact_witness :
  Spec.valid_task Spec.task_fraction = true
  /\ Task.from_dict Spec.noon (PDict (Task.to_dict Spec.task_fraction))
     = Ok (Spec.reloaded Spec.task_fraction)
  /\ Spec.valid_task Spec.task_A = true
  /\ Task.from_dict Spec.noon (PDict (Task.to_dict Spec.task_A))
     = Ok (Spec.reloaded Spec.task_A).
Proof.
  split; [reflexivity|]. split.
  - apply (round_trip_exact Spec.noon Spec.task_fraction). reflexivity.
  - split; [reflexivity|].
    apply (round_trip_exact Spec.noon Spec.task_A). reflexivity.
Defined.

Lemma reloaded_whole_seconds (task : Task.t) :
  Spec.whole_seconds task = true -> Spec.reloaded task = task.
Proof.
  unfold Spec.whole_seconds, Spec.reloaded. destruct task as [? ? ? ? tm ? ? ? ? ?].
  cbn. destruct tm as [tm|]; [|reflexivity]. now intros ->.
Qed.

Lemma from_dicts_reloaded clk (ts : list Task.t) :
  Forall (fun task => Spec.valid_task task = true) ts ->
  forall i,
    TodoApp.from_dicts clk i (map (fun task => PDict (Task.to_dict task)) ts)
    = Ok (map Spec.reloaded ts).
Proof.
  induction 1 as [|task ts Hv _ IH]; intro i;
    cbn [TodoApp.from_dicts map]; auto.
  unfold Task.from_dict.
  rewrite (load_deadline_to_dict task Hv). cbn [bind].
  rewrite (load_deadline_time_to_dict task Hv). cbn [bind].
  now rewrite IH.
Qed.

(** X2. Starting the program on the file a successful save wrote gives the
    list that was saved, task by task in the same order, each as the round
    trip leaves it; the list itself when every deadline time is in whole
    seconds.  Nothing is signalled. *)
Theorem load_after_save (clk : nat -> Datetime.datetime)
    (self : TodoApp.app) :
  Forall (fun task => Spec.valid_task task = true) (TodoApp.tasks self) ->
  TodoApp.load_tasks true clk
    (TodoApp.init
       (TodoApp.data_file (fst (TodoApp.save_tasks TodoApp.IoOk self))))
  = (TodoApp.mkapp (map Spec.reloaded (TodoApp.tasks self))
       (Some (TodoApp.Document (TodoApp.document (TodoApp.tasks self)))), [])
  /\ (Forall (fun task => Spec.whole_seconds task = true) (TodoApp.tasks self) ->
      map Spec.reloaded (TodoApp.tasks self) = TodoApp.tasks self).
Proof.
  intro H. split.
  - unfold TodoApp.load_tasks.
    cbn [TodoApp.save_tasks TodoApp.init TodoApp.data_file fst].
    unfold TodoApp.document. cbn [TodoApp.iter bind].
    now rewrite (from_dicts_reloaded clk _ H 0%nat).
  - intro Hw. clear H. induction Hw as [|task ts Ht _ IH]; [reflexivity|].
    cbn [map]. now rewrite (reloaded_whole_seconds task Ht), IH.
Qed.

Lemma load_after_save_witness :
  Forall (fun task => Spec.valid_task task = true)
         (TodoApp.tasks Spec.app_two)
  /\ TodoApp.tasks
       (fst (TodoApp.load_tasks true (fun _ => Spec.noon)
               (TodoApp.init
                  (TodoApp.data_file
                     (fst (TodoApp.save_tasks TodoApp.IoOk Spec.app_two))))))
     = map Spec.reloaded (TodoApp.tasks Spec.app_two).
Proof.
  assert (H : Forall (fun task => Spec.valid_task task = true)
                     (TodoApp.tasks Spec.app_two))
    by (repeat constructor).
  split; [exact H|].
  rewrite (proj1 (load_after_save (fun _ => Spec.noon) Spec.app_two H)).
  reflexivity.
Defined.

(** ** What [from_dict] and [load_tasks] refuse *)

(** X3. [from_dict] returns a task exactly on a dict whose [deadline] is
    absent, false, or a string of the ISO grammar, and whose
    [deadline_time] is absent, false, or a string.  Otherwise it raises:
    [AttributeError] on what is not a dict, [ValueError] on a deadline
    string it cannot read, [TypeError] on a true deadline or deadline time
    that is not a string.  Only an unreadable deadline-time string is
    forgiven. *)
Theorem from_dict_returns (now : Datetime.datetime) (v : pyval) :
  ((exists task, Task.from_dict now v = Ok task) <->
   exists data,
     v = PDict data
     /\ Spec.deadline_loadable data = true
     /\ Spec.deadline_time_loadable data = true)
  /\ (forall data,
        v = PDict data -> Spec.deadline_loadable data = false ->
        Task.from_dict now v
        = Raise match get data "deadline" PNone with
                | PStr _ => ValueError
                | _ => TypeError
                end)
  /\ (forall data,
        v = PDict data -> Spec.deadline_loadable data = true ->
        Spec.deadline_time_loadable data = false ->
        Task.from_dict now v = Raise TypeError)
  /\ ((forall data, v <> PDict data) ->
      Task.from_dict now v = Raise AttributeError).
Proof.
  repeat split.
  - intros [task H]. destruct v as [| | | | |data]; try discriminate.
    exists data. split; [reflexivity|]. unfold Task.from_dict in H.
    destruct (Spec.deadline_loadable data) eqn:Ed.
    + split; [reflexivity|].
      destruct (proj1 (load_deadline_loadable data) Ed) as [d Hd].
      rewrite Hd in H. cbn [bind] in H.
      destruct (Spec.deadline_time_loadable data) eqn:Et; [reflexivity|].
      rewrite (proj2 (load_deadline_time_loadable data) Et) in H.
      discriminate.
    + rewrite (proj2 (load_deadline_loadable data) Ed) in H. discriminate.
  - intros (data & -> & Hd & Ht). unfold Task.from_dict.
    destruct (proj1 (load_deadline_loadable data) Hd) as [d ->].
    destruct (proj1 (load_deadline_time_loadable data) Ht) as [tm ->].
    cbn [bind]. eauto.
  - intros data -> Hd. unfold Task.from_dict.
    now rewrite (proj2 (load_deadline_loadable data) Hd).
  - intros data -> Hd Ht. unfold Task.from_dict.
    destruct (proj1 (load_deadline_loadable data) Hd) as [d ->].
    now rewrite (proj2 (load_deadline_time_loadable data) Ht).
  - intro H. destruct v; try reflexivity. now elim (H d).
Qed.

Lemma from_dict_returns_witness :
  (exists task,
      Task.from_dict Spec.noon
        (PDict [("deadline", PStr "2024-03-05T14:30:00");
                ("deadline_time", PStr "half past two")])
      = Ok task)
  /\ Task.from_dict Spec.noon (PDict [("deadline", PStr "tomorrow")])
     = Raise ValueError
  /\ Task.from_dict Spec.noon (PDict [("deadline_time", PInt 1430)])
     = Raise TypeError.
Proof.
  split; [|split].
  - apply (proj1 (from_dict_returns Spec.noon _)).
    eexists. repeat split.
  - exact (proj1 (proj2 (from_dict_returns Spec.noon
                           (PDict [("deadline", PStr "tomorrow")])))
             [("deadline", PStr "tomorrow")] eq_refl eq_refl).
  - exact (proj1 (proj2 (proj2 (from_dict_returns Spec.noon
                                  (PDict [("deadline_time", PInt 1430)]))))
             [("deadline_time", PInt 1430)] eq_refl eq_refl eq_refl).
Defined.

Lemma from_dicts_length clk (items : list pyval) :
  forall i ts,
    TodoApp.from_dicts clk i items = Ok ts ->
    List.length ts = List.length items.
Proof.
  induction items as [|x items IH]; intros i ts; cbn [TodoApp.from_dicts].
  - intro H. now injection H as <-.
  - destruct (Task.from_dict (clk i) x); [|discriminate]. cbn [bind].
    destruct (TodoApp.from_dicts clk (S i) items) as [r|] eqn:E;
      [|discriminate].
    cbn [bind]. intro H. injection H as <-. cbn [List.length].
    f_equal. eapply IH, E.
Qed.

Lemma from_dicts_raises clk (items : list pyval) :
  forall i j x e,
    nth_error items j = Some x ->
    Task.from_dict (clk (i + j)%nat) x = Raise e ->
    exists e', TodoApp.from_dicts clk i items = Raise e'.
Proof.
  induction items as [|y items IH]; intros i [|j] x e Hj Hx;
    cbn [nth_error] in Hj; try discriminate; cbn [TodoApp.from_dicts].
  - injection Hj as ->. rewrite Nat.add_0_r in Hx. rewrite Hx.
    cbn [bind]. eauto.
  - destruct (Task.from_dict (clk i) y); cbn [bind]; [|eauto].
    rewrite Nat.add_succ_r in Hx.
    destruct (IH (S i) j x e Hj Hx) as [e' ->]. cbn [bind]. eauto.
Qed.

(** X4. Loading is all or nothing.  It either takes every record of the
    file, as many tasks as the document has items and in their order, and
    signals nothing; or it shows one error and leaves the list empty.  One
    record that [from_dict] refuses empties the whole list, and so does a
    file that holds only part of a document or that cannot be read. *)
Theorem load_tasks_all_or_nothing (readable : bool)
    (clk : nat -> Datetime.datetime) :
  (forall file,
      (exists ts,
          TodoApp.load_tasks readable clk (TodoApp.init file)
          = (TodoApp.mkapp ts file, [])
          /\ match file with
             | None => ts = []
             | Some (TodoApp.Document doc) =>
                 exists items,
                   TodoApp.iter doc = Ok items
                   /\ TodoApp.from_dicts clk 0 items = Ok ts
                   /\ List.length ts = List.length items
             | Some (TodoApp.Truncated _ _) => False
             end)
      \/ TodoApp.load_tasks readable clk (TodoApp.init file)
         = (TodoApp.mkapp [] file, [TodoApp.Critical]))
  /\ (forall items j x e,
        nth_error items j = Some x ->
        Task.from_dict (clk j) x = Raise e ->
        TodoApp.load_tasks readable clk
          (TodoApp.init (Some (TodoApp.Document (PList items))))
        = (TodoApp.mkapp [] (Some (TodoApp.Document (PList items))),
           [TodoApp.Critical]))
  /\ (forall doc n,
        TodoApp.load_tasks readable clk
          (TodoApp.init (Some (TodoApp.Truncated doc n)))
        = (TodoApp.mkapp [] (Some (TodoApp.Truncated doc n)),
           [TodoApp.Critical]))
  /\ (forall c,
        readable = false ->
        TodoApp.load_tasks readable clk (TodoApp.init (Some c))
        = (TodoApp.mkapp [] (Some c), [TodoApp.Critical])).
Proof.
  repeat split.
  - intros [c|]; [|left; exists []; split; reflexivity].
    unfold TodoApp.load_tasks, TodoApp.init. cbn [TodoApp.data_file].
    destruct readable; [|now right].
    destruct c as [doc|doc n]; [|now right].
    destruct (TodoApp.iter doc) as [items|] eqn:Ei; cbn [bind]; [|now right].
    destruct (TodoApp.from_dicts clk 0 items) as [ts|] eqn:Ef; [|now right].
    left. exists ts. split; [reflexivity|]. exists items.
    repeat split; auto. eapply from_dicts_length, Ef.
  - intros items j x e Hj Hx.
    unfold TodoApp.load_tasks, TodoApp.init. cbn [TodoApp.data_file].
    destruct readable; [|reflexivity]. cbn [TodoApp.iter bind].
    now destruct (from_dicts_raises clk items 0 j x e Hj Hx) as [e' ->].
  - intros doc n. unfold TodoApp.load_tasks, TodoApp.init.
    cbn [TodoApp.data_file]. now destruct readable.
  - intros c ->. reflexivity.
Qed.

Lemma load_tasks_all_or_nothing_witness :
  nth_error [PDict [("title", PStr "Pay rent")]; PStr "a stray string"] 1
  = Some (PStr "a stray string")
  /\ TodoApp.load_tasks true (fun _ => Spec.noon)
       (TodoApp.init
          (Some (TodoApp.Document
                   (PList [PDict [("title", PStr "Pay rent")];
                           PStr "a stray string"]))))
     = (TodoApp.mkapp []
          (Some (TodoApp.Document
                   (PList [PDict [("title", PStr "Pay rent")];
                           PStr "a stray string"]))),
        [TodoApp.Critical]).
Proof.
  split; [reflexivity|].
  apply (proj1 (proj2 (load_tasks_all_or_nothing true (fun _ => Spec.noon)))
           _ 1%nat (PStr "a stray string") AttributeError); reflexivity.
Defined.

(** ** When [should_notify] raises *)

Lemma days_before_year_succ (y : Z) :
  Datetime.days_before_year (y + 1)
  = Datetime.days_before_year y + 365 + (if Datetime.is_leap y then 1 else 0).
Proof.
  unfold Datetime.days_before_year, Datetime.is_leap.
  replace (y + 1 - 1) with y by lia.
  destruct (y mod 4 =? 0)%Z eqn:E4; destruct (y mod 100 =? 0)%Z eqn:E100;
    destruct (y mod 400 =? 0)%Z eqn:E400; cbn [andb orb negb];
    rewrite ?Z.eqb_eq, ?Z.eqb_neq in *;
    Z.to_euclidean_division_equations; lia.
Qed.

Lemma days_before_year_mono (a b : Z) :
  a <= b -> Datetime.days_before_year a <= Datetime.days_before_year b.
Proof.
  unfold Datetime.days_before_year. intro H.
  Z.to_euclidean_division_equations. lia.
Qed.

Lemma day_of_year_le (d : Datetime.date) :
  Datetime.valid_date d = true ->
  1 <= Datetime.days_before_month (Datetime.year d) (Datetime.month d)
       + Datetime.day d
    <= 365 + (if Datetime.is_leap (Datetime.year d) then 1 else 0).
Proof.
  unfold Datetime.valid_date, Datetime.days_before_month,
    Datetime.days_in_month, Datetime.DAYS_BEFORE_MONTH, Datetime.DAYS_IN_MONTH.
  destruct d as [y m dd]. cbn [Datetime.year Datetime.month Datetime.day].
  intro H. repeat (apply andb_prop in H as [H ?]).
  assert (m = 1 \/ m = 2 \/ m = 3 \/ m = 4 \/ m = 5 \/ m = 6 \/ m = 7
          \/ m = 8 \/ m = 9 \/ m = 10 \/ m = 11 \/ m = 12) as Hm by lia.
  destruct (Datetime.is_leap y);
    repeat (destruct Hm as [-> | Hm]); try subst m;
    cbv [nth Z.to_nat Pos.to_nat Pos.iter_op Nat.add Z.eqb Pos.eqb Z.ltb
         Z.compare Pos.compare Pos.compare_cont andb] in *;
    lia.
Qed.

(** The ordinal of a date is between 1 and [MAXORDINAL]. *)
Lemma ymd2ord_bounds (d : Datetime.date) :
  Datetime.valid_date d = true ->
  1 <= Datetime.ymd2ord d <= Datetime.MAXORDINAL.
Proof.
  intro Hv. pose proof (day_of_year_le d Hv) as Hd.
  unfold Datetime.ymd2ord, Datetime.MAXORDINAL.
  pose proof (days_before_year_succ (Datetime.year d)) as Hs.
  unfold Datetime.valid_date, Datetime.MINYEAR, Datetime.MAXYEAR in Hv.
  repeat (apply andb_prop in Hv as [Hv ?]).
  pose proof (days_before_year_mono 1 (Datetime.year d)) as Hlo.
  pose proof (days_before_year_mono (Datetime.year d + 1) 10000) as Hhi.
  change (Datetime.days_before_year 1) with 0 in Hlo.
  change (Datetime.days_before_year 10000) with 3652059 in Hhi.
  destruct (Datetime.is_leap (Datetime.year d)); lia.
Qed.

(** X5. [should_notify] raises nothing and returns a boolean, at every
    clock reading, for a task whose lead time is an integer between 0 and
    a week of minutes (10080) and whose deadline is 8 January of year 1 or
    later. *)
Theorem should_notify_in_range (now : Datetime.datetime) (task : Task.t)
    (n : Z) (d : Datetime.date) :
  Spec.valid_task task = true ->
  Task.deadline task = Some d ->
  8 <= Datetime.ymd2ord d ->
  Task.notify_before_minutes task = PInt n ->
  0 <= n <= 10080 ->
  exists b, Task.should_notify now task = Ok b.
Proof.
  intros Hv Hd Ho Hn Hr.
  apply (should_notify_returns now task n d Hn Hr Hd); auto.
  split; [exact Ho|].
  apply ymd2ord_bounds. unfold Spec.valid_task in Hv. rewrite Hd in Hv.
  now apply andb_prop in Hv as [Hv _].
Qed.

Lemma should_notify_in_range_witness :
  Spec.valid_task Spec.task_fraction = true
  /\ 8 <= Datetime.ymd2ord (Datetime.mkdate 2030 1 1)
  /\ exists b, Task.should_notify Spec.noon Spec.task_fraction = Ok b.
Proof.
  split; [reflexivity|]. split; [vm_compute; discriminate|].
  apply (should_notify_in_range Spec.noon Spec.task_fraction 30
           (Datetime.mkdate 2030 1 1)); try reflexivity.
  - vm_compute; discriminate.
  - lia.
Defined.

Lemma armed_guard (task : Task.t) :
  negb (truthy (Task.notify_enabled task)) || truthy (Task.completed task)
  || truthy (Task.notified task)
  = negb (Spec.armed task).
Proof.
  unfold Spec.armed.
  now destruct (truthy (Task.notify_enabled task)),
    (truthy (Task.completed task)), (truthy (Task.notified task)).
Qed.

(** X6. [should_notify] raises only for a task that has notifications
    on, is neither completed nor notified, and has a deadline.  For such a
    task it raises [TypeError] when the lead time is not a number, and
    [OverflowError] when it is an integer that reaches back from the
    deadline to before the first day of year 1. *)
Theorem should_notify_raises (now : Datetime.datetime) (task : Task.t) :
  (forall e,
      Task.should_notify now task = Raise e ->
      Spec.armed task = true
      /\ exists dt, Task.get_deadline_datetime task = Some dt)
  /\ (forall dt,
        Spec.armed task = true ->
        Task.get_deadline_datetime task = Some dt ->
        Spec.is_number (Task.notify_before_minutes task) = false ->
        Task.should_notify now task = Raise TypeError)
  /\ (forall dt n,
        Spec.armed task = true ->
        Task.get_deadline_datetime task = Some dt ->
        Task.notify_before_minutes task = PInt n ->
        Datetime.ymd2ord (Datetime.d_date dt) * Datetime.US_PER_DAY
        + Datetime.time_us (Datetime.d_time dt) - n * Datetime.US_PER_MINUTE
        < Datetime.US_PER_DAY ->
        Task.should_notify now task = Raise OverflowError).
Proof.
  unfold Task.should_notify. rewrite armed_guard. repeat split.
  - destruct (Spec.armed task); [reflexivity|discriminate].
  - destruct (Spec.armed task); [|discriminate]. cbn [negb] in H.
    destruct (Task.get_deadline_datetime task); [eauto|discriminate].
  - intros dt -> -> Hn. cbn [negb].
    now destruct (Task.notify_before_minutes task).
  - intros dt n -> -> -> Hlt. cbn [negb].
    unfold Datetime.timedelta_minutes, Datetime.timedelta_of_minutes.
    destruct (Z.abs (n * Datetime.US_PER_MINUTE / Datetime.US_PER_DAY)
              <=? 999999999)%Z; [|reflexivity].
    cbn [bind]. unfold Datetime.sub.
    set (total := Datetime.ymd2ord (Datetime.d_date dt) * Datetime.US_PER_DAY
                  + Datetime.time_us (Datetime.d_time dt)
                  - n * Datetime.US_PER_MINUTE) in *.
    assert (total / Datetime.US_PER_DAY < 1) as Hd
        by (apply Z.div_lt_upper_bound; unfold Datetime.US_PER_DAY in *; lia).
    replace (0 <? total / Datetime.US_PER_DAY)%Z with false
      by (symmetry; apply Z.ltb_ge; lia).
    reflexivity.
Qed.

Lemma should_notify_raises_witness :
  Spec.armed (Task.init Spec.noon (PStr "Old") (PStr "") (PStr "Low")
                (Some (Datetime.mkdate 1 1 1))
                (Some (Datetime.mktime 0 10 0 0))
                (PBool true) (PInt 30) (PBool false)) = true
  /\ Task.should_notify Spec.noon
       (Task.init Spec.noon (PStr "Old") (PStr "") (PStr "Low")
          (Some (Datetime.mkdate 1 1 1))
          (Some (Datetime.mktime 0 10 0 0))
          (PBool true) (PInt 30) (PBool false))
     = Raise OverflowError.
Proof.
  split; [reflexivity|].
  apply (proj2 (proj2 (should_notify_raises Spec.noon _))
           (Datetime.combine (Datetime.mkdate 1 1 1)
                             (Datetime.mktime 0 10 0 0))
           30); reflexivity.
Defined.

(** ** The timer handler, further *)

Lemma notify_loop_stops clk ios (rest : list Task.t) :
  forall i visited file p task e,
    nth_error rest p = Some task ->
    Task.should_notify (clk (i + p)%nat) task = Raise e ->
    (forall q t', (q < p)%nat -> nth_error rest q = Some t' ->
                  exists b, Task.should_notify (clk (i + q)%nat) t' = Ok b) ->
    TodoApp.raised (TodoApp.notify_loop clk ios i visited rest file) = Some e
    /\ forall q, (p <= q)%nat ->
                 nth_error (Spec.swept clk i rest) q = nth_error rest q.
Proof.
  induction rest as [|x rest IH]; intros i visited file [|p] task e Hp He Hq;
    cbn [nth_error] in Hp; try discriminate.
  - injection Hp as ->. rewrite Nat.add_0_r in He.
    cbn [TodoApp.notify_loop Spec.swept]. rewrite He. split; reflexivity.
  - destruct (Hq O x (Nat.lt_0_succ p) eq_refl) as [b Hb].
    rewrite Nat.add_0_r in Hb. rewrite Nat.add_succ_r in He.
    assert (Hq' : forall q t', (q < p)%nat -> nth_error rest q = Some t' ->
                    exists b, Task.should_notify (clk (S i + q)%nat) t' = Ok b).
    { intros q t' Hlt Hn. specialize (Hq (S q) t').
      rewrite Nat.add_succ_r in Hq. apply Hq; [lia | exact Hn]. }
    cbn [TodoApp.notify_loop Spec.swept]. rewrite Hb.
    destruct b; cbn [TodoApp.raised].
    + destruct (IH (S i) (visited ++ [Task.set_notified (PBool true) x])%list
                  (TodoApp.data_file
                     (fst (TodoApp.save_tasks (ios i)
                             (TodoApp.mkapp
                                (visited
                                 ++ Task.set_notified (PBool true) x :: rest)
                                file))))
                  p task e Hp He Hq') as [Hr Hs].
      split; [exact Hr|]. intros [|q] Hle; [lia|]. cbn [nth_error].
      apply Hs. lia.
    + destruct (IH (S i) (visited ++ [x])%list file p task e Hp He Hq')
        as [Hr Hs].
      split; [exact Hr|]. intros [|q] Hle; [lia|]. cbn [nth_error].
      apply Hs. lia.
Qed.

(** X7. A task for which [should_notify] raises ends the timer handler:
    the exception leaves the handler, and the task and every task after it
    in the list are left as they were, due or not.  The tasks before it
    have been examined. *)
Theorem timer_stops_at_raise (clk_overdue clk : nat -> Datetime.datetime)
    (ios : nat -> TodoApp.io) (self : TodoApp.app) (p : nat)
    (task : Task.t) (e : exn) :
  nth_error (TodoApp.tasks self) p = Some task ->
  Task.should_notify (clk p) task = Raise e ->
  (forall q t', (q < p)%nat -> nth_error (TodoApp.tasks self) q = Some t' ->
                exists b, Task.should_notify (clk q) t' = Ok b) ->
  TodoApp.raised
    (TodoApp.check_overdue_and_notifications clk_overdue clk ios self)
  = Some e
  /\ forall q, (p <= q)%nat ->
       nth_error
         (TodoApp.tasks
            (TodoApp.after
               (TodoApp.check_overdue_and_notifications clk_overdue clk ios
                  self))) q
       = nth_error (TodoApp.tasks self) q.
Proof.
  intros Hp He Hq. cbn [TodoApp.check_overdue_and_notifications
                        TodoApp.raised TodoApp.after].
  rewrite notify_loop_tasks. cbn [app].
  apply (notify_loop_stops clk ios (TodoApp.tasks self) 0 [] _ p task e);
    auto.
Qed.

Lemma timer_stops_at_raise_witness :
  nth_error (TodoApp.tasks Spec.app_text_minutes) 1
  = Some Spec.task_text_minutes
  /\ Task.should_notify Spec.quarter_before Spec.task_text_minutes
     = Raise TypeError
  /\ Task.should_notify Spec.quarter_before Spec.task_fraction = Ok true
  /\ nth_error
       (TodoApp.tasks
          (TodoApp.after
             (TodoApp.check_overdue_and_notifications
                (fun _ => Spec.quarter_before) (fun _ => Spec.quarter_before)
                (fun _ => TodoApp.IoOk) Spec.app_text_minutes))) 2
     = Some Spec.task_fraction.
Proof.
  repeat (split; [reflexivity|]).
  refine (proj2 (timer_stops_at_raise (fun _ => Spec.quarter_before)
                   (fun _ => Spec.quarter_before) (fun _ => TodoApp.IoOk)
                   Spec.app_text_minutes 1 Spec.task_text_minutes TypeError
                   eq_refl eq_refl _) 2%nat _).
  - intros [|q] t' Hlt Hn; [|lia]. injection Hn as <-. now exists false.
  - lia.
Defined.

Lemma ltb_compare (a b : Datetime.datetime) :
  Datetime.ltb a b = true <-> Datetime.compare a b = Lt.
Proof.
  unfold Datetime.ltb. destruct (Datetime.compare a b); split; congruence.
Qed.

Lemma leb_compare (a b : Datetime.datetime) :
  Datetime.leb a b = true <-> Datetime.compare a b <> Gt.
Proof.
  unfold Datetime.leb. destruct (Datetime.compare a b); split; congruence.
Qed.

(** X8. What is due stays due as the clock advances: if a task is overdue
    at one reading it is overdue at every later one, and if
    [should_notify] returns true at one reading it returns true at every
    later one (until the task is changed). *)
Theorem due_stays_due (now now' : Datetime.datetime) (task : Task.t) :
  Datetime.leb now now' = true ->
  (Task.is_overdue now task = true -> Task.is_overdue now' task = true)
  /\ (Task.should_notify now task = Ok true ->
      Task.should_notify now' task = Ok true).
Proof.
  intro Hle. apply leb_compare in Hle. split.
  - unfold Task.is_overdue.
    destruct (Task.get_deadline_datetime task) as [dt|]; [|discriminate].
    destruct (negb (truthy (Task.completed task))); [|discriminate].
    rewrite !ltb_compare. intro H.
    exact (cmp_lt_le_trans _ datetime_total_order _ _ _ H Hle).
  - unfold Task.should_notify.
    destruct (negb (truthy (Task.notify_enabled task))
              || truthy (Task.completed task)
              || truthy (Task.notified task)); [discriminate|].
    destruct (Task.get_deadline_datetime task) as [dt|]; [|discriminate].
    destruct (Datetime.timedelta_minutes (Task.notify_before_minutes task))
      as [td|]; [|discriminate].
    cbn [bind]. destruct (Datetime.sub dt td) as [nt|]; [|discriminate].
    cbn [bind]. intro H. injection H as H. f_equal.
    apply leb_compare. apply leb_compare in H.
    exact (cmp_le_trans _ datetime_total_order _ _ _ H Hle).
Qed.

Lemma due_stays_due_witness :
  Datetime.leb Spec.quarter_before Datetime.datetime_max = true
  /\ Task.should_notify Datetime.datetime_max Spec.task_fraction = Ok true.
Proof.
  split; [reflexivity|].
  apply (proj2 (due_stays_due Spec.quarter_before Datetime.datetime_max
                  Spec.task_fraction eq_refl)).
  reflexivity.
Defined.

Lemma swept_length clk (ts : list Task.t) :
  forall i, List.length (Spec.swept clk i ts) = List.length ts.
Proof.
  induction ts as [|task ts IH]; intro i; cbn [Spec.swept]; [reflexivity|].
  destruct (Task.should_notify (clk i) task); cbn [List.length]; auto.
Qed.

Lemma swept_nth clk (ts : list Task.t) :
  forall i p task,
    nth_error ts p = Some task ->
    nth_error (Spec.swept clk i ts) p = Some task
    \/ (nth_error (Spec.swept clk i ts) p
        = Some (Task.set_notified (PBool true) task)
        /\ Task.should_notify (clk (i + p)%nat) task = Ok true).
Proof.
  induction ts as [|x ts IH]; intros i [|p] task H; cbn [nth_error] in H;
    try discriminate; cbn [Spec.swept].
  - injection H as ->. rewrite Nat.add_0_r. unfold Spec.mark, Spec.fired.
    destruct (Task.should_notify (clk i) task) as [[|]|]; cbn [nth_error];
      auto.
  - rewrite Nat.add_succ_r.
    destruct (Task.should_notify (clk i) x); cbn [nth_error]; auto.
Qed.

(** X9. The timer handler changes nothing in the list but [notified]
    flags: the list keeps its length, and every task is afterwards either
    as it was or as it was with [notified] set to true, the latter only if
    [should_notify] returned true for it.  This holds whether or not an
    exception ends the handler, and the list it leaves does not depend on
    whether the saves succeed. *)
Theorem timer_changes_only_notified
    (clk_overdue clk : nat -> Datetime.datetime) (ios : nat -> TodoApp.io)
    (self : TodoApp.app) :
  List.length
    (TodoApp.tasks
       (TodoApp.after
          (TodoApp.check_overdue_and_notifications clk_overdue clk ios self)))
  = List.length (TodoApp.tasks self)
  /\ (forall p task,
        nth_error (TodoApp.tasks self) p = Some task ->
        nth_error
          (TodoApp.tasks
             (TodoApp.after
                (TodoApp.check_overdue_and_notifications clk_overdue clk ios
                   self))) p
        = Some task
        \/ (nth_error
              (TodoApp.tasks
                 (TodoApp.after
                    (TodoApp.check_overdue_and_notifications clk_overdue clk
                       ios self))) p
            = Some (Task.set_notified (PBool true) task)
            /\ Task.should_notify (clk p) task = Ok true))
  /\ (forall ios',
        TodoApp.tasks
          (TodoApp.after
             (TodoApp.check_overdue_and_notifications clk_overdue clk ios'
                self))
        = TodoApp.tasks
            (TodoApp.after
               (TodoApp.check_overdue_and_notifications clk_overdue clk ios
                  self))).
Proof.
  cbn [TodoApp.check_overdue_and_notifications TodoApp.after].
  rewrite notify_loop_tasks. cbn [app]. split; [|split].
  - apply swept_length.
  - intros p task H. apply (swept_nth clk _ 0%nat p task H).
  - intro ios'. now rewrite notify_loop_tasks.
Qed.

Lemma mkapp_eta (self : TodoApp.app) :
  TodoApp.mkapp (TodoApp.tasks self) (TodoApp.data_file self) = self.
Proof. now destruct self. Qed.

Lemma notify_loop_file clk ios (rest : list Task.t) :
  (forall p, ios p = TodoApp.IoOk) ->
  forall i visited file,
    TodoApp.after (TodoApp.notify_loop clk ios i visited rest file)
    = TodoApp.mkapp (visited ++ rest)%list file
    \/ Spec.mirrors
         (TodoApp.after (TodoApp.notify_loop clk ios i visited rest file)).
Proof.
  intro Hio. induction rest as [|task rest IH]; intros i visited file;
    cbn [TodoApp.notify_loop].
  - left. cbn [TodoApp.after]. now rewrite app_nil_r.
  - destruct (Task.should_notify (clk i) task) as [[|]|e];
      cbn [TodoApp.after].
    + rewrite (Hio i).
      cbn [TodoApp.save_tasks fst TodoApp.data_file TodoApp.tasks].
      destruct (IH (S i) (visited ++ [Task.set_notified (PBool true) task])%list
                  (Some (TodoApp.Document
                           (TodoApp.document
                              (visited
                               ++ Task.set_notified (PBool true) task :: rest)))))
        as [H|H]; [|now right].
      right. rewrite H. unfold Spec.mirrors.
      cbn [TodoApp.data_file TodoApp.tasks]. now rewrite <- app_assoc.
    + destruct (IH (S i) (visited ++ [task])%list file) as [H|H];
        [|now right].
      left. rewrite H. now rewrite <- app_assoc.
    + now left.
Qed.

(** X10. When every save of a timer run succeeds, the run ends in one of
    two ways: no task was flagged and the program is as it was, file
    included; or the file holds the document of the list as the run leaves
    it. *)
Theorem timer_file_in_step (clk_overdue clk : nat -> Datetime.datetime)
    (ios : nat -> TodoApp.io) (self : TodoApp.app) :
  (forall p, ios p = TodoApp.IoOk) ->
  TodoApp.after
    (TodoApp.check_overdue_and_notifications clk_overdue clk ios self)
  = self
  \/ Spec.mirrors
       (TodoApp.after
          (TodoApp.check_overdue_and_notifications clk_overdue clk ios self)).
Proof.
  intro Hio. cbn [TodoApp.check_overdue_and_notifications TodoApp.after].
  destruct (notify_loop_file clk ios (TodoApp.tasks self) Hio 0%nat []
              (TodoApp.data_file self)) as [H|H]; [left|now right].
  rewrite H. cbn [app]. apply mkapp_eta.
Qed.

Lemma timer_file_in_step_witness :
  (forall p : nat, (fun _ : nat => TodoApp.IoOk) p = TodoApp.IoOk)
  /\ Spec.mirrors
       (TodoApp.after
          (TodoApp.check_overdue_and_notifications
             (fun _ => Spec.quarter_before) (fun _ => Spec.quarter_before)
             (fun _ => TodoApp.IoOk)
             (TodoApp.mkapp [Spec.task_B; Spec.task_fraction] None))).
Proof.
  split; [reflexivity|].
  destruct (timer_file_in_step (fun _ => Spec.quarter_before)
              (fun _ => Spec.quarter_before) (fun _ => TodoApp.IoOk)
              (TodoApp.mkapp [Spec.task_B; Spec.task_fraction] None)
              (fun _ => eq_refl)) as [H|H]; [discriminate H | exact H].
Defined.

(** ** The file and the list in memory *)

Lemma step_in_step (c : TodoApp.op) (self : TodoApp.app) :
  Spec.writes_ok c ->
  TodoApp.step c self = self \/ Spec.mirrors (TodoApp.step c self).
Proof.
  destruct c as [f now now' o|i f now o|i o|i o|co clk ios];
    cbn [Spec.writes_ok TodoApp.step].
  - intros ->. unfold TodoApp.add_task.
    destruct (TaskDialog.get_task_data now f); [now right | now left].
  - intros ->. unfold TodoApp.edit_task.
    destruct (nth_error (TodoApp.tasks self) i); [|now left].
    destruct (TaskDialog.get_task_data now f); [now right | now left].
  - intros ->. unfold TodoApp.delete_task.
    destruct (nth_error (TodoApp.tasks self) i); [now right | now left].
  - intros ->. unfold TodoApp.toggle_task_completion.
    destruct (nth_error (TodoApp.tasks self) i); [now right | now left].
  - apply timer_file_in_step.
Qed.

(** X11. As long as every write succeeds, the file follows the list: after
    any run of additions, edits, deletions, toggles and timer runs, either
    nothing at all has changed since the start of the run, or the file
    holds the document of the list now in memory. *)
Theorem file_follows_list (cs : list TodoApp.op) (self : TodoApp.app) :
  Forall Spec.writes_ok cs ->
  TodoApp.run cs self = self \/ Spec.mirrors (TodoApp.run cs self).
Proof.
  intro H. revert self. induction H as [|c cs Hc _ IH]; intro self.
  - now left.
  - cbn [TodoApp.run fold_left].
    change (fold_left (fun st c0 => TodoApp.step c0 st) cs
              (TodoApp.step c self))
      with (TodoApp.run cs (TodoApp.step c self)).
    destruct (step_in_step c self Hc) as [Hs|Hs].
    + rewrite Hs. apply IH.
    + destruct (IH (TodoApp.step c self)) as [Hr|Hr]; [|now right].
      right. now rewrite Hr.
Qed.

Lemma file_follows_list_witness :
  Forall Spec.writes_ok
    [TodoApp.ToggleTaskCompletion 0 TodoApp.IoOk;
     TodoApp.EditTask 0 Spec.form_example Spec.noon TodoApp.IoOk;
     TodoApp.DeleteTask 1 TodoApp.IoOk]
  /\ Spec.mirrors
       (TodoApp.run
          [TodoApp.ToggleTaskCompletion 0 TodoApp.IoOk;
           TodoApp.EditTask 0 Spec.form_example Spec.noon TodoApp.IoOk;
           TodoApp.DeleteTask 1 TodoApp.IoOk]
          Spec.app_two).
Proof.
  assert (H : Forall Spec.writes_ok
                [TodoApp.ToggleTaskCompletion 0 TodoApp.IoOk;
                 TodoApp.EditTask 0 Spec.form_example Spec.noon TodoApp.IoOk;
                 TodoApp.DeleteTask 1 TodoApp.IoOk])
    by (repeat constructor).
  split; [exact H|].
  destruct (file_follows_list _ Spec.app_two H) as [E|E];
    [discriminate E | exact E].
Defined.

(** ** Adding, editing and deleting *)

Lemma leb_false_ltb (a b : Datetime.datetime) :
  Datetime.leb a b = false <-> Datetime.ltb b a = true.
Proof.
  unfold Datetime.leb, Datetime.ltb.
  rewrite (Spec.cmp_antisym _ datetime_total_order a b).
  destruct (Datetime.compare a b); cbn; split; congruence.
Qed.

Lemma ltb_asym (a b : Datetime.datetime) :
  Datetime.ltb a b = true -> Datetime.ltb b a = false.
Proof.
  unfold Datetime.ltb.
  rewrite (Spec.cmp_antisym _ datetime_total_order a b).
  destruct (Datetime.compare a b); cbn; congruence.
Qed.

(** What [get_task_data] returns on a form it accepts. *)
Lemma get_task_data_accepts now (f : TaskDialog.form) :
  strip (TaskDialog.title_edit f) <> "" ->
  Datetime.ltb now (Datetime.combine (TaskDialog.deadline_edit f)
                                     (TaskDialog.deadline_time_edit f)) = true ->
  TaskDialog.get_task_data now f
  = Some (TaskDialog.mkdata
            (strip (TaskDialog.title_edit f))
            (strip (TaskDialog.description_edit f))
            (TaskDialog.priority_combo f)
            (TaskDialog.deadline_edit f) (TaskDialog.deadline_time_edit f)
            (TaskDialog.notify_checkbox f)
            (TaskDialog.timing_get TaskDialog.timing_map
               (TaskDialog.notify_before_spinbox f) 30)).
Proof.
  intros Ht Hd. unfold TaskDialog.get_task_data.
  apply String.eqb_neq in Ht. rewrite Ht.
  apply leb_false_ltb in Hd. now rewrite Hd.
Qed.

(** X12. A form with a title that is not blank and a deadline after the
    clock reading adds one task at the end of the list and leaves the
    tasks before it as they were.  The new task has the stripped title and
    description, the deadline of the form, is neither completed nor
    notified, carries the creation time stamp, and is not overdue at the
    reading the form was checked at.  The list so extended is saved. *)
Theorem add_task_appends (f : TaskDialog.form)
    (now now' : Datetime.datetime) (o : TodoApp.io) (self : TodoApp.app) :
  strip (TaskDialog.title_edit f) <> "" ->
  Datetime.ltb now (Datetime.combine (TaskDialog.deadline_edit f)
                                     (TaskDialog.deadline_time_edit f)) = true ->
  exists task,
    TodoApp.tasks (fst (TodoApp.add_task f now now' o self))
    = (TodoApp.tasks self ++ [task])%list
    /\ TodoApp.add_task f now now' o self
       = TodoApp.save_tasks o
           (TodoApp.mkapp (TodoApp.tasks self ++ [task])%list
                          (TodoApp.data_file self))
    /\ Task.title task = PStr (strip (TaskDialog.title_edit f))
    /\ Task.description task = PStr (strip (TaskDialog.description_edit f))
    /\ Task.priority task = PStr (TaskDialog.priority_combo f)
    /\ Task.get_deadline_datetime task
       = Some (Datetime.combine (TaskDialog.deadline_edit f)
                                (TaskDialog.deadline_time_edit f))
    /\ Task.notify_enabled task = PBool (TaskDialog.notify_checkbox f)
    /\ Task.completed task = PBool false
    /\ Task.notified task = PBool false
    /\ Task.created_at task = PStr (Datetime.isoformat now')
    /\ Task.is_overdue now task = false.
Proof.
  intros Ht Hd. unfold TodoApp.add_task.
  rewrite (get_task_data_accepts now f Ht Hd).
  cbn [TaskDialog.title TaskDialog.description TaskDialog.priority
       TaskDialog.deadline TaskDialog.deadline_time TaskDialog.notify_enabled
       TaskDialog.notify_before_minutes].
  exists (Task.init now' (PStr (strip (TaskDialog.title_edit f)))
            (PStr (strip (TaskDialog.description_edit f)))
            (PStr (TaskDialog.priority_combo f))
            (Some (TaskDialog.deadline_edit f))
            (Some (TaskDialog.deadline_time_edit f))
            (PBool (TaskDialog.notify_checkbox f))
            (PInt (TaskDialog.timing_get TaskDialog.timing_map
                     (TaskDialog.notify_before_spinbox f) 30))
            (PBool false)).
  split; [now rewrite save_tasks_tasks|].
  repeat (split; [reflexivity|]).
  unfold Task.is_overdue.
  cbn [Task.get_deadline_datetime Task.init Task.deadline Task.deadline_time
       Task.completed truthy negb].
  now apply ltb_asym.
Qed.

Lemma add_task_appends_witness :
  strip (TaskDialog.title_edit Spec.form_example) <> ""
  /\ exists task,
       TodoApp.tasks
         (fst (TodoApp.add_task Spec.form_example Spec.noon Spec.noon
                 TodoApp.IoOk Spec.app_one))
       = (TodoApp.tasks Spec.app_one ++ [task])%list
       /\ Task.title task = PStr "Call the bank".
Proof.
  assert (H : strip (TaskDialog.title_edit Spec.form_example) <> "")
    by discriminate.
  split; [exact H|].
  destruct (add_task_appends Spec.form_example Spec.noon Spec.noon
              TodoApp.IoOk Spec.app_one H eq_refl)
    as (task & Htasks & _ & Htitle & _).
  exists task. split; [exact Htasks | exact Htitle].
Defined.

(** X13. The form is refused exactly when its title is blank (empty once
    stripped) or its deadline is not after the clock reading.  A refused
    form changes nothing: adding and editing then leave the list and the
    file as they were and write nothing. *)
Theorem refused_form_changes_nothing (f : TaskDialog.form)
    (now : Datetime.datetime) :
  (TaskDialog.get_task_data now f = None <->
   strip (TaskDialog.title_edit f) = ""
   \/ Datetime.leb (Datetime.combine (TaskDialog.deadline_edit f)
                                     (TaskDialog.deadline_time_edit f)) now
      = true)
  /\ (TaskDialog.get_task_data now f = None ->
      forall now' o self i,
        TodoApp.add_task f now now' o self = (self, [])
        /\ TodoApp.edit_task i f now o self = (self, [])).
Proof.
  split.
  - unfold TaskDialog.get_task_data.
    destruct (String.eqb (strip (TaskDialog.title_edit f)) "") eqn:Et.
    + apply String.eqb_eq in Et. split; auto.
    + apply String.eqb_neq in Et.
      destruct (Datetime.leb _ now) eqn:El; split; auto;
        try discriminate.
      intros [H|H]; [contradiction | discriminate].
  - intros H now' o self i. unfold TodoApp.add_task, TodoApp.edit_task.
    rewrite H. split; [reflexivity|].
    now destruct (nth_error (TodoApp.tasks self) i).
Qed.

Lemma refused_form_changes_nothing_witness :
  TaskDialog.get_task_data Datetime.datetime_max Spec.form_example = None
  /\ TodoApp.add_task Spec.form_example Datetime.datetime_max Spec.noon
       TodoApp.IoOk Spec.app_one
     = (Spec.app_one, []).
Proof.
  split; [reflexivity|].
  apply (proj2 (refused_form_changes_nothing Spec.form_example
                  Datetime.datetime_max) eq_refl Spec.noon TodoApp.IoOk
           Spec.app_one O).
Defined.

(** X14. An accepted edit replaces, in the current task, the title, the
    description, the priority, the deadline date and time, the
    notification switch and the lead time by those of the form, and keeps
    [completed], [created_at] and [notified] as they were; every other
    task and the length of the list are unchanged, and the list is
    saved. *)
Theorem edit_task_frame (i : nat) (f : TaskDialog.form)
    (now : Datetime.datetime) (o : TodoApp.io) (self : TodoApp.app)
    (task : Task.t) (data : TaskDialog.task_data) :
  nth_error (TodoApp.tasks self) i = Some task ->
  TaskDialog.get_task_data now f = Some data ->
  (exists task',
      nth_error (TodoApp.tasks (fst (TodoApp.edit_task i f now o self))) i
      = Some task'
      /\ Task.title task' = PStr (TaskDialog.title data)
      /\ Task.description task' = PStr (TaskDialog.description data)
      /\ Task.priority task' = PStr (TaskDialog.priority data)
      /\ Task.deadline task' = Some (TaskDialog.deadline data)
      /\ Task.deadline_time task' = Some (TaskDialog.deadline_time data)
      /\ Task.notify_enabled task' = PBool (TaskDialog.notify_enabled data)
      /\ Task.notify_before_minutes task'
         = PInt (TaskDialog.notify_before_minutes data)
      /\ Task.completed task' = Task.completed task
      /\ Task.created_at task' = Task.created_at task
      /\ Task.notified task' = Task.notified task)
  /\ (forall j, j <> i ->
        nth_error (TodoApp.tasks (fst (TodoApp.edit_task i f now o self))) j
        = nth_error (TodoApp.tasks self) j)
  /\ List.length (TodoApp.tasks (fst (TodoApp.edit_task i f now o self)))
     = List.length (TodoApp.tasks self)
  /\ TodoApp.edit_task i f now o self
     = TodoApp.save_tasks o
         (TodoApp.mkapp
            (TodoApp.update i (TodoApp.apply_edit data) (TodoApp.tasks self))
            (TodoApp.data_file self)).
Proof.
  intros Hi Hd. unfold TodoApp.edit_task. rewrite Hi, Hd.
  rewrite save_tasks_tasks. cbn [TodoApp.tasks]. split; [|split; [|split]].
  - exists (TodoApp.apply_edit data task).
    rewrite nth_error_update, Hi, Nat.eqb_refl. cbn. repeat split.
  - intros j Hj. rewrite nth_error_update.
    apply Nat.eqb_neq in Hj. now rewrite Hj.
  - apply length_update.
  - reflexivity.
Qed.

Lemma edit_task_frame_witness :
  nth_error (TodoApp.tasks Spec.app_two) 0 = Some Spec.notified_task
  /\ exists task',
       nth_error
         (TodoApp.tasks
            (fst (TodoApp.edit_task 0 Spec.form_example Spec.noon
                    TodoApp.IoOk Spec.app_two))) 0
       = Some task'
       /\ Task.deadline task' = Some (Datetime.mkdate 2031 2 3)
       /\ Task.notified task' = PBool true.
Proof.
  split; [reflexivity|].
  destruct (edit_task_frame 0 Spec.form_example Spec.noon TodoApp.IoOk
              Spec.app_two Spec.notified_task _ eq_refl eq_refl)
    as ((task' & Hn & _ & _ & _ & Hd & _ & _ & _ & _ & _ & Hf) & _).
  exists task'. split; [exact Hn|]. split; [exact Hd | exact Hf].
Defined.

Lemma remove_at_firstn_skipn (l : list Task.t) :
  forall i, TodoApp.remove_at i l = (firstn i l ++ skipn (S i) l)%list.
Proof.
  induction l as [|x l IH]; intros [|i]; cbn [TodoApp.remove_at firstn skipn app];
    try reflexivity.
  f_equal. apply IH.
Qed.

Lemma length_remove_at (l : list Task.t) :
  forall i x, nth_error l i = Some x ->
              S (List.length (TodoApp.remove_at i l)) = List.length l.
Proof.
  induction l as [|y l IH]; intros [|i] x H; cbn [nth_error] in H;
    try discriminate; cbn [TodoApp.remove_at List.length]; [reflexivity|].
  f_equal. eapply IH, H.
Qed.

(** X15. A confirmed deletion takes the current task out of the list and
    nothing else: the tasks before it keep their places, those after it
    move up by one in the same order, the list is one shorter, and it is
    saved.  With no current task nothing is changed and nothing is
    written. *)
Theorem delete_task_frame (i : nat) (o : TodoApp.io) (self : TodoApp.app) :
  (forall task,
      nth_error (TodoApp.tasks self) i = Some task ->
      TodoApp.tasks (fst (TodoApp.delete_task i o self))
      = (firstn i (TodoApp.tasks self) ++ skipn (S i) (TodoApp.tasks self))%list
      /\ S (List.length (TodoApp.tasks (fst (TodoApp.delete_task i o self))))
         = List.length (TodoApp.tasks self)
      /\ (forall j, (j < i)%nat ->
            nth_error (TodoApp.tasks (fst (TodoApp.delete_task i o self))) j
            = nth_error (TodoApp.tasks self) j)
      /\ (forall j, (i <= j)%nat ->
            nth_error (TodoApp.tasks (fst (TodoApp.delete_task i o self))) j
            = nth_error (TodoApp.tasks self) (S j))
      /\ TodoApp.delete_task i o self
         = TodoApp.save_tasks o
             (TodoApp.mkapp (TodoApp.remove_at i (TodoApp.tasks self))
                            (TodoApp.data_file self)))
  /\ (nth_error (TodoApp.tasks self) i = None ->
      TodoApp.delete_task i o self = (self, [])).
Proof.
  unfold TodoApp.delete_task. split.
  - intros task Hi. rewrite Hi, save_tasks_tasks. cbn [TodoApp.tasks].
    split; [apply remove_at_firstn_skipn|].
    split; [eapply length_remove_at, Hi|].
    split; [|split; [|reflexivity]].
    + intros j Hj. rewrite nth_error_remove_at.
      apply Nat.ltb_lt in Hj. now rewrite Hj.
    + intros j Hj. rewrite nth_error_remove_at.
      apply Nat.ltb_ge in Hj. now rewrite Hj.
  - now intros ->.
Qed.

Lemma delete_task_frame_witness :
  nth_error (TodoApp.tasks Spec.app_two) 0 = Some Spec.notified_task
  /\ TodoApp.tasks (fst (TodoApp.delete_task 0 TodoApp.IoOk Spec.app_two))
     = [Spec.task_B].
Proof.
  split; [reflexivity|].
  rewrite (proj1 (proj1 (delete_task_frame 0 TodoApp.IoOk Spec.app_two)
                    Spec.notified_task eq_refl)).
  reflexivity.
Defined.

(** ** What no operation changes *)

Lemma step_created_at (c : TodoApp.op) (self : TodoApp.app) (i : nat)
    (task : Task.t) :
  nth_error (TodoApp.tasks self) i = Some task ->
  forall j, TodoApp.track c i = Some j ->
    exists task',
      nth_error (TodoApp.tasks (TodoApp.step c self)) j = Some task'
      /\ Task.created_at task' = Task.created_at task.
Proof.
  intros Hi j Hj.
  destruct c as [f now now' o|i' f now o|i' o|i' o|co clk ios];
    cbn [TodoApp.track TodoApp.step] in *.
  - injection Hj as <-. unfold TodoApp.add_task.
    destruct (TaskDialog.get_task_data now f); cbn [fst]; [|eauto].
    rewrite save_tasks_tasks. cbn [TodoApp.tasks]. exists task.
    split; auto. rewrite nth_error_app1; auto.
    apply nth_error_Some. congruence.
  - injection Hj as <-. unfold TodoApp.edit_task.
    destruct (nth_error (TodoApp.tasks self) i'); [|eauto].
    destruct (TaskDialog.get_task_data now f); cbn [fst]; [|eauto].
    rewrite save_tasks_tasks. cbn [TodoApp.tasks].
    rewrite nth_error_update, Hi.
    destruct (Nat.eqb i i'); cbn [option_map]; eauto.
  - unfold TodoApp.delete_task.
    destruct (nth_error (TodoApp.tasks self) i') eqn:Hi'.
    + rewrite save_tasks_tasks. cbn [TodoApp.tasks].
      rewrite nth_error_remove_at.
      destruct (Nat.eqb i' i) eqn:E1; [discriminate|].
      apply Nat.eqb_neq in E1.
      destruct (Nat.ltb i' i) eqn:E2; injection Hj as <-.
      * apply Nat.ltb_lt in E2.
        destruct (Nat.ltb (Nat.pred i) i') eqn:E3.
        -- apply Nat.ltb_lt in E3. lia.
        -- replace (S (Nat.pred i)) with i by lia. eauto.
      * apply Nat.ltb_ge in E2.
        destruct (Nat.ltb i i') eqn:E3; [eauto|].
        apply Nat.ltb_ge in E3. lia.
    + cbn [fst]. apply nth_error_None in Hi'.
      assert (i < List.length (TodoApp.tasks self))%nat as Hlt
          by (apply nth_error_Some; congruence).
      destruct (Nat.eqb i' i) eqn:E1; [apply Nat.eqb_eq in E1; lia|].
      destruct (Nat.ltb i' i) eqn:E2; [apply Nat.ltb_lt in E2; lia|].
      injection Hj as <-. eauto.
  - injection Hj as <-. unfold TodoApp.toggle_task_completion.
    destruct (nth_error (TodoApp.tasks self) i'); [|eauto].
    rewrite save_tasks_tasks. cbn [TodoApp.tasks].
    rewrite nth_error_update, Hi.
    destruct (Nat.eqb i i'); cbn [option_map]; eauto.
  - injection Hj as <-. cbn [TodoApp.check_overdue_and_notifications
                             TodoApp.after].
    rewrite notify_loop_tasks. cbn [app].
    destruct (swept_nth clk _ 0%nat i task Hi) as [H|[H _]]; eauto.
Qed.

(** X16. [created_at] is written once.  Over any run of additions, edits,
    deletions of other tasks, toggles and timer runs, a task that is still
    in the list has the [created_at] it had at the start. *)
Theorem created_at_never_changes (cs : list TodoApp.op) :
  forall (self : TodoApp.app) (i : nat) (task : Task.t),
    nth_error (TodoApp.tasks self) i = Some task ->
    forall j, TodoApp.follow cs i = Some j ->
      exists task',
        nth_error (TodoApp.tasks (TodoApp.run cs self)) j = Some task'
        /\ Task.created_at task' = Task.created_at task.
Proof.
  induction cs as [|c cs IH]; intros self i task Hi j Hj;
    cbn [TodoApp.follow] in Hj.
  - injection Hj as <-. eauto.
  - destruct (TodoApp.track c i) as [k|] eqn:Hk; [|discriminate].
    destruct (step_created_at c self i task Hi k Hk) as (t1 & H1 & E1).
    destruct (IH (TodoApp.step c self) k t1 H1 j Hj) as (t2 & H2 & E2).
    exists t2. split; [exact H2 | congruence].
Qed.

Lemma created_at_never_changes_witness :
  nth_error (TodoApp.tasks Spec.app_two) 0 = Some Spec.notified_task
  /\ TodoApp.follow Spec.run_example 0 = Some O
  /\ exists task',
       nth_error (TodoApp.tasks (TodoApp.run Spec.run_example Spec.app_two)) 0
       = Some task'
       /\ Task.created_at task' = Task.created_at Spec.notified_task.
Proof.
  repeat (split; [reflexivity|]).
  apply (created_at_never_changes Spec.run_example Spec.app_two O
           Spec.notified_task eq_refl O eq_refl).
Defined.

(** ** Operations that undo each other *)

Lemma update_twice (f g : Task.t -> Task.t) (l : list Task.t) :
  forall i,
    TodoApp.update i f (TodoApp.update i g l)
    = TodoApp.update i (fun x => f (g x)) l.
Proof.
  induction l as [|x l IH]; intros [|i]; cbn [TodoApp.update]; try reflexivity.
  f_equal. apply IH.
Qed.

Lemma update_same (f : Task.t -> Task.t) (l : list Task.t) :
  forall i x, nth_error l i = Some x -> f x = x -> TodoApp.update i f l = l.
Proof.
  induction l as [|y l IH]; intros [|i] x H Hf; cbn [nth_error] in H;
    try discriminate; cbn [TodoApp.update].
  - injection H as ->. now rewrite Hf.
  - f_equal. eapply IH; eassumption.
Qed.

Lemma remove_at_last (l : list Task.t) (x : Task.t) :
  TodoApp.remove_at (List.length l) (l ++ [x]) = l.
Proof.
  induction l as [|y l IH]; cbn [List.length app TodoApp.remove_at];
    [reflexivity|].
  now rewrite IH.
Qed.

(** X17. Toggling the same task twice gives the list back when its
    [completed] was a boolean, and deleting the task just added, which
    stands last, gives back the list there was before the addition. *)
Theorem undo_by_second_operation (self : TodoApp.app) :
  (forall i o o' task b,
      nth_error (TodoApp.tasks self) i = Some task ->
      Task.completed task = PBool b ->
      TodoApp.tasks
        (fst (TodoApp.toggle_task_completion i o'
                (fst (TodoApp.toggle_task_completion i o self))))
      = TodoApp.tasks self)
  /\ (forall f now now' o o' data,
        TaskDialog.get_task_data now f = Some data ->
        TodoApp.tasks
          (fst (TodoApp.delete_task (List.length (TodoApp.tasks self)) o'
                  (fst (TodoApp.add_task f now now' o self))))
        = TodoApp.tasks self).
Proof.
  split.
  - intros i o o' task b Hi Hb.
    assert (Hfst : TodoApp.tasks (fst (TodoApp.toggle_task_completion i o self))
                   = TodoApp.update i TodoApp.toggle (TodoApp.tasks self)).
    { unfold TodoApp.toggle_task_completion. rewrite Hi.
      now rewrite save_tasks_tasks. }
    unfold TodoApp.toggle_task_completion at 1. rewrite Hfst.
    rewrite nth_error_update, Hi, Nat.eqb_refl. cbn [option_map].
    rewrite save_tasks_tasks. cbn [TodoApp.tasks].
    rewrite update_twice. apply (update_same _ _ i task Hi).
    unfold TodoApp.toggle. destruct task; cbn in *. subst.
    cbn. now destruct b.
  - intros f now now' o o' data Hd.
    assert (Hfst : exists x,
               TodoApp.tasks (fst (TodoApp.add_task f now now' o self))
               = (TodoApp.tasks self ++ [x])%list).
    { unfold TodoApp.add_task. rewrite Hd. rewrite save_tasks_tasks.
      cbn [TodoApp.tasks]. eauto. }
    destruct Hfst as [x Hx]. unfold TodoApp.delete_task. rewrite Hx.
    rewrite nth_error_app2, Nat.sub_diag by lia. cbn [nth_error].
    rewrite save_tasks_tasks. cbn [TodoApp.tasks]. apply remove_at_last.
Qed.

Lemma undo_by_second_operation_witness :
  nth_error (TodoApp.tasks Spec.app_one) 0 = Some Spec.task_A
  /\ TodoApp.tasks
       (fst (TodoApp.toggle_task_completion 0 TodoApp.OpenFails
               (fst (TodoApp.toggle_task_completion 0 TodoApp.IoOk
                       Spec.app_one))))
     = TodoApp.tasks Spec.app_one.
Proof.
  split; [reflexivity|].
  apply (proj1 (undo_by_second_operation Spec.app_one) O TodoApp.IoOk
           TodoApp.OpenFails Spec.task_A false eq_refl eq_refl).
Defined.

(** ** The list view, further *)

Lemma filter_ties_map_snd (task : Task.t) (l : list (TodoApp.key * Task.t)) :
  Forall (fun p => fst p = Spec.key_of (snd p)) l ->
  filter (Spec.ties task) (map snd l)
  = map snd (filter (Spec.same_key (Spec.key_of task)) l).
Proof.
  induction 1 as [|[k x] l Hx _ IH]; [reflexivity|].
  cbn [map filter snd]. cbn [fst snd] in Hx. subst k.
  unfold Spec.ties at 1, Spec.same_key at 1. cbn [fst].
  destruct (Spec.key_cmp (Spec.key_of x) (Spec.key_of task));
    cbn [map snd]; now rewrite IH.
Qed.

Lemma keyed_pairs (ts : list Task.t) :
  forall l, TodoApp.keyed ts = Ok l ->
            l = map (fun task => (Spec.key_of task, task)) ts.
Proof.
  intros l H. pose proof (keyed_returns ts l H) as Hs.
  rewrite (keyed_sortable ts Hs) in H. now injection H as <-.
Qed.

Lemma pairs_keyed (ts : list Task.t) :
  Forall (fun p => fst p = Spec.key_of (snd p))
         (map (fun task => (Spec.key_of task, task)) ts).
Proof. apply Forall_map. now apply Forall_forall. Qed.

(** X18. The list view is stable: tasks that agree on weight, deadline and
    lower-cased title are shown in the order they have in the list in
    memory. *)
Theorem update_task_list_stable (k : Spec.filter_kind)
    (clk : nat -> Datetime.datetime) (self : TodoApp.app)
    (shown : list Task.t) :
  TodoApp.update_task_list (Spec.filter_text k) clk self = Ok shown ->
  forall task,
    filter (Spec.ties task) shown
    = filter (Spec.ties task) (Spec.selected k clk 0 (TodoApp.tasks self)).
Proof.
  unfold TodoApp.update_task_list. rewrite filter_tasks_selected.
  set (sel := Spec.selected k clk 0 (TodoApp.tasks self)).
  destruct (TodoApp.keyed sel) as [pairs|] eqn:E; [|discriminate].
  apply keyed_pairs in E. subst pairs. cbn [bind].
  intros H task. injection H as <-.
  rewrite filter_ties_map_snd.
  - rewrite sort_stable. rewrite <- filter_ties_map_snd by apply pairs_keyed.
    now rewrite map_map, map_id.
  - eapply Permutation_Forall; [symmetry; apply sort_perm|].
    apply pairs_keyed.
Qed.

Lemma update_task_list_stable_witness :
  TodoApp.update_task_list "All" (fun _ => Spec.noon)
    (TodoApp.mkapp [Spec.task_A; Spec.task_B; Spec.task_A] None)
  = Ok [Spec.task_A; Spec.task_A; Spec.task_B]
  /\ filter (Spec.ties Spec.task_A) [Spec.task_A; Spec.task_A; Spec.task_B]
     = filter (Spec.ties Spec.task_A)
         (Spec.selected Spec.All (fun _ => Spec.noon) 0
            [Spec.task_A; Spec.task_B; Spec.task_A]).
Proof.
  split; [reflexivity|].
  apply (update_task_list_stable Spec.All (fun _ => Spec.noon)
           (TodoApp.mkapp [Spec.task_A; Spec.task_B; Spec.task_A] None)
           [Spec.task_A; Spec.task_A; Spec.task_B] eq_refl Spec.task_A).
Defined.

Lemma sort_key_raises (task : Task.t) :
  Spec.sortable task = false ->
  TodoApp.sort_key task
  = Raise (if hashable (Task.priority task) then AttributeError
           else TypeError).
Proof.
  unfold Spec.sortable, TodoApp.sort_key, TodoApp.priority_order_get,
    TodoApp.str_lower.
  destruct (Task.priority task), (Task.title task); cbn;
    try discriminate; reflexivity.
Qed.

Lemma keyed_raises (ts : list Task.t) :
  forall e, TodoApp.keyed ts = Raise e ->
            exists task,
              In task ts /\ Spec.sortable task = false
              /\ e = (if hashable (Task.priority task) then AttributeError
                      else TypeError).
Proof.
  induction ts as [|x ts IH]; intros e; cbn [TodoApp.keyed]; [discriminate|].
  destruct (Spec.sortable x) eqn:Es.
  - rewrite (sort_key_sortable x Es). cbn [bind].
    destruct (TodoApp.keyed ts) as [r|e'] eqn:E; cbn [bind]; [discriminate|].
    intro H. injection H as <-.
    destruct (IH e' eq_refl) as (task & Hin & Hs & He).
    exists task. split; [now right | auto].
  - rewrite (sort_key_raises x Es). cbn [bind]. intro H. injection H as <-.
    exists x. split; [now left | auto].
Qed.

(** The keys are computed in the order of the list: the exception is the
    one of the first task the sort cannot take. *)
Lemma keyed_raises_first (ts : list Task.t) :
  forall e, TodoApp.keyed ts = Raise e ->
            exists before task rest,
              ts = (before ++ task :: rest)%list
              /\ Forall (fun t => Spec.sortable t = true) before
              /\ Spec.sortable task = false
              /\ e = (if hashable (Task.priority task) then AttributeError
                      else TypeError).
Proof.
  induction ts as [|x ts IH]; intros e; cbn [TodoApp.keyed]; [discriminate|].
  destruct (Spec.sortable x) eqn:Es.
  - rewrite (sort_key_sortable x Es). cbn [bind].
    destruct (TodoApp.keyed ts) as [r|e'] eqn:E; cbn [bind]; [discriminate|].
    intro H. injection H as <-.
    destruct (IH e' eq_refl) as (before & task & rest & -> & Hb & Hs & He).
    exists (x :: before), task, rest. repeat split; auto.
  - rewrite (sort_key_raises x Es). cbn [bind]. intro H. injection H as <-.
    exists [], x, ts. repeat split; auto.
Qed.

(** A list has one first task the sort cannot take. *)
Lemma first_unsortable (before : list Task.t) :
  forall (task : Task.t) (rest before' : list Task.t) (task' : Task.t)
         (rest' : list Task.t),
    (before ++ task :: rest)%list = (before' ++ task' :: rest')%list ->
    Forall (fun t => Spec.sortable t = true) before ->
    Spec.sortable task = false ->
    Forall (fun t => Spec.sortable t = true) before' ->
    Spec.sortable task' = false ->
    task = task'.
Proof.
  induction before as [|x before IH];
    intros task rest [|y before'] task' rest' Heq Hb Hs Hb' Hs';
    cbn [app] in Heq.
  - now injection Heq.
  - injection Heq as -> _. inversion Hb'; subst. congruence.
  - injection Heq as -> _. inversion Hb; subst. congruence.
  - injection Heq as _ Heq.
    apply Forall_inv_tail in Hb. apply Forall_inv_tail in Hb'.
    exact (IH task rest before' task' rest' Heq Hb Hs Hb' Hs').
Qed.

(** X19. The list view cannot be drawn, and [update_task_list] raises,
    exactly when a task that matches the filter has a title that is not a
    string or a priority that cannot be a dict key; the exception is the
    [TypeError] of the priority or the [AttributeError] of the title of
    the first such task among those that match, in the order of the list
    in memory.  Tasks the filter leaves out do no harm. *)
Theorem update_task_list_raises (k : Spec.filter_kind)
    (clk : nat -> Datetime.datetime) (self : TodoApp.app) :
  ((exists e,
       TodoApp.update_task_list (Spec.filter_text k) clk self = Raise e)
   <-> exists task,
         In task (Spec.selected k clk 0 (TodoApp.tasks self))
         /\ Spec.sortable task = false)
  /\ (forall e,
        TodoApp.update_task_list (Spec.filter_text k) clk self = Raise e ->
        exists before task rest,
          Spec.selected k clk 0 (TodoApp.tasks self)
          = (before ++ task :: rest)%list
          /\ Forall (fun t => Spec.sortable t = true) before
          /\ Spec.sortable task = false
          /\ e = (if hashable (Task.priority task) then AttributeError
                  else TypeError))
  /\ (forall before task rest,
        Spec.selected k clk 0 (TodoApp.tasks self)
        = (before ++ task :: rest)%list ->
        Forall (fun t => Spec.sortable t = true) before ->
        Spec.sortable task = false ->
        TodoApp.update_task_list (Spec.filter_text k) clk self
        = Raise (if hashable (Task.priority task) then AttributeError
                 else TypeError)).
Proof.
  unfold TodoApp.update_task_list. rewrite filter_tasks_selected.
  set (sel := Spec.selected k clk 0 (TodoApp.tasks self)).
  assert (Hr : forall e,
             (pairs <- TodoApp.keyed sel ;; Ok (map snd (TodoApp.sort pairs)))
             = Raise e ->
             TodoApp.keyed sel = Raise e).
  { intros e. destruct (TodoApp.keyed sel); cbn [bind]; congruence. }
  split; [split|split].
  - intros [e H]. apply Hr, keyed_raises in H as (task & Hin & Hs & _). eauto.
  - intros (task & Hin & Hs).
    destruct (TodoApp.keyed sel) as [l|e] eqn:E; cbn [bind]; [|eauto].
    apply keyed_returns in E. rewrite Forall_forall in E.
    rewrite (E task Hin) in Hs. discriminate.
  - intros e H. apply Hr in H. exact (keyed_raises_first sel e H).
  - intros before task rest Hsel Hb Hs.
    destruct (TodoApp.keyed sel) as [l|e] eqn:E; cbn [bind].
    + apply keyed_returns in E. rewrite Forall_forall in E.
      rewrite (E task) in Hs; [discriminate|].
      rewrite Hsel. apply in_or_app. right. now left.
    + f_equal.
      destruct (keyed_raises_first sel e E)
        as (before' & task' & rest' & Hsel' & Hb' & Hs' & ->).
      rewrite Hsel in Hsel'.
      now rewrite (first_unsortable before task rest before' task' rest'
                     Hsel' Hb Hs Hb' Hs').
Qed.

Lemma update_task_list_raises_witness :
  Spec.selected Spec.All (fun _ => Spec.noon) 0
    [Spec.task_B; Spec.task_numbered; Spec.task_tagged]
  = ([Spec.task_B] ++ Spec.task_numbered :: [Spec.task_tagged])%list
  /\ Spec.sortable Spec.task_numbered = false
  /\ Spec.sortable Spec.task_tagged = false
  /\ TodoApp.update_task_list "All" (fun _ => Spec.noon)
       (TodoApp.mkapp [Spec.task_B; Spec.task_numbered; Spec.task_tagged]
          None)
     = Raise AttributeError
  /\ TodoApp.update_task_list "Completed" (fun _ => Spec.noon)
       (TodoApp.mkapp [Spec.task_B; Spec.task_numbered; Spec.task_tagged]
          None)
     = Ok [].
Proof.
  split; [reflexivity|]. split; [reflexivity|]. split; [reflexivity|].
  split; [|reflexivity].
  apply (proj2 (proj2 (update_task_list_raises Spec.All (fun _ => Spec.noon)
                         (TodoApp.mkapp
                            [Spec.task_B; Spec.task_numbered;
                             Spec.task_tagged] None)))
           [Spec.task_B] Spec.task_numbered [Spec.task_tagged] eq_refl).
  - repeat constructor.
  - reflexivity.
Defined.

Lemma count_overdue_selected clk (ts : list Task.t) :
  forall i,
    TodoApp.count_overdue clk i ts
    = List.length (Spec.selected Spec.Overdue clk i ts).
Proof.
  induction ts as [|task ts IH]; intro i;
    cbn [TodoApp.count_overdue Spec.selected Spec.matches]; [reflexivity|].
  rewrite length_app, IH.
  now destruct (Task.is_overdue (clk i) task).
Qed.

Lemma selected_length_le (k : Spec.filter_kind) clk (ts : list Task.t) :
  forall i, (List.length (Spec.selected k clk i ts) <= List.length ts)%nat.
Proof.
  induction ts as [|task ts IH]; intro i; cbn [Spec.selected List.length];
    [lia|].
  rewrite length_app. specialize (IH (S i)).
  destruct (Spec.matches k (clk i) task); cbn [List.length]; lia.
Qed.

(** X20. The number of overdue tasks the timer puts in the window title is
    the number of tasks the Overdue filter selects at the same clock
    readings, hence the length of the list the filter shows; it is at most
    the length of the list in memory. *)
Theorem overdue_count_matches_filter (clk : nat -> Datetime.datetime)
    (self : TodoApp.app) :
  TodoApp.count_overdue clk 0 (TodoApp.tasks self)
  = List.length (Spec.selected Spec.Overdue clk 0 (TodoApp.tasks self))
  /\ (TodoApp.count_overdue clk 0 (TodoApp.tasks self)
      <= List.length (TodoApp.tasks self))%nat
  /\ (forall ios,
        exists rest,
          TodoApp.signals
            (TodoApp.check_overdue_and_notifications clk clk ios self)
          = TodoApp.WindowTitle
              (List.length
                 (Spec.selected Spec.Overdue clk 0 (TodoApp.tasks self)))
            :: rest)
  /\ (forall shown,
        TodoApp.update_task_list "Overdue" clk self = Ok shown ->
        List.length shown = TodoApp.count_overdue clk 0 (TodoApp.tasks self)).
Proof.
  split; [apply count_overdue_selected|]. split; [|split].
  - rewrite count_overdue_selected. apply selected_length_le.
  - intro ios. cbn [TodoApp.check_overdue_and_notifications TodoApp.signals].
    rewrite count_overdue_selected. eauto.
  - intros shown. change "Overdue" with (Spec.filter_text Spec.Overdue).
    unfold TodoApp.update_task_list. rewrite filter_tasks_selected.
    rewrite count_overdue_selected.
    destruct (TodoApp.keyed (Spec.selected Spec.Overdue clk 0
                               (TodoApp.tasks self))) as [pairs|] eqn:E;
      [|discriminate].
    cbn [bind]. intro H. injection H as <-.
    rewrite length_map, (Permutation_length (sort_perm pairs)).
    apply keyed_pairs in E. subst pairs. now rewrite length_map.
Qed.

(** ** The lead time in the edit dialog *)

(** X21. The edit dialog opens on the entry of the task's lead time when
    that is one of the nine (5, 15, 30, 60, 120, 240, 1440, 2880, 10080
    minutes), and [get_task_data] reads that entry back as the same number
    of minutes; for every other integer, a boolean, a string or none it
    opens on "30 minutes", so that accepting the dialog replaces the lead
    time by 30; a list or a dict raises [TypeError]. *)
Theorem load_notify_timing_round_trip :
  (forall n,
      In n Spec.allowed_minutes ->
      exists text,
        TaskDialog.load_notify_timing (PInt n) = Ok text
        /\ TaskDialog.timing_get TaskDialog.timing_map text 30 = n)
  /\ (forall n,
        ~ In n Spec.allowed_minutes ->
        TaskDialog.load_notify_timing (PInt n) = Ok "30 minutes")
  /\ (forall v,
        hashable v = true -> (forall n, v <> PInt n) ->
        TaskDialog.load_notify_timing v = Ok "30 minutes")
  /\ (forall v,
        hashable v = false ->
        TaskDialog.load_notify_timing v = Raise TypeError)
  /\ TaskDialog.timing_get TaskDialog.timing_map "30 minutes" 30 = 30.
Proof.
  split; [|split; [|split; [|split]]].
  - intros n Hn. cbn [Spec.allowed_minutes In] in Hn.
    repeat (destruct Hn as [<-|Hn]; [eexists; split; reflexivity|]).
    destruct Hn.
  - intros n Hn. unfold TaskDialog.load_notify_timing,
      TaskDialog.load_timing_map, TaskDialog.load_timing_get.
    cbn [Spec.allowed_minutes In] in Hn.
    repeat match goal with
           | |- context [(n =? ?k)%Z] =>
               destruct (Z.eqb_spec n k); [exfalso; apply Hn; subst; tauto|]
           end.
    reflexivity.
  - intros v Hh Hv. destruct v as [|b|n| | |]; try reflexivity;
      try discriminate.
    + now destruct b.
    + now elim (Hv n).
  - intros v Hh. destruct v; try discriminate; reflexivity.
  - reflexivity.
Qed.

Lemma load_notify_timing_round_trip_witness :
  In 1440 Spec.allowed_minutes
  /\ exists text,
       TaskDialog.load_notify_timing (PInt 1440) = Ok text
       /\ TaskDialog.timing_get TaskDialog.timing_map text 30 = 1440.
Proof.
  assert (H : In 1440 Spec.allowed_minutes)
    by (cbn; tauto).
  split; [exact H|].
  apply (proj1 load_notify_timing_round_trip 1440 H).
Defined.

(** ** Completion and the reminders *)

(** X22. Marking a task complete silences it: once toggled from not
    completed, it is not overdue and [should_notify] returns false at
    every clock reading.  Marking it incomplete again restores both answers
    to what they were. *)
Theorem completion_silences (now : Datetime.datetime) (task : Task.t) :
  truthy (Task.completed task) = false ->
  Task.is_overdue now (TodoApp.toggle task) = false
  /\ Task.should_notify now (TodoApp.toggle task) = Ok false
  /\ Task.is_overdue now (TodoApp.toggle (TodoApp.toggle task))
     = Task.is_overdue now task
  /\ Task.should_notify now (TodoApp.toggle (TodoApp.toggle task))
     = Task.should_notify now task.
Proof.
  intro Hc. unfold TodoApp.toggle, Task.is_overdue, Task.should_notify,
    Task.get_deadline_datetime.
  cbn [Task.set_completed Task.completed Task.deadline Task.deadline_time
       Task.notify_enabled Task.notified Task.notify_before_minutes truthy].
  rewrite Hc. cbn [negb]. repeat split.
  - now destruct (Task.deadline task), (Task.deadline_time task).
  - now rewrite orb_true_r.
Qed.

Lemma completion_silences_witness :
  truthy (Task.completed Spec.task_fraction) = false
  /\ Task.should_notify Spec.quarter_before Spec.task_fraction = Ok true
  /\ Task.should_notify Spec.quarter_before (TodoApp.toggle Spec.task_fraction)
     = Ok false.
Proof.
  split; [reflexivity|]. split; [reflexivity|].
  apply (proj1 (proj2 (completion_silences Spec.quarter_before
                         Spec.task_fraction eq_refl))).
Defined.

(** ** The filters *)

(** X23. The filter of [update_task_list] keeps every task under "All",
    and a task under at most one of the three priority entries; the
    weight the sort then looks up in [priority_order] is 3, 2 or 1 for the
    entry that keeps it.  A task that none of the three keeps, with a
    priority that can be a dict key, is still given the weight 2 by the
    sort and stands among the Medium tasks under "All".  No task is kept
    under "Overdue" and under "Completed" at the same clock reading, and
    a text that is none of the six entries keeps no task. *)
Theorem filters_partition (now : Datetime.datetime) (task : Task.t) :
  TodoApp.keep "All" now task = true
  /\ (TodoApp.keep "High Priority" now task = true ->
      TodoApp.keep "Medium Priority" now task = false
      /\ TodoApp.keep "Low Priority" now task = false
      /\ TodoApp.priority_order_get (Task.priority task) 2 = Ok 3)
  /\ (TodoApp.keep "Medium Priority" now task = true ->
      TodoApp.keep "High Priority" now task = false
      /\ TodoApp.keep "Low Priority" now task = false
      /\ TodoApp.priority_order_get (Task.priority task) 2 = Ok 2)
  /\ (TodoApp.keep "Low Priority" now task = true ->
      TodoApp.keep "High Priority" now task = false
      /\ TodoApp.keep "Medium Priority" now task = false
      /\ TodoApp.priority_order_get (Task.priority task) 2 = Ok 1)
  /\ (TodoApp.keep "High Priority" now task = false ->
      TodoApp.keep "Medium Priority" now task = false ->
      TodoApp.keep "Low Priority" now task = false ->
      hashable (Task.priority task) = true ->
      TodoApp.priority_order_get (Task.priority task) 2 = Ok 2)
  /\ (TodoApp.keep "Overdue" now task = true ->
      TodoApp.keep "Completed" now task = false)
  /\ (forall filter_text,
        ~ In filter_text
            ["All"; "High Priority"; "Medium Priority"; "Low Priority";
             "Overdue"; "Completed"] ->
        TodoApp.keep filter_text now task = false).
Proof.
  assert (Hlast : TodoApp.keep "Overdue" now task = true ->
                  TodoApp.keep "Completed" now task = false).
  { unfold TodoApp.keep. cbn [String.eqb Ascii.eqb Bool.eqb andb].
    intro H. destruct (Task.is_overdue now task) eqn:Eo; [|discriminate].
    now rewrite (is_overdue_not_completed now task Eo). }
  assert (Hother : forall filter_text,
             ~ In filter_text
                 ["All"; "High Priority"; "Medium Priority"; "Low Priority";
                  "Overdue"; "Completed"] ->
             TodoApp.keep filter_text now task = false).
  { intros filter_text Hn. unfold TodoApp.keep.
    repeat match goal with
           | |- context [String.eqb filter_text ?lit] =>
               destruct (String.eqb_spec filter_text lit);
                 [exfalso; apply Hn; subst; cbn; tauto|]
           end.
    reflexivity. }
  split; [reflexivity|].
  split; [|split; [|split; [|split; [|split; [exact Hlast | exact Hother]]]]];
    clear Hlast Hother;
    unfold TodoApp.keep, TodoApp.priority_order_get, TodoApp.priority_order,
      TaskDialog.timing_get, eq_str, hashable;
    cbn [String.eqb Ascii.eqb Bool.eqb andb];
    (destruct (Task.priority task) as [| | |s| |];
     [ | | | destruct (String.eqb s "High") eqn:Eh;
             destruct (String.eqb s "Medium") eqn:Em;
             destruct (String.eqb s "Low") eqn:El;
             rewrite ?String.eqb_eq in *; subst | | ]);
    intros; try discriminate; repeat split; try reflexivity;
    try discriminate.
Qed.

Lemma filters_partition_witness :
  TodoApp.keep "High Priority" Spec.noon Spec.task_A = true
  /\ TodoApp.keep "Medium Priority" Spec.noon Spec.task_A = false
  /\ TodoApp.priority_order_get (Task.priority Spec.task_A) 2 = Ok 3
  /\ TodoApp.keep "Urgent" Spec.noon Spec.task_A = false.
Proof.
  split; [reflexivity|].
  destruct (proj1 (proj2 (filters_partition Spec.noon Spec.task_A)) eq_refl)
    as (Hm & _ & Hw).
  split; [exact Hm|]. split; [exact Hw|].
  apply (proj2 (proj2 (proj2 (proj2 (proj2 (proj2
           (filters_partition Spec.noon Spec.task_A))))))).
  cbn [In]. intros [H|[H|[H|[H|[H|[H|[]]]]]]]; discriminate H.
Defined.
